(** * Context-continuity scripts: ledger, repair, branch graph, typed memory
      and context compiler

    A shallow embedding of the Python scripts under
    [skills/context-continuity/scripts] and the properties their
    specification states about them.

    Conventions of the embedding.
    - A Python [str] is a [string]; every [ascii] stands for one code point
      below 256, so [len], [strip] and [lower] are the Python operations
      restricted to that range.
    - A Python [int] is a [Z].
    - A JSON value ([json.loads] / [json.dumps]) is a [jvalue]; floats are
      left out.  A top-level [dict] that the code updates by key (an event,
      the typed-memory payload, the branch table) is a [gmap string _].
    - A JSON-lines file is the list of its lines as [json.loads] reads them,
      with a mark at the end where the last line lacks its newline (see
      [Ledger.line]).
    - [==] and [!=] between JSON values are Python's ([Json.py_eq]).
    - Clock readings, random identifiers and SHA-256 are inputs of the
      functions that use them. *)

From Stdlib Require Import ZArith String Ascii List Bool Lia.
From stdpp Require Import gmap strings list fin_maps sorting.

Set Warnings "-register-all".
Open Scope Z_scope.

(** ** Python strings and slices *)

Module Py.

Definition nl : string := String (ascii_of_nat 10) EmptyString.

Definition dquote : string := String (ascii_of_nat 34) EmptyString.

(** [len(s)] *)
Definition len (s : string) : Z := Z.of_nat (String.length s).

(** [c.isspace()] for a code point below 256. *)
Definition is_space (c : ascii) : bool :=
  let n := N_of_ascii c in
  ((9 <=? n)%N && (n <=? 13)%N) || ((28 <=? n)%N && (n <=? 32)%N)
  || (n =? 133)%N || (n =? 160)%N.

Fixpoint lstrip (s : string) : string :=
  match s with
  | EmptyString => EmptyString
  | String c s' => if is_space c then lstrip s' else s
  end.

Fixpoint rstrip (s : string) : string :=
  match s with
  | EmptyString => EmptyString
  | String c s' =>
      match rstrip s' with
      | EmptyString => if is_space c then EmptyString else String c EmptyString
      | r => String c r
      end
  end.

(** [s.strip()] *)
Definition strip (s : string) : string := rstrip (lstrip s).

(** [c.lower()] for a code point below 256: A-Z and the Latin-1 capitals. *)
Definition lower_char (c : ascii) : ascii :=
  let n := N_of_ascii c in
  if ((65 <=? n)%N && (n <=? 90)%N)
     || ((192 <=? n)%N && (n <=? 222)%N && negb (n =? 215)%N)
  then ascii_of_N (n + 32) else c.

Fixpoint lower (s : string) : string :=
  match s with
  | EmptyString => EmptyString
  | String c s' => String (lower_char c) (lower s')
  end.

(** [s.replace(c, r)] for a one-character [c]. *)
Fixpoint replace_char (c : ascii) (r : string) (s : string) : string :=
  match s with
  | EmptyString => EmptyString
  | String d s' =>
      if Ascii.eqb c d then r +:+ replace_char c r s'
      else String d (replace_char c r s')
  end.

(** [sep.join(parts)] *)
Fixpoint join (sep : string) (parts : list string) : string :=
  match parts with
  | [] => EmptyString
  | [p] => p
  | p :: rest => p +:+ sep +:+ join sep rest
  end.

(** [needle in hay] *)
Fixpoint contains (needle hay : string) : bool :=
  String.prefix needle hay
  || match hay with
     | EmptyString => false
     | String _ hay' => contains needle hay'
     end.

(** [s[:n]] for [n >= 0]. *)
Definition prefix_of (n : nat) (s : string) : string := String.substring 0 n s.

Definition digit (d : Z) : ascii := ascii_of_N (48 + Z.to_N d).

(** Decimal digits of [n >= 0], most significant first.  [fuel] bounds the
    number of digits; [str_nat] supplies more than [n] has. *)
Fixpoint dec_digits (fuel : nat) (n : Z) : string :=
  match fuel with
  | O => EmptyString
  | S f =>
      if n <? 10 then String (digit n) EmptyString
      else dec_digits f (n / 10) +:+ String (digit (n mod 10)) EmptyString
  end.

Definition str_nat (n : Z) : string := dec_digits (S (Z.to_nat (Z.log2 n))) n.

(** [str(n)] for an [int]. *)
Definition str_int (n : Z) : string :=
  if n <? 0 then String "-"%char (str_nat (- n)) else str_nat n.

(** [l[:m]] *)
Definition slice_to {A} (m : Z) (l : list A) : list A :=
  if 0 <=? m then take (Z.to_nat m) l
  else take (length l - Z.to_nat (- m)) l.

(** [l[m:]] *)
Definition slice_from {A} (m : Z) (l : list A) : list A :=
  if 0 <=? m then drop (Z.to_nat m) l
  else drop (length l - Z.to_nat (- m)) l.

(** [unique_keep_order] of memory_store.py: first occurrences, in order.
    [seen] is the set the loop carries. *)
Fixpoint unique_from (seen : gset string) (items : list string) : list string :=
  match items with
  | [] => []
  | item :: rest =>
      if decide (item ∈ seen) then unique_from seen rest
      else item :: unique_from ({[item]} ∪ seen) rest
  end.

Definition unique_keep_order (items : list string) : list string :=
  unique_from ∅ items.

(** [a or b] on strings *)
Definition or_str (a b : string) : string :=
  if String.eqb a EmptyString then b else a.

(** [approx_tokens] of memory_store.py: [max(1, (len(text) + 3) // 4)]. *)
Definition approx_tokens (text : string) : Z := Z.max 1 ((len text + 3) / 4).

End Py.

(** ** JSON values *)

Inductive jvalue :=
| JNull
| JBool (b : bool)
| JInt (n : Z)
| JStr (s : string)
| JArr (items : list jvalue)
| JObj (fields : list (string * jvalue)).

Lemma jvalue_eq_dec : forall a b : jvalue, {a = b} + {a <> b}.
Proof.
  fix IH 1. decide equality.
  - apply bool_eq_dec.
  - apply Z.eq_dec.
  - apply String.string_dec.
  - apply List.list_eq_dec, IH.
  - apply List.list_eq_dec. decide equality. apply String.string_dec.
Defined.

#[global] Instance jvalue_eq : EqDecision jvalue := jvalue_eq_dec.

Module Json.

(** Truth value of a JSON value in a Python condition. *)
Definition truthy (v : jvalue) : bool :=
  match v with
  | JNull => false
  | JBool b => b
  | JInt n => negb (n =? 0)
  | JStr s => negb (String.eqb s EmptyString)
  | JArr items => match items with [] => false | _ => true end
  | JObj fields => match fields with [] => false | _ => true end
  end.

(** [d.get(k) or default] *)
Definition get_or (d : gmap string jvalue) (k : string) (default : jvalue) : jvalue :=
  match d !! k with
  | Some v => if truthy v then v else default
  | None => default
  end.

(** [v in (None, [], {}, "")]: the values [append_event] drops. *)
Definition is_blank (v : jvalue) : bool :=
  match v with
  | JNull | JArr [] | JObj [] | JStr EmptyString => true
  | _ => false
  end.

(** The string escapes of [json.dumps(..., ensure_ascii=False)]. *)
Definition hex_digit (n : N) : ascii :=
  if (n <? 10)%N then ascii_of_N (48 + n) else ascii_of_N (87 + n).

Definition escape_char (c : ascii) : string :=
  let n := N_of_ascii c in
  if (n =? 34)%N then "\" +:+ Py.dquote
  else if (n =? 92)%N then "\\"
  else if (n =? 10)%N then "\n"
  else if (n =? 13)%N then "\r"
  else if (n =? 9)%N then "\t"
  else if (n =? 8)%N then "\b"
  else if (n =? 12)%N then "\f"
  else if (n <? 32)%N then
    "\u00" +:+ String (hex_digit (n / 16)) (String (hex_digit (n mod 16)) EmptyString)
  else String c EmptyString.

Fixpoint escape (s : string) : string :=
  match s with
  | EmptyString => EmptyString
  | String c s' => escape_char c +:+ escape s'
  end.

Definition quote (s : string) : string := Py.dquote +:+ escape s +:+ Py.dquote.

(** [sorted(items)] on (key, text) pairs: insertion by key, stable. *)
Fixpoint insert_by_key (kv : string * string) (l : list (string * string)) :
  list (string * string) :=
  match l with
  | [] => [kv]
  | kv' :: l' =>
      if String.ltb kv.1 kv'.1 then kv :: l
      else kv' :: insert_by_key kv l'
  end.

Definition sort_by_key (l : list (string * string)) : list (string * string) :=
  foldr insert_by_key [] (reverse l).

Fixpoint spaces (n : nat) : string :=
  match n with
  | O => EmptyString
  | S n' => String " "%char (spaces n')
  end.

(** A container's text from the texts of its parts.  [ind = None] is the
    compact form; [ind = Some k] is [indent=k] at nesting depth [lvl]. *)
Definition wrap (opening closing : string) (ind : option nat) (lvl : nat)
  (parts : list string) : string :=
  match parts, ind with
  | [], _ => opening +:+ closing
  | _, None => opening +:+ Py.join "," parts +:+ closing
  | _, Some k =>
      let inner := Py.nl +:+ spaces (k * S lvl) in
      opening +:+ inner +:+ Py.join ("," +:+ inner) parts
      +:+ Py.nl +:+ spaces (k * lvl) +:+ closing
  end.

(** [json.dumps(v, ensure_ascii=False, sort_keys=True, ...)]: [ksep] is the
    key separator, the item separator is a comma. *)
Fixpoint dumps_at (ind : option nat) (ksep : string) (lvl : nat) (v : jvalue) : string :=
  match v with
  | JNull => "null"
  | JBool true => "true"
  | JBool false => "false"
  | JInt n => Py.str_int n
  | JStr s => quote s
  | JArr items =>
      wrap "[" "]" ind lvl
        ((fix go (l : list jvalue) : list string :=
            match l with
            | [] => []
            | x :: l' => dumps_at ind ksep (S lvl) x :: go l'
            end) items)
  | JObj fields =>
      wrap "{" "}" ind lvl
        (map (fun kv : string * string => quote kv.1 +:+ ksep +:+ kv.2)
           (sort_by_key
              ((fix go (l : list (string * jvalue)) : list (string * string) :=
                  match l with
                  | [] => []
                  | (k, x) :: l' => (k, dumps_at ind ksep (S lvl) x) :: go l'
                  end) fields)))
  end.

(** [stable_json] of memory_store.py:
    [json.dumps(obj, ensure_ascii=False, separators=(",", ":"), sort_keys=True)]. *)
Definition stable_json (obj : gmap string jvalue) : string :=
  dumps_at None ":" 0 (JObj (map_to_list obj)).

(** [json.dumps(payload, ensure_ascii=False, indent=2, sort_keys=True)]. *)
Definition dumps_indent2 (obj : gmap string jvalue) : string :=
  dumps_at (Some 2%nat) ": " 0 (JObj (map_to_list obj)).

(** What [for x in v] yields; [None] where Python raises [TypeError]. *)
Definition iter (v : jvalue) : option (list jvalue) :=
  match v with
  | JArr items => Some items
  | JObj fields => Some (map (fun kv : string * jvalue => JStr kv.1) fields)
  | JStr s => Some (map (fun c => JStr (String c EmptyString)) (list_ascii_of_string s))
  | _ => None
  end.

(** [repr(s)] for a string: single quotes unless the text has a single
    quote and no double quote. *)
Definition repr_char (q : ascii) (c : ascii) : string :=
  let n := N_of_ascii c in
  if Ascii.eqb c q then String "\"%char (String c EmptyString)
  else if (n =? 92)%N then "\\"
  else if (n =? 10)%N then "\n"
  else if (n =? 13)%N then "\r"
  else if (n =? 9)%N then "\t"
  else if (n <? 32)%N || ((127 <=? n)%N && (n <=? 160)%N) || (n =? 173)%N then
    "\x" +:+ String (hex_digit (n / 16)) (String (hex_digit (n mod 16)) EmptyString)
  else String c EmptyString.

Fixpoint repr_chars (q : ascii) (s : string) : string :=
  match s with
  | EmptyString => EmptyString
  | String c s' => repr_char q c +:+ repr_chars q s'
  end.

Definition repr_str (s : string) : string :=
  let q := if Py.contains "'" s && negb (Py.contains Py.dquote s)
           then ascii_of_nat 34 else "'"%char in
  String q (repr_chars q s) +:+ String q EmptyString.

(** [repr(v)] *)
Fixpoint repr (v : jvalue) : string :=
  match v with
  | JNull => "None"
  | JBool true => "True"
  | JBool false => "False"
  | JInt n => Py.str_int n
  | JStr s => repr_str s
  | JArr items =>
      "[" +:+ Py.join ", "
        ((fix go (l : list jvalue) : list string :=
            match l with
            | [] => []
            | x :: l' => repr x :: go l'
            end) items) +:+ "]"
  | JObj fields =>
      "{" +:+ Py.join ", "
        ((fix go (l : list (string * jvalue)) : list string :=
            match l with
            | [] => []
            | (k, x) :: l' => (repr_str k +:+ ": " +:+ repr x) :: go l'
            end) fields) +:+ "}"
  end.

(** [str(v)] *)
Definition str (v : jvalue) : string :=
  match v with
  | JStr s => s
  | _ => repr v
  end.

(** Python's [==] on JSON values: a [bool] equals the [int] it stands for
    ([True == 1], [False == 0]); lists are equal item by item; dicts are
    equal when they have as many keys and every key of the first has an
    equal value in the second. *)
Fixpoint py_eq (a b : jvalue) {struct a} : bool :=
  match a, b with
  | JNull, JNull => true
  | JBool x, JBool y => Bool.eqb x y
  | JInt x, JInt y => x =? y
  | JBool x, JInt y => (if x then 1 else 0) =? y
  | JInt x, JBool y => x =? (if y then 1 else 0)
  | JStr x, JStr y => String.eqb x y
  | JArr xs, JArr ys =>
      (fix go (xs ys : list jvalue) {struct xs} : bool :=
         match xs, ys with
         | [], [] => true
         | x :: xs', y :: ys' => py_eq x y && go xs' ys'
         | _, _ => false
         end) xs ys
  | JObj xs, JObj ys =>
      (length xs =? length ys)%nat
      && (fix go (xs : list (string * jvalue)) : bool :=
            match xs with
            | [] => true
            | (k, v) :: xs' =>
                existsb (fun kw : string * jvalue => String.eqb k kw.1 && py_eq v kw.2) ys
                && go xs'
            end) xs
  | _, _ => false
  end.

(** [a == b] on two dicts. *)
Definition py_eq_dict (a b : gmap string jvalue) : bool :=
  py_eq (JObj (map_to_list a)) (JObj (map_to_list b)).

End Json.

(** ** The event ledger (memory_store.py) *)

Module Ledger.

(** One line of [events.jsonl] as a reader sees it: blank after [strip],
    rejected by [json.loads], a JSON value that is no object, or an object.
    [append_jsonl] writes [stable_json(obj)] and a newline, which reads back
    as [Obj obj] where it starts a line.  [NoNewline] is no line: as the
    last entry it says that the file does not end in a newline, so that
    the line before it is still open; readers pass over it. *)
Inductive line :=
| Blank
| Malformed
| NonObject
| Obj (e : gmap string jvalue)
| NoNewline.

(** The file: [None] while the path does not exist. *)
Definition file := option (list line).

Definition lines_of (f : file) : list line := default [] f.

Definition nonblank (l : line) : bool :=
  match l with
  | Blank | NoNewline => false
  | _ => true
  end.

(** The objects of a file, in order. *)
Definition objects (f : file) : list (gmap string jvalue) :=
  omap (fun l => match l with Obj e => Some e | _ => None end) (lines_of f).

Definition read_last_jsonl_obj (f : file) : option (gmap string jvalue) :=
  match f with
  | None => None
  | Some ls =>
      match last (List.filter nonblank ls) with
      | Some (Obj e) => Some e
      | _ => None
      end
  end.

Definition count_nonempty_lines (f : file) : Z :=
  match f with
  | None => 0
  | Some ls => Z.of_nat (length (List.filter nonblank ls))
  end.

(** The open last line of a file that does not end in a newline, and the
    lines before it. *)
Definition open_tail (ls : list line) : option (list line * line) :=
  match reverse ls with
  | NoNewline :: l :: before => Some (reverse before, l)
  | _ => None
  end.

(** Whether the file ends in a newline, as an absent or empty file does. *)
Definition terminated (f : file) : bool :=
  match open_tail (lines_of f) with
  | Some _ => false
  | None => true
  end.

(** An open line once [stable_json(obj)] and a newline are written straight
    after it: blank space before the record leaves the record readable;
    after anything else the joined text is no JSON. *)
Definition glued (l : line) (obj : gmap string jvalue) : line :=
  match l with
  | Blank => Obj obj
  | _ => Malformed
  end.

(** [append_jsonl] opens the file with ["a"] and writes at its end: a new
    line where the file ends in a newline, the rest of the open line where
    it does not. *)
Definition append_jsonl (f : file) (obj : gmap string jvalue) : file :=
  Some (match open_tail (lines_of f) with
        | Some (before, l) => before ++ [glued l obj]
        | None => lines_of f ++ [Obj obj]
        end).

(** The keyword arguments of [append_event]. *)
Record fields := {
  repo_root : string;
  repo_id_value : string;
  kind : string;
  status : string;
  summary : string;
  source : string;
  task : option string;
  paths : option (list string);
  symbols : option (list string);
  commands : option (list string);
  refs : option (list string);
  payload : option (list (string * jvalue));
}.

(** What one call reads from outside: [utc_now_iso()] for the identifier,
    [uuid.uuid4().hex], and [utc_now_iso()] for the timestamp. *)
Record readings := {
  now_for_id : string;
  uuid4_hex : string;
  now_for_timestamp : string;
}.

(** [unique_keep_order([p.strip() for p in (items or []) if p and p.strip()])] *)
Definition clean_list (items : option (list string)) : list string :=
  Py.unique_keep_order
    (map Py.strip
       (List.filter
          (fun p => negb (String.eqb p EmptyString)
                    && negb (String.eqb (Py.strip p) EmptyString))
          (default [] items))).

Definition str_list (l : list string) : jvalue := JArr (map JStr l).

Definition make_event_id (r : readings) : string :=
  Py.replace_char "Z" EmptyString
    (Py.replace_char "T" "-"
       (Py.replace_char "-" EmptyString
          (Py.replace_char ":" EmptyString (now_for_id r))))
  +:+ "-" +:+ Py.prefix_of 8 (uuid4_hex r).

Definition prev_hash_of (last_event : option (gmap string jvalue)) : string :=
  match last_event with
  | Some e =>
      match e !! "hash" with
      | Some h => if Json.truthy h then Json.str h else EmptyString
      | None => EmptyString
      end
  | None => EmptyString
  end.

Definition next_seq (f : file) (last_event : option (gmap string jvalue)) : Z :=
  match last_event with
  | Some e =>
      match e !! "seq" with
      | Some (JInt n) => n + 1
      | Some (JBool b) => (if b then 1 else 0) + 1
      | _ => count_nonempty_lines f + 1
      end
  | None => count_nonempty_lines f + 1
  end.

Definition opt_str (s : string) : jvalue :=
  if String.eqb s EmptyString then JNull else JStr s.

(** The record before filtering, as (key, value) pairs. *)
Definition event_items (a : fields) (r : readings) (seq : Z) (prev_hash : string) :
  list (string * jvalue) :=
  [ ("schema", JStr "context-continuity-event-v1");
    ("seq", JInt seq);
    ("event_id", JStr (make_event_id r));
    ("timestamp", JStr (now_for_timestamp r));
    ("repo_root", JStr (repo_root a));
    ("repo_id", JStr (repo_id_value a));
    ("kind", JStr (Py.strip (kind a)));
    ("status", JStr (Py.strip (status a)));
    ("summary", JStr (Py.strip (summary a)));
    ("source", JStr (Py.strip (source a)));
    ("task", match task a with
             | Some t => opt_str (Py.strip t)
             | None => JNull
             end);
    ("paths", str_list (clean_list (paths a)));
    ("symbols", str_list (clean_list (symbols a)));
    ("commands", str_list (clean_list (commands a)));
    ("refs", str_list (clean_list (refs a)));
    ("payload", JObj (default [] (payload a)));
    ("prev_hash", opt_str prev_hash) ].

Definition drop_blank (items : list (string * jvalue)) : gmap string jvalue :=
  list_to_map (List.filter (fun kv => negb (Json.is_blank kv.2)) items).

Section WithDigest.

(** [hashlib.sha256(text.encode("utf-8")).hexdigest()] *)
Variable sha256_hex : string -> string.

Definition hash_event (payload_without_hash : gmap string jvalue) : string :=
  sha256_hex (Json.stable_json payload_without_hash).

(** [append_event]: the record returned and the file afterwards.  The lock
    makes the read, the computation and the write one step. *)
Definition append_event (f : file) (a : fields) (r : readings) :
  gmap string jvalue * file :=
  let last_event := read_last_jsonl_obj f in
  let prev_hash := prev_hash_of last_event in
  let seq := next_seq f last_event in
  let event_no_hash := drop_blank (event_items a r seq prev_hash) in
  let event_hash := hash_event event_no_hash in
  let event := <["hash" := JStr event_hash]> event_no_hash in
  (event, append_jsonl f event).

(** A ledger written by successive calls only. *)
Fixpoint append_all (f : file) (calls : list (fields * readings)) : file :=
  match calls with
  | [] => f
  | (a, r) :: rest => append_all (append_event f a r).2 rest
  end.

(** The chain as the specification states it, over the objects of a file:
    each record's [hash] is the digest of the record without it, and each
    record after the first carries the [hash] of the one before it as
    [prev_hash]. *)
Definition hash_ok (e : gmap string jvalue) : Prop :=
  e !! "hash" = Some (JStr (hash_event (delete "hash" e))).

Definition linked (prev e : gmap string jvalue) : Prop :=
  exists h, prev !! "hash" = Some (JStr h) /\ e !! "prev_hash" = Some (JStr h).

Definition canonical (e : gmap string jvalue) : Prop :=
  forall k v, delete "hash" e !! k = Some v -> Json.is_blank v = false.

End WithDigest.

End Ledger.

(** ** Chain repair (repair_events_chain.py) *)

Module Repair.

(** [load_events]: the objects of the non-blank lines; [None] where the
    script exits on a line that is no JSON object. *)
Fixpoint load_lines (ls : list Ledger.line) : option (list (gmap string jvalue)) :=
  match ls with
  | [] => Some []
  | Ledger.Blank :: rest => load_lines rest
  | Ledger.NoNewline :: rest => load_lines rest
  | Ledger.Obj e :: rest => cons e <$> load_lines rest
  | _ :: _ => None
  end.

Definition load_events (f : Ledger.file) : option (list (gmap string jvalue)) :=
  match f with
  | None => Some []
  | Some ls => load_lines ls
  end.

Section WithDigest.

Variable sha256_hex : string -> string.

(** The loop of [normalize_chain], entered with the [prev_hash] and [seq]
    it carries. *)
Fixpoint normalize_from (prev_hash : string) (seq : Z)
  (events : list (gmap string jvalue)) : list (gmap string jvalue) :=
  match events with
  | [] => []
  | event :: rest =>
      let seq := seq + 1 in
      let with_seq := <["seq" := JInt seq]> event in
      let with_prev :=
        if String.eqb prev_hash EmptyString then delete "prev_hash" with_seq
        else <["prev_hash" := JStr prev_hash]> with_seq in
      let without_hash := delete "hash" with_prev in
      let new_hash := Ledger.hash_event sha256_hex without_hash in
      <["hash" := JStr new_hash]> without_hash :: normalize_from new_hash seq rest
  end.

Definition normalize_chain (events : list (gmap string jvalue)) :
  list (gmap string jvalue) :=
  normalize_from EmptyString 0 events.

(** [any(events[i] != repaired[i] for i in range(len(events)))], where
    [!=] is Python's on dicts. *)
Definition changed (events repaired : list (gmap string jvalue)) : bool :=
  existsb (fun p : gmap string jvalue * gmap string jvalue => negb (Json.py_eq_dict p.1 p.2))
    (zip events repaired).

(** [write_events]: one [stable_json] line per event replaces the file. *)
Definition write_events (events : list (gmap string jvalue)) : Ledger.file :=
  Some (map Ledger.Obj events).

Inductive status :=
| InvalidInput
| NothingToRepair
| DryRunComplete
| AlreadyConsistent
| Repaired.

Record report := {
  rep_status : status;
  rep_changed : bool;
  rep_events_file : Ledger.file;
  rep_backup : option (string * Ledger.file);
}.

(** [main]: [stamp] is the time in the backup's name. *)
Definition main (f : Ledger.file) (dry_run : bool) (stamp : string) : report :=
  match load_events f with
  | None => Build_report InvalidInput false f None
  | Some [] => Build_report NothingToRepair false f None
  | Some events =>
      let repaired := normalize_chain events in
      let ch := changed events repaired in
      if dry_run then Build_report DryRunComplete ch f None
      else if negb ch then Build_report AlreadyConsistent ch f None
      else Build_report Repaired ch (write_events repaired)
             (Some (".bak." +:+ stamp, f))
  end.

End WithDigest.

End Repair.

(** ** Branches, commits and merges (context_ops.py) *)

Module ContextOps.

Definition CTX_SCHEMA : string := "context-continuity-context-ops-v1".

Definition DEFAULT_TRACKED_FILES : list string :=
  [ "ACTIVE_TASK.md"; "PROJECT_MEMORY.md"; "DECISIONS.md"; "planning/ACTIVE.md";
    "typed-memory.json"; "rehydrated/latest.md" ].

(** The ref set of [refs.json].  A head is [None] for JSON [null]. *)
Record refs := {
  schema : string;
  created_at : string;
  updated_at : string;
  active_branch : string;
  branches : gmap string (option string);
}.

(** An entry under the memory root. *)
Inductive fs_entry :=
| RegularFile (data : string)
| Directory.

(** What the operations read and write: [refs.json] ([None] while it is
    missing or holds no non-empty object), the commit files by commit id, the
    entries of the memory root by relative path, and the event ledger. *)
Record store := {
  refs_file : option refs;
  commit_files : gmap string (gmap string jvalue);
  artifacts : gmap string fs_entry;
  events : Ledger.file;
}.

(** The clock readings of one run, in the order the code takes them. *)
Record readings := {
  now_created : string;
  now_first_update : string;
  now_commit : string;
  now_write : string;
  event_readings : Ledger.readings;
}.

Inductive policy := Off | OnChange | Always.

Inductive action := Init | Status | Commit | Branch | Switch | Merge.

Record args := {
  arg_action : action;
  arg_name : string;
  arg_from_ref : string;
  arg_branch : string;
  arg_source : string;
  arg_target : string;
  arg_message : string;
  arg_meta : gmap string jvalue;
  arg_record_event : policy;
  arg_repo_root : string;
  arg_mem_root : string;
  arg_repo_id : string;
}.

(** A head in a Python condition: [None] and the empty string are false. *)
Definition head_truthy (h : option string) : bool :=
  match h with
  | Some s => negb (String.eqb s EmptyString)
  | None => false
  end.

Definition head_json (h : option string) : jvalue :=
  match h with
  | Some s => JStr s
  | None => JNull
  end.

(** [branches.get(name)] *)
Definition head_of (bs : gmap string (option string)) (name : string) : option string :=
  default None (bs !! name).

Definition default_refs (r : readings) : refs :=
  {| schema := CTX_SCHEMA;
     created_at := now_created r;
     updated_at := now_first_update r;
     active_branch := "main";
     branches := {["main" := None]} |}.

(** [_read_refs]: the ref set in memory and the store, where a missing file
    has been created. *)
Definition read_refs (st : store) (r : readings) : refs * store :=
  let (loaded, st') :=
    match refs_file st with
    | Some rf => (rf, st)
    | None =>
        let rf := default_refs r in
        (rf, {| refs_file := Some rf; commit_files := commit_files st;
                artifacts := artifacts st; events := events st |})
    end in
  let fixed :=
    if String.eqb (Py.strip (active_branch loaded)) EmptyString
    then {| schema := schema loaded; created_at := created_at loaded;
            updated_at := updated_at loaded; active_branch := "main";
            branches := branches loaded |}
    else loaded in
  (fixed, st').

(** [_write_refs] *)
Definition write_refs (st : store) (rf : refs) (r : readings) : store :=
  {| refs_file := Some {| schema := CTX_SCHEMA; created_at := created_at rf;
                          updated_at := now_write r;
                          active_branch := active_branch rf;
                          branches := branches rf |};
     commit_files := commit_files st;
     artifacts := artifacts st;
     events := events st |}.

(** [_resolve_from_ref] *)
Definition resolve_from_ref (rf : refs) (raw_from : string) : option string :=
  let candidate := Py.strip raw_from in
  if String.eqb candidate EmptyString then head_of (branches rf) (active_branch rf)
  else match branches rf !! candidate with
       | Some h => h
       | None => Some candidate
       end.

Section WithDigest.

Variable sha256_hex : string -> string.

Definition snapshot_entry (fs : gmap string fs_entry) (rel_norm : string) : jvalue :=
  match fs !! rel_norm with
  | Some (RegularFile data) =>
      JObj [ ("path", JStr rel_norm); ("exists", JBool true);
             ("sha256", JStr (sha256_hex data)); ("size_bytes", JInt (Py.len data)) ]
  | Some Directory => JObj [ ("path", JStr rel_norm); ("exists", JBool true) ]
  | None => JObj [ ("path", JStr rel_norm); ("exists", JBool false) ]
  end.

(** [_snapshot_files] *)
Definition snapshot_files (fs : gmap string fs_entry) (files : list string) :
  gmap string jvalue :=
  foldl (fun snaps rel =>
           let rel_norm := Py.strip rel in
           if String.eqb rel_norm EmptyString then snaps
           else <[rel_norm := snapshot_entry fs rel_norm]> snaps)
        ∅ files.

Definition commit_stamp (ts : string) : string :=
  Py.replace_char "Z" EmptyString
    (Py.replace_char "T" "-"
       (Py.replace_char "-" EmptyString (Py.replace_char ":" EmptyString ts))).

(** [_create_commit]: the commit id and the store with the commit file. *)
Definition create_commit (st : store) (r : readings) (branch : string)
  (parents : list string) (message : string) (meta : gmap string jvalue)
  (tracked_files : list string) : string * store :=
  let snapshots := snapshot_files (artifacts st) tracked_files in
  let msg := Py.strip message in
  let payload : gmap string jvalue :=
    list_to_map
      [ ("schema", JStr CTX_SCHEMA);
        ("timestamp", JStr (now_commit r));
        ("branch", JStr branch);
        ("parents", JArr (map JStr parents));
        ("message", JStr (if String.eqb msg EmptyString then "context commit" else msg));
        ("tracked_files", JArr (map JStr tracked_files));
        ("file_snapshots", JObj (map_to_list snapshots));
        ("meta", JObj (map_to_list meta)) ] in
  let digest := Py.prefix_of 12 (sha256_hex (Json.stable_json payload)) in
  let commit_id := "ctx-" +:+ commit_stamp (now_commit r) +:+ "-" +:+ digest in
  (commit_id,
   {| refs_file := refs_file st;
      commit_files := <[commit_id := <["commit_id" := JStr commit_id]> payload]> (commit_files st);
      artifacts := artifacts st;
      events := events st |}).

(** What a run prints: the payload given to [_emit], or an error line. *)
Inductive printed :=
| Emit (payload : list (string * jvalue))
| Error (msg : string).

(** The exit status of a run ([0] where [main] returns), what it printed,
    and the store it leaves. *)
Record result := {
  exit_code : Z;
  output : printed;
  final : store;
}.

Definition with_events (st : store) (f : Ledger.file) : store :=
  {| refs_file := refs_file st; commit_files := commit_files st;
     artifacts := artifacts st; events := f |}.

Definition with_branches (rf : refs) (bs : gmap string (option string)) : refs :=
  {| schema := schema rf; created_at := created_at rf; updated_at := updated_at rf;
     active_branch := active_branch rf; branches := bs |}.

Definition with_active (rf : refs) (name : string) : refs :=
  {| schema := schema rf; created_at := created_at rf; updated_at := updated_at rf;
     active_branch := name; branches := branches rf |}.

(** The tail of [main]: one ledger event when the policy asks for it. *)
Definition record_event (st : store) (a : args) (r : readings)
  (event_needed : bool) (event_summary : string)
  (event_payload : list (string * jvalue)) : store :=
  let should_record :=
    match arg_record_event a with
    | Always => true
    | OnChange => event_needed
    | Off => false
    end in
  if should_record && negb (String.eqb event_summary EmptyString) then
    with_events st
      (Ledger.append_event sha256_hex (events st)
         {| Ledger.repo_root := arg_repo_root a;
            Ledger.repo_id_value := arg_repo_id a;
            Ledger.kind := "context-op";
            Ledger.status := "success";
            Ledger.summary := event_summary;
            Ledger.source := "context-ops";
            Ledger.task := Some "continuity-optimization";
            Ledger.paths := None;
            Ledger.symbols := None;
            Ledger.commands := None;
            Ledger.refs := None;
            Ledger.payload := Some event_payload |}
         (event_readings r)).2
  else st.

Definition fail (st : store) (msg : string) : result :=
  {| exit_code := 2; output := Error msg; final := st |}.

Definition commit_path (a : args) (commit_id : string) : string :=
  arg_mem_root a +:+ "/context/commits/" +:+ commit_id +:+ ".json".

Definition do_branch (st : store) (rf : refs) (a : args) (r : readings) : result :=
  let branch_name := Py.strip (arg_name a) in
  if String.eqb branch_name EmptyString then
    fail st "error: --name is required for --action branch"
  else if decide (is_Some (branches rf !! branch_name)) then
    fail st ("error: branch already exists: " +:+ branch_name)
  else
    let from_head := resolve_from_ref rf (arg_from_ref a) in
    let rf' := with_branches rf (<[branch_name := from_head]> (branches rf)) in
    let st' := write_refs st rf' r in
    {| exit_code := 0;
       output := Emit [ ("status", JStr "ok");
                        ("repo_root", JStr (arg_repo_root a));
                        ("memory_root", JStr (arg_mem_root a));
                        ("active_branch", JStr (active_branch rf'));
                        ("branch", JStr branch_name);
                        ("head", head_json from_head) ];
       final := record_event st' a r true
                  ("context branch created " +:+ branch_name)
                  [ ("branch", JStr branch_name);
                    ("from", JStr (Py.or_str (Py.strip (arg_from_ref a)) (active_branch rf)));
                    ("head", head_json from_head) ] |}.

Definition do_switch (st : store) (rf : refs) (a : args) (r : readings) : result :=
  let branch_name := Py.strip (arg_name a) in
  if String.eqb branch_name EmptyString then
    fail st "error: --name is required for --action switch"
  else if decide (is_Some (branches rf !! branch_name)) then
    let st' := write_refs st (with_active rf branch_name) r in
    {| exit_code := 0;
       output := Emit [ ("status", JStr "ok");
                        ("repo_root", JStr (arg_repo_root a));
                        ("memory_root", JStr (arg_mem_root a));
                        ("active_branch", JStr branch_name);
                        ("head", head_json (head_of (branches rf) branch_name)) ];
       final := record_event st' a r
                  (negb (String.eqb branch_name (active_branch rf)))
                  ("context branch switched to " +:+ branch_name)
                  [ ("from", JStr (active_branch rf)); ("to", JStr branch_name) ] |}
  else fail st ("error: branch not found: " +:+ branch_name).

Definition do_commit (st : store) (rf : refs) (a : args) (r : readings) : result :=
  let branch_name := Py.or_str (Py.strip (arg_branch a)) (active_branch rf) in
  if decide (is_Some (branches rf !! branch_name)) then
    let parent := head_of (branches rf) branch_name in
    let parents := match parent with
                   | Some p => if head_truthy parent then [p] else []
                   | None => []
                   end in
    let message := Py.or_str (Py.strip (arg_message a)) ("context commit on " +:+ branch_name) in
    let (commit_id, st1) :=
      create_commit st r branch_name parents message (arg_meta a) DEFAULT_TRACKED_FILES in
    let rf' := with_active (with_branches rf (<[branch_name := Some commit_id]> (branches rf)))
                 branch_name in
    let st2 := write_refs st1 rf' r in
    {| exit_code := 0;
       output := Emit [ ("status", JStr "ok");
                        ("repo_root", JStr (arg_repo_root a));
                        ("memory_root", JStr (arg_mem_root a));
                        ("branch", JStr branch_name);
                        ("commit_id", JStr commit_id);
                        ("commit_file", JStr (commit_path a commit_id)) ];
       final := record_event st2 a r true
                  ("context commit " +:+ commit_id +:+ " on " +:+ branch_name)
                  [ ("branch", JStr branch_name);
                    ("commit_id", JStr commit_id);
                    ("parents", JArr (map JStr parents));
                    ("commit_path", JStr (commit_path a commit_id)) ] |}
  else fail st ("error: branch not found: " +:+ branch_name).

(** [[head for head in [target_head, source_head] if head]] *)
Definition merge_parents (target_head source_head : option string) : list string :=
  omap (fun h : option string => if head_truthy h then h else None)
    [target_head; source_head].

Definition do_merge (st : store) (rf : refs) (a : args) (r : readings) : result :=
  let source := Py.strip (arg_source a) in
  let target := Py.or_str (Py.strip (arg_target a)) (active_branch rf) in
  if String.eqb source EmptyString then
    fail st "error: --source is required for --action merge"
  else if negb (bool_decide (is_Some (branches rf !! source))) then
    fail st ("error: source branch not found: " +:+ source)
  else if negb (bool_decide (is_Some (branches rf !! target))) then
    fail st ("error: target branch not found: " +:+ target)
  else
    let source_head := head_of (branches rf) source in
    let target_head := head_of (branches rf) target in
    if negb (head_truthy source_head) then
      fail st ("error: source branch has no head commit: " +:+ source)
    else if bool_decide (source_head = target_head) then
      {| exit_code := 0;
         output := Emit [ ("status", JStr "ok");
                          ("repo_root", JStr (arg_repo_root a));
                          ("memory_root", JStr (arg_mem_root a));
                          ("message", JStr "no-op merge (heads already equal)");
                          ("source", JStr source);
                          ("target", JStr target);
                          ("head", head_json target_head) ];
         final := st |}
    else
      let parents := merge_parents target_head source_head in
      let message := Py.or_str (Py.strip (arg_message a))
                       ("merge " +:+ source +:+ " into " +:+ target) in
      let meta : gmap string jvalue :=
        arg_meta a ∪ <["target_branch" := JStr target]> {["source_branch" := JStr source]} in
      let (commit_id, st1) :=
        create_commit st r target parents message meta DEFAULT_TRACKED_FILES in
      let rf' := with_active (with_branches rf (<[target := Some commit_id]> (branches rf)))
                   target in
      let st2 := write_refs st1 rf' r in
      {| exit_code := 0;
         output := Emit [ ("status", JStr "ok");
                          ("repo_root", JStr (arg_repo_root a));
                          ("memory_root", JStr (arg_mem_root a));
                          ("source", JStr source);
                          ("target", JStr target);
                          ("merge_commit", JStr commit_id);
                          ("commit_file", JStr (commit_path a commit_id)) ];
         final := record_event st2 a r true
                    ("context merge " +:+ source +:+ " -> " +:+ target
                     +:+ " (" +:+ commit_id +:+ ")")
                    [ ("source", JStr source);
                      ("target", JStr target);
                      ("source_head", head_json source_head);
                      ("target_prev_head", head_json target_head);
                      ("merge_commit", JStr commit_id);
                      ("commit_path", JStr (commit_path a commit_id)) ] |}.

Definition refs_path (a : args) : string := arg_mem_root a +:+ "/context/refs.json".

(** [main] *)
Definition main (st : store) (a : args) (r : readings) : result :=
  let (rf, st0) := read_refs st r in
  match arg_action a with
  | Init =>
      {| exit_code := 0;
         output := Emit [ ("status", JStr "ok");
                          ("repo_root", JStr (arg_repo_root a));
                          ("memory_root", JStr (arg_mem_root a));
                          ("refs_file", JStr (refs_path a));
                          ("active_branch", JStr (active_branch rf));
                          ("branch_count", JInt (Z.of_nat (size (branches rf)))) ];
         final := write_refs st0 rf r |}
  | Status =>
      {| exit_code := 0;
         output := Emit [ ("status", JStr "ok");
                          ("repo_root", JStr (arg_repo_root a));
                          ("memory_root", JStr (arg_mem_root a));
                          ("refs_file", JStr (refs_path a));
                          ("active_branch", JStr (active_branch rf));
                          ("branch_count", JInt (Z.of_nat (size (branches rf))));
                          ("commit_count", JInt (Z.of_nat (size (commit_files st0))));
                          ("branches",
                           JObj (map (fun kv : string * option string => (kv.1, head_json kv.2))
                                   (map_to_list (branches rf)))) ];
         final := st0 |}
  | Branch => do_branch st0 rf a r
  | Switch => do_switch st0 rf a r
  | Commit => do_commit st0 rf a r
  | Merge => do_merge st0 rf a r
  end.

End WithDigest.

(** The parents recorded in the commit that the head of [target] names. *)
Definition head_commit_parents (st : store) (target : string) : option jvalue :=
  rf ← refs_file st;
  head ← branches rf !! target;
  cid ← head;
  payload ← commit_files st !! cid;
  payload !! "parents".

End ContextOps.

(** ** The context compiler (rehydrate.py) *)

Module Rehydrate.

(** Python's [list.sort(key=..., reverse=True)]: descending and stable.
    [lt a b] says that the key of [a] is below the key of [b]. *)
Fixpoint insert_desc {A} (lt : A -> A -> bool) (x : A) (l : list A) : list A :=
  match l with
  | [] => [x]
  | y :: l' => if lt y x then x :: l else y :: insert_desc lt x l'
  end.

Definition sort_desc {A} (lt : A -> A -> bool) (l : list A) : list A :=
  foldl (fun acc x => insert_desc lt x acc) [] l.

Definition is_term_char (c : ascii) : bool :=
  let n := N_of_ascii c in
  ((97 <=? n)%N && (n <=? 122)%N) || ((65 <=? n)%N && (n <=? 90)%N)
  || ((48 <=? n)%N && (n <=? 57)%N)
  || (n =? 95)%N || (n =? 46)%N || (n =? 47)%N || (n =? 45)%N.

(** [re.findall(r"[a-zA-Z0-9_./-]+", s)]: the maximal runs, [cur] being the
    run under way. *)
Fixpoint term_runs (cur : string) (s : string) : list string :=
  match s with
  | EmptyString => if String.eqb cur EmptyString then [] else [cur]
  | String c s' =>
      if is_term_char c then term_runs (cur +:+ String c EmptyString) s'
      else if String.eqb cur EmptyString then term_runs EmptyString s'
      else cur :: term_runs EmptyString s'
  end.

(** [tokenize_terms]: the set of terms, listed once each. *)
Definition tokenize_terms (text : string) : list string :=
  Py.unique_keep_order
    (List.filter (fun w => 3 <=? Py.len w) (term_runs EmptyString (Py.lower text))).

Definition one_of (s : string) (l : list string) : bool :=
  existsb (String.eqb s) l.

Definition kind_bonus (kind : string) : Z :=
  if one_of kind ["risk"; "incident"; "failure"] then 12
  else if one_of kind ["decision"; "typed-memory"; "automation"] then 8
  else if one_of kind ["test"; "verify"; "benchmark"] then 7
  else 0.

Definition status_bonus (status : string) : Z :=
  if String.eqb status "failure" then 22
  else if String.eqb status "warning" then 14
  else if String.eqb status "success" then 7
  else 0.

(** [str(event.get(k) or "")] *)
Definition field_str (event : gmap string jvalue) (k : string) : string :=
  Json.str (Json.get_or event k (JStr EmptyString)).

(** [" ".join(str(v) for v in event.get(k) or [])]; [None] where the value
    cannot be iterated. *)
Definition joined_field (event : gmap string jvalue) (k : string) : option string :=
  (fun items => Py.join " " (map Json.str items))
    <$> Json.iter (Json.get_or event k (JArr [])).

Definition haystack (event : gmap string jvalue) : option string :=
  match joined_field event "paths", joined_field event "symbols" with
  | Some ps, Some ss =>
      Some (Py.lower (Py.join " "
              [ field_str event "summary"; field_str event "task";
                field_str event "kind"; ps; ss ]))
  | _, _ => None
  end.

Record score_trace := {
  tr_recency_rank : Z;
  tr_recency_score : Z;
  tr_status_bonus : Z;
  tr_kind_bonus : Z;
  tr_term_hits : list string;
  tr_task_match : bool;
}.

(** [event_score]; [None] where it raises. *)
Definition event_score (event : gmap string jvalue) (recency_rank : Z)
  (terms : list string) (task_focus : string) : option (Z * score_trace) :=
  let recency := Z.max 0 (28 - recency_rank) in
  let sb := status_bonus (Py.lower (field_str event "status")) in
  let kb := kind_bonus (Py.lower (Py.strip (field_str event "kind"))) in
  match haystack event with
  | None => None
  | Some hay =>
      let term_hits := List.filter (fun term => Py.contains term hay) terms in
      let task_match :=
        negb (String.eqb task_focus EmptyString)
        && Py.contains (Py.lower task_focus) hay in
      Some (recency + sb + kb + 5 * Z.of_nat (length term_hits)
            + (if task_match then 9 else 0),
            {| tr_recency_rank := recency_rank; tr_recency_score := recency;
               tr_status_bonus := sb; tr_kind_bonus := kb;
               tr_term_hits := term_hits; tr_task_match := task_match |})
  end.

(** [render_event_line]; [None] where it raises. *)
Definition render_event_line (event : gmap string jvalue) : option string :=
  let seq := Json.str (default (JStr "?") (event !! "seq")) in
  let ts := Json.str (Json.get_or event "timestamp" (JStr "?")) in
  let kind := Json.str (Json.get_or event "kind" (JStr "note")) in
  let status := Json.str (Json.get_or event "status" (JStr "info")) in
  let summary := Py.strip (field_str event "summary") in
  let event_hash := Py.prefix_of 10 (field_str event "hash") in
  match Json.iter (Json.get_or event "paths" (JArr [])) with
  | None => None
  | Some items =>
      let paths :=
        List.filter (fun p => negb (String.eqb (Py.strip p) EmptyString))
          (map Json.str items) in
      let line := "- E" +:+ seq +:+ " [" +:+ ts +:+ "] " +:+ kind +:+ "/" +:+ status
                  +:+ ": " +:+ summary in
      let line := match paths with
                  | [] => line
                  | _ => line +:+ " | paths: " +:+ Py.join ", " (take 3 paths)
                  end in
      Some (if String.eqb event_hash EmptyString then line
            else line +:+ " | hash:" +:+ event_hash)
  end.

(** A row of [scored]: [(score, -idx, event, trace)]. *)
Record row := {
  row_score : Z;
  row_neg_idx : Z;
  row_event : gmap string jvalue;
  row_trace : score_trace;
}.

(** The sort key [(row[0], row[1])], compared as Python compares tuples. *)
Definition row_lt (a b : row) : bool :=
  (row_score a <? row_score b)
  || ((row_score a =? row_score b) && (row_neg_idx a <? row_neg_idx b)).

(** The loop over [enumerate(reversed(events))], from index [idx]. *)
Fixpoint score_from (idx : Z) (newest_first : list (gmap string jvalue))
  (terms : list string) (task_focus : string) : option (list row) :=
  match newest_first with
  | [] => Some []
  | event :: rest =>
      match event_score event idx terms task_focus with
      | None => None
      | Some (score, trace) =>
          cons {| row_score := score; row_neg_idx := - idx;
                  row_event := event; row_trace := trace |}
            <$> score_from (idx + 1) rest terms task_focus
      end
  end.

(** [scored] after [scored.sort(key=..., reverse=True)]. *)
Definition ranked (events : list (gmap string jvalue)) (terms : list string)
  (task_focus : string) : option (list row) :=
  sort_desc row_lt <$> score_from 0 (reverse events) terms task_focus.

(** [selected_events] *)
Definition selected_events (scored : list row) (max_events : Z) :
  list (gmap string jvalue) :=
  map row_event (Py.slice_to max_events scored).

(** [rendered_events] *)
Definition rendered_events (scored : list row) (max_events : Z) : option (list string) :=
  mapM render_event_line (selected_events scored max_events).

(** The command line. *)
Record request := {
  budget_tokens : Z;
  query : string;
  task : string;
  max_events : Z;
  max_decisions : Z;
}.

(** What [main] has read and trimmed before it ranks and packs: the
    compacted sections of the notes, the rendered typed-memory tables, the
    decision titles and the capsule.  None of it depends on the budget. *)
Record notes := {
  objective_text : string;
  criteria_text : string;
  constraints_text : string;
  key_paths_text : string;
  status_text : string;
  commands_text : string;
  project_repo_text : string;
  project_arch_text : string;
  decision_titles : list string;
  capsule_rel : string;
  capsule_present : bool;
  capsule_excerpt : string;
  top_tasks_text : string;
  top_paths_signal_text : string;
  open_risks_text : string;
  recent_decisions_text : string;
}.

(** The run's surroundings shown in the header and footer. *)
Record setting := {
  now : string;
  repo_root : string;
  mem_root : string;
  typed_memory_shown : string;
  events_path : string;
}.

Definition query_terms (rq : request) (n : notes) : list string :=
  tokenize_terms
    (Py.join " " [ query rq; task rq; objective_text n; top_tasks_text n;
                   top_paths_signal_text n ]).

Definition header (s : setting) (rq : request) : string :=
  "# Rehydrated Context" +:+ Py.nl +:+ Py.nl
  +:+ "- Generated: `" +:+ now s +:+ "`" +:+ Py.nl
  +:+ "- Repo root: `" +:+ repo_root s +:+ "`" +:+ Py.nl
  +:+ "- Memory root: `" +:+ mem_root s +:+ "`" +:+ Py.nl
  +:+ "- Token budget (approx): `" +:+ Py.str_int (budget_tokens rq) +:+ "`" +:+ Py.nl
  +:+ "- Focus query: `" +:+ Py.or_str (Py.strip (query rq)) "none" +:+ "`" +:+ Py.nl
  +:+ "- Focus task: `" +:+ Py.or_str (Py.strip (task rq)) "none" +:+ "`" +:+ Py.nl
  +:+ "- Typed memory: `" +:+ typed_memory_shown s +:+ "`" +:+ Py.nl.

(** [block_candidates] before sorting: (title, body, priority). *)
Definition block_candidates (n : notes) (rendered : list string) :
  list (string * string * Z) :=
  [ ("Active Objective", objective_text n, 100);
    ("Acceptance Criteria", criteria_text n, 95);
    ("Constraints / Non-Goals", constraints_text n, 90);
    ("Current Status", status_text n, 88);
    ("Key Paths", key_paths_text n, 87);
    ("Verification Commands", commands_text n, 86);
    ("Open Risks (Typed)", open_risks_text n, 85);
    ("Top Task Signals (Typed)", top_tasks_text n, 84);
    ("Top Path Signals (Typed)", top_paths_signal_text n, 83);
    ("Recent Decisions (Typed)", recent_decisions_text n, 82);
    ("Project Repo Facts", project_repo_text n, 72);
    ("Project Architecture Facts", project_arch_text n, 70);
    ("Recent Decisions",
     Py.join Py.nl (map (fun title => "- " +:+ title) (decision_titles n)), 68);
    ("Capsule Pointer",
     "- Active capsule: `" +:+ capsule_rel n +:+ "`" +:+ Py.nl
     +:+ "- Capsule file exists: `" +:+ (if capsule_present n then "True" else "False")
     +:+ "`", 66);
    ("Capsule Excerpt", capsule_excerpt n, 62);
    ("Ranked Events", Py.join Py.nl rendered, 58) ].

Definition candidate_lt (a b : string * string * Z) : bool := a.2 <? b.2.

(** One entry of [planner_trace]. *)
Record planned := {
  pl_title : string;
  pl_priority : Z;
  pl_approx_tokens : Z;
  pl_included : bool;
}.

(** The variables of the packing loop. *)
Record packing := {
  selected_blocks : list string;
  used_tokens : Z;
  omitted_titles : list string;
  planner_trace : list planned;
}.

Definition block_text (title body : string) : string :=
  "## " +:+ title +:+ Py.nl +:+ Py.nl +:+ Py.strip body +:+ Py.nl.

(** One turn of the loop over [block_candidates]. *)
Definition pack_step (budget : Z) (p : packing) (c : string * string * Z) : packing :=
  let '(title, body, priority) := c in
  if String.eqb (Py.strip body) EmptyString then p
  else
    let block := block_text title body in
    let block_tokens := Py.approx_tokens block in
    let included := used_tokens p + block_tokens <=? budget in
    let entry := {| pl_title := title; pl_priority := priority;
                    pl_approx_tokens := block_tokens; pl_included := included |} in
    if included then
      {| selected_blocks := selected_blocks p ++ [block];
         used_tokens := used_tokens p + block_tokens;
         omitted_titles := omitted_titles p;
         planner_trace := planner_trace p ++ [entry] |}
    else
      {| selected_blocks := selected_blocks p;
         used_tokens := used_tokens p;
         omitted_titles := omitted_titles p ++ [title];
         planner_trace := planner_trace p ++ [entry] |}.

(** The loop, from the state [main] sets up before it. *)
Definition pack (hdr : string) (budget : Z) (cands : list (string * string * Z)) : packing :=
  foldl (pack_step budget)
    {| selected_blocks := [hdr]; used_tokens := Py.approx_tokens hdr;
       omitted_titles := []; planner_trace := [] |}
    cands.

Definition footer (s : setting) (p : packing) : string :=
  "## Budget Summary" +:+ Py.nl +:+ Py.nl
  +:+ "- Approx tokens used: `" +:+ Py.str_int (used_tokens p) +:+ "`" +:+ Py.nl
  +:+ "- Blocks omitted by budget: `"
  +:+ (match omitted_titles p with
       | [] => "none"
       | _ => Py.join ", " (omitted_titles p)
       end) +:+ "`" +:+ Py.nl
  +:+ "- Evidence source: `" +:+ events_path s +:+ "`" +:+ Py.nl.

(** What a run compiles: the blocks joined into [output], and the loop's
    final state. *)
Record compiled := {
  output_blocks : list string;
  output : string;
  plan : packing;
  ranking : list row;
}.

(** [main], from the loaded events and notes to the document. *)
Definition compile (s : setting) (rq : request) (n : notes)
  (events : list (gmap string jvalue)) : option compiled :=
  match ranked events (query_terms rq n) (Py.strip (task rq)) with
  | None => None
  | Some scored =>
      match rendered_events scored (max_events rq) with
      | None => None
      | Some rendered =>
          let cands := sort_desc candidate_lt (block_candidates n rendered) in
          let p := pack (header s rq) (budget_tokens rq) cands in
          let blocks := selected_blocks p ++ [footer s p] in
          Some {| output_blocks := blocks;
                  output := Py.rstrip (Py.join Py.nl blocks) +:+ Py.nl;
                  plan := p;
                  ranking := scored |}
      end
  end.

(** The titles of the blocks the loop included, in order. *)
Definition included_titles (p : packing) : list string :=
  map pl_title (List.filter pl_included (planner_trace p)).

(** The same command line with another budget. *)
Definition with_budget (rq : request) (b : Z) : request :=
  {| budget_tokens := b; query := query rq; task := task rq;
     max_events := max_events rq; max_decisions := max_decisions rq |}.

(** The summed cost of blocks. *)
Definition sum_tokens (blocks : list string) : Z :=
  foldr (fun block acc => Py.approx_tokens block + acc) 0 blocks.

End Rehydrate.

(** ** Typed-memory summaries (typed_memory.py) *)

Module TypedMemory.

(** A [collections.Counter] keyed by strings, in insertion order. *)
Fixpoint incr (key : string) (counter : list (string * Z)) : list (string * Z) :=
  match counter with
  | [] => [(key, 1)]
  | (k, n) :: rest =>
      if String.eqb k key then (k, n + 1) :: rest else (k, n) :: incr key rest
  end.

Definition count_lt (a b : string * Z) : bool := a.2 <? b.2.

(** [counter.most_common(limit)] for [limit >= 1]. *)
Definition most_common (counter : list (string * Z)) (limit : Z) : list (string * Z) :=
  Py.slice_to limit (Rehydrate.sort_desc count_lt counter).

(** [_top] *)
Definition top (counter : list (string * Z)) (limit : Z) : jvalue :=
  JArr (map (fun kc : string * Z => JObj [("value", JStr kc.1); ("count", JInt kc.2)])
          (most_common counter limit)).

(** The loop variables of [_extract]. *)
Record tally := {
  decisions : list jvalue;
  risks : list jvalue;
  successes : list jvalue;
  task_counter : list (string * Z);
  path_counter : list (string * Z);
  symbol_counter : list (string * Z);
  command_counter : list (string * Z);
}.

Definition empty_tally : tally :=
  {| decisions := []; risks := []; successes := []; task_counter := [];
     path_counter := []; symbol_counter := []; command_counter := [] |}.

(** [for x in ev.get(k) or []: text = str(x).strip(); if text: counter[text] += 1];
    [None] where the value cannot be iterated. *)
Definition count_field (ev : gmap string jvalue) (k : string)
  (counter : list (string * Z)) : option (list (string * Z)) :=
  (fun items =>
     foldl (fun c x => let text := Py.strip (Json.str x) in
                       if String.eqb text EmptyString then c else incr text c)
       counter items)
    <$> Json.iter (Json.get_or ev k (JArr [])).

(** One turn of the loop of [_extract]. *)
Definition extract_step (t : tally) (ev : gmap string jvalue) : option tally :=
  let kind := Py.lower (Py.strip (Rehydrate.field_str ev "kind")) in
  let status := Py.lower (Py.strip (Rehydrate.field_str ev "status")) in
  let summary := Py.strip (Rehydrate.field_str ev "summary") in
  let task := Py.strip (Rehydrate.field_str ev "task") in
  let ts := Rehydrate.field_str ev "timestamp" in
  let seq := default JNull (ev !! "seq") in
  let hash_short := Py.prefix_of 10 (Rehydrate.field_str ev "hash") in
  let tasks := if String.eqb task EmptyString then task_counter t
               else incr task (task_counter t) in
  match count_field ev "paths" (path_counter t) with
  | None => None
  | Some pc =>
  match count_field ev "symbols" (symbol_counter t) with
  | None => None
  | Some sc =>
  match count_field ev "commands" (command_counter t) with
  | None => None
  | Some cc =>
      let snapshot :=
        JObj [ ("seq", seq); ("timestamp", JStr ts); ("hash", JStr hash_short);
               ("kind", JStr kind); ("status", JStr status);
               ("summary", JStr summary); ("task", JStr task) ] in
      let is_decision :=
        Rehydrate.one_of kind ["decision"; "adr"; "architecture-decision"]
        || Py.contains "decision" (Py.lower summary) in
      let is_risk :=
        Rehydrate.one_of status ["failure"; "warning"]
        || Rehydrate.one_of kind ["risk"; "incident"; "bug"] in
      let is_success := String.eqb status "success" in
      Some {| decisions := if is_decision then decisions t ++ [snapshot] else decisions t;
              risks := if is_risk then risks t ++ [snapshot] else risks t;
              successes := if is_success then successes t ++ [snapshot] else successes t;
              task_counter := tasks;
              path_counter := pc;
              symbol_counter := sc;
              command_counter := cc |}
  end end end.

Fixpoint extract_loop (t : tally) (events : list (gmap string jvalue)) : option tally :=
  match events with
  | [] => Some t
  | ev :: rest =>
      match extract_step t ev with
      | None => None
      | Some t' => extract_loop t' rest
      end
  end.

Definition count_of {A} (l : list A) : jvalue := JInt (Z.of_nat (length l)).

(** [_extract]; [generated_at] is the reading of [utc_now_iso()]. *)
Definition extract (events : list (gmap string jvalue)) (max_items : Z)
  (generated_at : string) : option (gmap string jvalue) :=
  (fun t : tally =>
     list_to_map
       [ ("schema", JStr "context-continuity-typed-memory-v1");
         ("generated_at", JStr generated_at);
         ("event_count", count_of events);
         ("decision_count", count_of (decisions t));
         ("risk_count", count_of (risks t));
         ("success_count", count_of (successes t));
         ("top_tasks", top (task_counter t) max_items);
         ("top_paths", top (path_counter t) max_items);
         ("top_symbols", top (symbol_counter t) max_items);
         ("top_commands", top (command_counter t) max_items);
         ("recent_decisions", JArr (Py.slice_from (- max_items) (decisions t)));
         ("open_risks", JArr (Py.slice_from (- max_items) (risks t)));
         ("recent_successes", JArr (Py.slice_from (- max_items) (successes t)));
         ("latest_event", JObj (match last events with
                                | Some ev => map_to_list ev
                                | None => []
                                end)) ])
    <$> extract_loop empty_tally events.

(** The command line. *)
Record request := {
  max_events : Z;
  max_items : Z;
  record_event : ContextOps.policy;
  no_write : bool;
  repo_root : string;
  mem_root : string;
  repo_id : string;
}.

Definition events_path (rq : request) : string := mem_root rq +:+ "/events/events.jsonl".

Definition out_json_path (rq : request) : string := mem_root rq +:+ "/typed-memory.json".

Definition out_md_path (rq : request) : string := mem_root rq +:+ "/typed-memory.md".

(** The events the summary is computed from: the objects of the ledger,
    cut to the last [max_events] when that is positive. *)
Definition window (f : Ledger.file) (rq : request) : list (gmap string jvalue) :=
  let events := Ledger.objects f in
  if 0 <? max_events rq then Py.slice_from (- max_events rq) events else events.

(** The payload [main] serializes. *)
Definition summarize (f : Ledger.file) (rq : request) (generated_at : string) :
  option (gmap string jvalue) :=
  (fun payload : gmap string jvalue =>
     <["events_file" := JStr (events_path rq)]>
       (<["memory_root" := JStr (mem_root rq)]>
          (<["repo_root" := JStr (repo_root rq)]> payload)))
    <$> extract (window f rq) (Z.max 1 (max_items rq)) generated_at.

(** [new_json] *)
Definition serialize (payload : gmap string jvalue) : string :=
  Json.dumps_indent2 payload +:+ Py.nl.

(** What a run leaves: the serialized summary, whether it was reported as
    changed, whether an event was recorded, the content of
    [typed-memory.json] and the ledger.  The rendered [typed-memory.md],
    which nothing reads back, is left out. *)
Record outcome := {
  new_json : string;
  changed : bool;
  recorded : bool;
  out_json_after : option string;
  events_after : Ledger.file;
}.

(** Whether the memory root is there when the run starts: it is where
    the ledger or [typed-memory.json] exists under it, and otherwise as
    [root_dir] says. *)
Definition root_present (f : Ledger.file) (stored : option string) (root_dir : bool) : bool :=
  root_dir || bool_decide (is_Some f) || bool_decide (is_Some stored).

Section WithDigest.

Variable sha256_hex : string -> string.

(** [main]: [stored] is the content of [typed-memory.json] before the run
    ([None] while it is missing) and [root_dir] says whether the memory
    root is a directory; [None] where the run raises, in [_extract] or,
    when it writes [typed-memory.json], for want of the directory, which
    nothing before the write creates. *)
Definition main (f : Ledger.file) (stored : option string) (root_dir : bool)
  (rq : request) (generated_at : string) (r : Ledger.readings) : option outcome :=
  match summarize f rq generated_at with
  | None => None
  | Some payload =>
      if negb (no_write rq) && negb (root_present f stored root_dir) then None else
      let old_json := default EmptyString stored in
      let new := serialize payload in
      let ch := negb (String.eqb old_json new) in
      let should_record :=
        match record_event rq with
        | ContextOps.Always => true
        | ContextOps.OnChange => ch
        | ContextOps.Off => false
        end in
      Some {| new_json := new;
              changed := ch;
              recorded := should_record;
              out_json_after := if no_write rq then stored else Some new;
              events_after :=
                if should_record then
                  (Ledger.append_event sha256_hex f
                     {| Ledger.repo_root := repo_root rq;
                        Ledger.repo_id_value := repo_id rq;
                        Ledger.kind := "typed-memory";
                        Ledger.status := "success";
                        Ledger.summary := "refreshed typed-memory summary";
                        Ledger.source := "typed-memory";
                        Ledger.task := Some "continuity-optimization";
                        Ledger.paths := Some [out_json_path rq; out_md_path rq];
                        Ledger.symbols := None;
                        Ledger.commands := None;
                        Ledger.refs := None;
                        Ledger.payload :=
                          Some [ ("event_count", default (JInt 0) (payload !! "event_count"));
                                 ("risk_count", default (JInt 0) (payload !! "risk_count"));
                                 ("decision_count", default (JInt 0) (payload !! "decision_count"));
                                 ("changed", JBool ch) ] |}
                     r).2
                else f |}
  end.

End WithDigest.

End TypedMemory.

(** ** Sample data *)

Module Sample.

(** A digest used where a statement needs a concrete one: the text itself
    behind a marker.  It is never empty, as no hexadecimal digest is. *)
Definition sample_digest (s : string) : string := String "h" s.

Definition sample_fields (st sm : string) : Ledger.fields :=
  {| Ledger.repo_root := "/work/repo";
     Ledger.repo_id_value := "repo--0123456789";
     Ledger.kind := "test";
     Ledger.status := st;
     Ledger.summary := sm;
     Ledger.source := "manual";
     Ledger.task := Some " ";
     Ledger.paths := Some ["src/a.py"; " src/a.py "; "  "];
     Ledger.symbols := None;
     Ledger.commands := None;
     Ledger.refs := None;
     Ledger.payload := None |}.

Definition sample_readings : Ledger.readings :=
  {| Ledger.now_for_id := "2026-01-02T03:04:05Z";
     Ledger.uuid4_hex := "0123456789abcdef0123456789abcdef";
     Ledger.now_for_timestamp := "2026-01-02T03:04:06Z" |}.

(** Three appends: a success, a warning and a failure. *)
Definition sample_calls : list (Ledger.fields * Ledger.readings) :=
  [ (sample_fields "success" "ran the tests", sample_readings);
    (sample_fields "warning" "one test is slow", sample_readings);
    (sample_fields "failure" "tests failed", sample_readings) ].

Definition sample_ledger : Ledger.file :=
  Ledger.append_all sample_digest None sample_calls.

(** The statuses the capture command accepts. *)
Definition recognized : list string := ["info"; "success"; "warning"; "failure"].

Definition blank_call : Ledger.fields := sample_fields "bogus" "   ".

(** A ledger with a stale hash, a wrong number and an extra field. *)
Definition stale : list (gmap string jvalue) :=
  [ <["seq" := JInt 7]> (<["summary" := JStr "first"]> (<["prev_hash" := JStr "zz"]> ∅));
    <["hash" := JStr "old"]> (<["summary" := JStr "second"]> (<["note" := JInt 3]> ∅)) ].

(** A store whose [refs.json] holds the branches [bs], with [main] active
    and no commit file. *)
Definition ops_store (bs : gmap string (option string)) : ContextOps.store :=
  {| ContextOps.refs_file :=
       Some {| ContextOps.schema := ContextOps.CTX_SCHEMA;
               ContextOps.created_at := "2026-01-01T00:00:00Z";
               ContextOps.updated_at := "2026-01-01T00:00:00Z";
               ContextOps.active_branch := "main";
               ContextOps.branches := bs |};
     ContextOps.commit_files := ∅;
     ContextOps.artifacts := {["ACTIVE_TASK.md" := ContextOps.RegularFile "# Task"]};
     ContextOps.events := None |}.

Definition ops_readings : ContextOps.readings :=
  {| ContextOps.now_created := "2026-02-01T10:00:00Z";
     ContextOps.now_first_update := "2026-02-01T10:00:00Z";
     ContextOps.now_commit := "2026-02-01T10:00:01Z";
     ContextOps.now_write := "2026-02-01T10:00:02Z";
     ContextOps.event_readings := sample_readings |}.

Definition ops_args (act : ContextOps.action) (name from_ref source target : string) :
  ContextOps.args :=
  {| ContextOps.arg_action := act;
     ContextOps.arg_name := name;
     ContextOps.arg_from_ref := from_ref;
     ContextOps.arg_branch := EmptyString;
     ContextOps.arg_source := source;
     ContextOps.arg_target := target;
     ContextOps.arg_message := EmptyString;
     ContextOps.arg_meta := ∅;
     ContextOps.arg_record_event := ContextOps.OnChange;
     ContextOps.arg_repo_root := "/work/repo";
     ContextOps.arg_mem_root := "/home/u/.codex/memory/r";
     ContextOps.arg_repo_id := "r" |}.

Definition two_heads : gmap string (option string) :=
  <["dev" := Some "ctx-2"]> {["main" := Some "ctx-1"]}.

Definition headless_target : gmap string (option string) :=
  <["b1" := None]> {["main" := Some "ctx-1"]}.

Definition headless : gmap string (option string) := {["main" := None]}.

(** Two events: an old failure and a recent note. *)
Definition two_events : list (gmap string jvalue) :=
  [ <["seq" := JInt 1]> (<["timestamp" := JStr "2026-01-01T00:00:00Z"]>
      (<["kind" := JStr "test"]> (<["status" := JStr "failure"]>
         (<["summary" := JStr "suite broke"]> ∅))));
    <["seq" := JInt 2]> (<["timestamp" := JStr "2026-01-02T00:00:00Z"]>
      (<["kind" := JStr "note"]> (<["status" := JStr "info"]>
         (<["summary" := JStr "wrote notes"]> ∅)))) ].

Definition sample_setting : Rehydrate.setting :=
  {| Rehydrate.now := "2026-03-01 12:00:00Z";
     Rehydrate.repo_root := "/work/repo";
     Rehydrate.mem_root := "/home/u/.codex/memory/r";
     Rehydrate.typed_memory_shown := "none";
     Rehydrate.events_path := "/home/u/.codex/memory/r/events/events.jsonl" |}.

(** Notes with an objective and one criterion, and nothing else. *)
Definition sample_notes : Rehydrate.notes :=
  {| Rehydrate.objective_text := "Ship the ledger repair tool";
     Rehydrate.criteria_text := "- tests pass";
     Rehydrate.constraints_text := EmptyString;
     Rehydrate.key_paths_text := EmptyString;
     Rehydrate.status_text := EmptyString;
     Rehydrate.commands_text := EmptyString;
     Rehydrate.project_repo_text := EmptyString;
     Rehydrate.project_arch_text := EmptyString;
     Rehydrate.decision_titles := [];
     Rehydrate.capsule_rel := EmptyString;
     Rehydrate.capsule_present := false;
     Rehydrate.capsule_excerpt := EmptyString;
     Rehydrate.top_tasks_text := EmptyString;
     Rehydrate.top_paths_signal_text := EmptyString;
     Rehydrate.open_risks_text := EmptyString;
     Rehydrate.recent_decisions_text := EmptyString |}.

Definition compile_request : Rehydrate.request :=
  {| Rehydrate.budget_tokens := 1800;
     Rehydrate.query := EmptyString;
     Rehydrate.task := EmptyString;
     Rehydrate.max_events := 25;
     Rehydrate.max_decisions := 6 |}.

(** The sample run with a budget: its total and the blocks it includes. *)
Definition sample_run (b : Z) : option (Z * list string) :=
  (fun c => (Rehydrate.used_tokens (Rehydrate.plan c),
             Rehydrate.included_titles (Rehydrate.plan c)))
    <$> Rehydrate.compile sample_setting (Rehydrate.with_budget compile_request b)
          sample_notes [].

Definition no_output : Rehydrate.compiled :=
  {| Rehydrate.output_blocks := [];
     Rehydrate.output := EmptyString;
     Rehydrate.plan := {| Rehydrate.selected_blocks := [];
                          Rehydrate.used_tokens := 0;
                          Rehydrate.omitted_titles := [];
                          Rehydrate.planner_trace := [] |};
     Rehydrate.ranking := [] |}.

(** What the sample compiles to with a budget. *)
Definition sample_compiled (b : Z) : Rehydrate.compiled :=
  default no_output
    (Rehydrate.compile sample_setting (Rehydrate.with_budget compile_request b)
       sample_notes []).

Definition typed_request (pol : ContextOps.policy) : TypedMemory.request :=
  {| TypedMemory.max_events := 500;
     TypedMemory.max_items := 12;
     TypedMemory.record_event := pol;
     TypedMemory.no_write := false;
     TypedMemory.repo_root := "/work/repo";
     TypedMemory.mem_root := "/home/u/.codex/memory/r";
     TypedMemory.repo_id := "r" |}.

(** The first run over the three sample events, with nothing stored. *)
Definition first_run : option TypedMemory.outcome :=
  TypedMemory.main sample_digest sample_ledger None true (typed_request ContextOps.Off)
    "2026-03-01T12:00:00Z" sample_readings.

(** A second run five seconds later, over the ledger and the file the first
    run left. *)
Definition second_run : option TypedMemory.outcome :=
  o ← first_run;
  TypedMemory.main sample_digest (TypedMemory.events_after o) (TypedMemory.out_json_after o)
    true (typed_request ContextOps.OnChange) "2026-03-01T12:00:05Z" sample_readings.

End Sample.

(** ** Integrity verification (verify_memory.py) *)

Module Verify.

(** What the scan reports for a line, by the message it prints.  The first
    ten are errors, the last four warnings. *)
Inductive finding :=
| InvalidJson
| NotAnObject
| InvalidSeq
| NonContiguousSeq
| InvalidEventId
| DuplicateEventId
| InvalidTimestamp
| PrevHashMismatch
| MissingHash
| HashMismatch
| UnexpectedSchema
| FirstPrevHash
| EmptyReference
| PathNotFound.

#[global] Instance finding_eq : EqDecision finding.
Proof. solve_decision. Defined.

(** The variables of the scan: the findings so far, each with its line
    number, and what the loop carries from record to record. *)
Record scan := {
  errors : list (Z * finding);
  warnings : list (Z * finding);
  previous_hash : string;
  previous_seq : Z;
  seen_ids : gset string;
  event_count : Z;
}.

Definition start : scan :=
  {| errors := []; warnings := []; previous_hash := EmptyString; previous_seq := 0;
     seen_ids := ∅; event_count := 0 |}.

(** [seq] as an [int], where [isinstance(seq, int)] holds. *)
Definition as_int (v : option jvalue) : option Z :=
  match v with
  | Some (JInt n) => Some n
  | Some (JBool b) => Some (if b then 1 else 0)
  | _ => None
  end.

(** A value that is a [str] with something left after [strip]. *)
Definition nonblank_str (v : option jvalue) : option string :=
  match v with
  | Some (JStr s) => if String.eqb (Py.strip s) EmptyString then None else Some s
  | _ => None
  end.

Section WithSurroundings.

Variable sha256_hex : string -> string.

(** [parse_iso8601], which rests on [datetime.fromisoformat]. *)
Variable parse_iso8601 : string -> bool.

(** Whether [resolve_ref(ref, repo_root)] exists. *)
Variable ref_exists : string -> bool.

(** The warnings for the references under [ref_key]. *)
Definition ref_warnings (line_no : Z) (event : gmap string jvalue) (ref_key : string) :
  list (Z * finding) :=
  match event !! ref_key with
  | Some (JArr items) =>
      omap (fun ref =>
              match nonblank_str (Some ref) with
              | None => Some (line_no, EmptyReference)
              | Some text => if ref_exists text then None else Some (line_no, PathNotFound)
              end) items
  | _ => []
  end.

(** The checks of one record. *)
Definition check_event (line_no : Z) (s : scan) (event : gmap string jvalue) : scan :=
  let schema_w :=
    if decide (event !! "schema" = Some (JStr "context-continuity-event-v1")) then []
    else [(line_no, UnexpectedSchema)] in
  let seq := as_int (event !! "seq") in
  let seq_e :=
    match seq with
    | None => [(line_no, InvalidSeq)]
    | Some n =>
        if n <=? 0 then [(line_no, InvalidSeq)]
        else if negb (n =? previous_seq s + 1) then [(line_no, NonContiguousSeq)]
        else []
    end in
  let event_id := nonblank_str (event !! "event_id") in
  let id_e :=
    match event_id with
    | None => [(line_no, InvalidEventId)]
    | Some i => if decide (i ∈ seen_ids s) then [(line_no, DuplicateEventId)] else []
    end in
  let ts_e :=
    match event !! "timestamp" with
    | Some (JStr ts) => if parse_iso8601 ts then [] else [(line_no, InvalidTimestamp)]
    | _ => [(line_no, InvalidTimestamp)]
    end in
  let prev_hash := Json.str (Json.get_or event "prev_hash" (JStr EmptyString)) in
  let has_previous := negb (String.eqb (previous_hash s) EmptyString) in
  let prev_e :=
    if has_previous && negb (String.eqb prev_hash (previous_hash s))
    then [(line_no, PrevHashMismatch)] else [] in
  let prev_w :=
    if negb has_previous && negb (String.eqb prev_hash EmptyString)
    then [(line_no, FirstPrevHash)] else [] in
  let current_hash := nonblank_str (event !! "hash") in
  let hash_e :=
    match current_hash with
    | None => [(line_no, MissingHash)]
    | Some h =>
        if String.eqb (Ledger.hash_event sha256_hex (delete "hash" event)) h then []
        else [(line_no, HashMismatch)]
    end in
  {| errors := errors s ++ seq_e ++ id_e ++ ts_e ++ prev_e ++ hash_e;
     warnings := warnings s ++ schema_w ++ prev_w
                 ++ ref_warnings line_no event "paths" ++ ref_warnings line_no event "refs";
     previous_hash := match current_hash with
                      | Some h => h
                      | None => previous_hash s
                      end;
     previous_seq := match seq with
                     | Some n => n
                     | None => previous_seq s
                     end;
     seen_ids := match event_id with
                 | Some i => {[i]} ∪ seen_ids s
                 | None => seen_ids s
                 end;
     event_count := event_count s + 1 |}.

Definition add_error (line_no : Z) (s : scan) (f : finding) : scan :=
  {| errors := errors s ++ [(line_no, f)]; warnings := warnings s;
     previous_hash := previous_hash s; previous_seq := previous_seq s;
     seen_ids := seen_ids s; event_count := event_count s + 1 |}.

(** One turn of the loop over the lines of the file. *)
Definition check_line (line_no : Z) (s : scan) (l : Ledger.line) : scan :=
  match l with
  | Ledger.Blank | Ledger.NoNewline => s
  | Ledger.Malformed => add_error line_no s InvalidJson
  | Ledger.NonObject => add_error line_no s NotAnObject
  | Ledger.Obj event => check_event line_no s event
  end.

(** The loop, from line number [line_no]. *)
Fixpoint scan_lines (line_no : Z) (s : scan) (ls : list Ledger.line) : scan :=
  match ls with
  | [] => s
  | l :: rest => scan_lines (line_no + 1) (check_line line_no s l) rest
  end.

(** What a run reports: [None] for the errors and warnings of a missing
    file stands for the one error ["Events file missing"]. *)
Definition verify (f : Ledger.file) : option scan :=
  scan_lines 1 start <$> f.

(** The exit status of [main]. *)
Definition exit_code (f : Ledger.file) (strict : bool) : Z :=
  match verify f with
  | None => 2
  | Some s =>
      match errors s, warnings s with
      | _ :: _, _ => 2
      | [], _ :: _ => if strict then 3 else 0
      | [], [] => 0
      end
  end.

End WithSurroundings.

(** The findings about the numbering and the chain of hashes. *)
Definition chain_finding (f : finding) : bool :=
  match f with
  | InvalidJson | NotAnObject | InvalidSeq | NonContiguousSeq | PrevHashMismatch
  | MissingHash | HashMismatch | FirstPrevHash => true
  | _ => false
  end.

End Verify.

(** ** Text helpers (memory_store.py, rehydrate.py) *)

Module Text.

(** The characters [re.sub(r"[^a-zA-Z0-9._-]+", ...)] leaves alone. *)
Definition is_slug_char (c : ascii) : bool :=
  let n := N_of_ascii c in
  ((97 <=? n)%N && (n <=? 122)%N) || ((65 <=? n)%N && (n <=? 90)%N)
  || ((48 <=? n)%N && (n <=? 57)%N)
  || (n =? 46)%N || (n =? 95)%N || (n =? 45)%N.

(** [re.sub(r"[^a-zA-Z0-9._-]+", "-", s)]: each maximal run of other
    characters becomes one dash; [in_run] says that the run under way has
    its dash already. *)
Fixpoint dash_runs (in_run : bool) (s : string) : string :=
  match s with
  | EmptyString => EmptyString
  | String c s' =>
      if is_slug_char c then String c (dash_runs false s')
      else if in_run then dash_runs true s'
      else String "-" (dash_runs true s')
  end.

Fixpoint lstrip_dash (s : string) : string :=
  match s with
  | EmptyString => EmptyString
  | String c s' => if Ascii.eqb c "-" then lstrip_dash s' else s
  end.

Fixpoint rstrip_dash (s : string) : string :=
  match s with
  | EmptyString => EmptyString
  | String c s' =>
      match rstrip_dash s' with
      | EmptyString => if Ascii.eqb c "-" then EmptyString else String c EmptyString
      | r => String c r
      end
  end.

(** [slugify] of memory_store.py *)
Definition slugify (text : string) : string :=
  Py.or_str (rstrip_dash (lstrip_dash (dash_runs false (Py.strip text)))) "entry".

(** The characters at which [str.splitlines] ends a line, below 256; a
    carriage return is handled apart. *)
Definition is_linebreak (c : ascii) : bool :=
  let n := N_of_ascii c in
  (n =? 10)%N || (n =? 11)%N || (n =? 12)%N || (n =? 28)%N || (n =? 29)%N
  || (n =? 30)%N || (n =? 133)%N.

(** [s.splitlines()], [cur] being the line under way. *)
Fixpoint splitlines_from (cur : string) (s : string) : list string :=
  match s with
  | EmptyString => if String.eqb cur EmptyString then [] else [cur]
  | String c s' =>
      if (N_of_ascii c =? 13)%N then
        match s' with
        | String d s'' =>
            if (N_of_ascii d =? 10)%N then cur :: splitlines_from EmptyString s''
            else cur :: splitlines_from EmptyString s'
        | EmptyString => [cur]
        end
      else if is_linebreak c then cur :: splitlines_from EmptyString s'
      else splitlines_from (cur +:+ String c EmptyString) s'
  end.

Definition splitlines (s : string) : list string := splitlines_from EmptyString s.

(** The loop of [extract_section] over the lines: the lines it collects. *)
Fixpoint section_lines (start : string) (in_section : bool) (lines : list string) :
  list string :=
  match lines with
  | [] => []
  | line :: rest =>
      if String.eqb (Py.strip line) start then section_lines start true rest
      else if in_section && String.prefix "## " line then []
      else if in_section then line :: section_lines start true rest
      else section_lines start false rest
  end.

(** [extract_section] of rehydrate.py *)
Definition extract_section (markdown heading : string) : string :=
  Py.strip (Py.join Py.nl
              (section_lines (Py.strip ("## " +:+ heading)) false (splitlines markdown))).

(** The loop of [compact_lines]: the lines kept, from the lines already
    kept ([count] of them, [chars] characters long in all). *)
Fixpoint compact_from (max_lines max_chars : Z) (count chars : Z) (lines : list string) :
  list string :=
  match lines with
  | [] => []
  | raw :: rest =>
      let line := Py.rstrip raw in
      if String.eqb (Py.strip line) EmptyString then
        compact_from max_lines max_chars count chars rest
      else if String.prefix "#" line then
        compact_from max_lines max_chars count chars rest
      else if max_lines <=? count then []
      else if max_chars <? chars + Py.len line then []
      else line :: compact_from max_lines max_chars (count + 1) (chars + Py.len line) rest
  end.

(** The list [out] of [compact_lines]. *)
Definition compact_kept (text : string) (max_lines max_chars : Z) : list string :=
  compact_from max_lines max_chars 0 0 (splitlines text).

(** [compact_lines] of rehydrate.py *)
Definition compact_lines (text : string) (max_lines max_chars : Z) : string :=
  Py.join Py.nl (compact_kept text max_lines max_chars).

(** [tail_decision_titles] of rehydrate.py *)
Definition tail_decision_titles (decisions_md : string) (max_items : Z) : list string :=
  Py.slice_from (- max_items)
    (map Py.strip (List.filter (String.prefix "### ") (splitlines decisions_md))).

End Text.
(** * Properties *)

(** ** The Python operations on samples *)

Module PyExamples.

Example stable_json_ex :
  Json.stable_json
    (<["seq" := JInt 12]> (<["kind" := JStr "note"]>
       (<["paths" := JArr [JStr "a/b"; JStr "c"]]> (<["payload" := JObj [("z", JNull); ("a", JBool true)]]> ∅))))
  = "{" +:+ Py.dquote +:+ "kind" +:+ Py.dquote +:+ ":" +:+ Py.dquote +:+ "note" +:+ Py.dquote
    +:+ "," +:+ Py.dquote +:+ "paths" +:+ Py.dquote +:+ ":[" +:+ Py.dquote +:+ "a/b" +:+ Py.dquote
    +:+ "," +:+ Py.dquote +:+ "c" +:+ Py.dquote +:+ "],"
    +:+ Py.dquote +:+ "payload" +:+ Py.dquote +:+ ":{" +:+ Py.dquote +:+ "a" +:+ Py.dquote +:+ ":true,"
    +:+ Py.dquote +:+ "z" +:+ Py.dquote +:+ ":null},"
    +:+ Py.dquote +:+ "seq" +:+ Py.dquote +:+ ":12}".
Proof. vm_compute. reflexivity. Qed.

Example dumps_indent2_ex :
  Json.dumps_indent2 (<["b" := JArr [JInt 1; JInt (-20)]]> (<["a" := JObj []]> ∅))
  = "{" +:+ Py.nl +:+ "  " +:+ Py.dquote +:+ "a" +:+ Py.dquote +:+ ": {}," +:+ Py.nl
    +:+ "  " +:+ Py.dquote +:+ "b" +:+ Py.dquote +:+ ": [" +:+ Py.nl
    +:+ "    1," +:+ Py.nl +:+ "    -20" +:+ Py.nl +:+ "  ]" +:+ Py.nl +:+ "}".
Proof. vm_compute. reflexivity. Qed.

Example strip_ex : Py.strip ("  a b " +:+ Py.nl) = "a b".
Proof. reflexivity. Qed.

Example repr_ex :
  Json.str (JArr [JStr "it's"; JInt 3; JNull; JObj [("k", JBool true)]])
  = "[" +:+ Py.dquote +:+ "it's" +:+ Py.dquote +:+ ", 3, None, {'k': True}]".
Proof. vm_compute. reflexivity. Qed.

Example str_int_ex : Py.str_int 1800 = "1800" /\ Py.str_int (-7) = "-7" /\ Py.str_int 0 = "0".
Proof. vm_compute. auto. Qed.

Example tokenize_terms_ex :
  Rehydrate.tokenize_terms "Fix the Ledger-repair tool in src/a.py, then fix docs!"
  = ["fix"; "the"; "ledger-repair"; "tool"; "src/a.py"; "then"; "docs"].
Proof. vm_compute. reflexivity. Qed.

Example unique_keep_order_ex : Py.unique_keep_order ["a"; "b"; "a"; "c"; "b"] = ["a"; "b"; "c"].
Proof. vm_compute. reflexivity. Qed.

Example most_common_ex :
  TypedMemory.most_common
    (TypedMemory.incr "y" (TypedMemory.incr "z" (TypedMemory.incr "z"
       (TypedMemory.incr "y" (TypedMemory.incr "x" []))))) 2
  = [("y", 2); ("z", 2)].
Proof. vm_compute. reflexivity. Qed.

Example slice_ex :
  Py.slice_to (-1) [1; 2; 3] = [1; 2] /\ Py.slice_to 5 [1; 2; 3] = [1; 2; 3]
  /\ Py.slice_from (-2) [1; 2; 3] = [2; 3] /\ Py.slice_from (-5) [1; 2; 3] = [1; 2; 3].
Proof. vm_compute. auto. Qed.

Example approx_tokens_ex :
  Py.approx_tokens EmptyString = 1 /\ Py.approx_tokens "abcd" = 1
  /\ Py.approx_tokens "abcde" = 2.
Proof. vm_compute. auto. Qed.

Example sort_desc_stable_ex :
  Rehydrate.sort_desc Rehydrate.candidate_lt
    [("a", "x", 5); ("b", "x", 9); ("c", "x", 5); ("d", "x", 9)]
  = [("b", "x", 9); ("d", "x", 9); ("a", "x", 5); ("c", "x", 5)].
Proof. vm_compute. reflexivity. Qed.

End PyExamples.

(** ** The ledger *)

Module LedgerFacts.

Import Ledger.
Import Sample.

Lemma sample_digest_nonempty (s : string) : sample_digest s <> EmptyString.
Proof. discriminate. Qed.


Lemma event_items_keys a r seq ph :
  (event_items a r seq ph).*1 =
  [ "schema"; "seq"; "event_id"; "timestamp"; "repo_root"; "repo_id"; "kind";
    "status"; "summary"; "source"; "task"; "paths"; "symbols"; "commands";
    "refs"; "payload"; "prev_hash" ].
Proof. reflexivity. Qed.

Lemma event_items_NoDup a r seq ph : NoDup (event_items a r seq ph).*1.
Proof. rewrite event_items_keys. apply (bool_decide_unpack _). vm_compute. exact I. Qed.

Lemma drop_blank_lookup (items : list (string * jvalue)) (k : string) :
  NoDup items.*1 ->
  drop_blank items !! k =
  match (list_to_map items : gmap string jvalue) !! k with
  | Some v => if Json.is_blank v then None else Some v
  | None => None
  end.
Proof.
  unfold drop_blank. induction items as [|[k0 v0] rest IH]; intros Hnd.
  - simpl. by rewrite !lookup_empty.
  - apply NoDup_cons in Hnd as [Hfresh Hnd]. specialize (IH Hnd). simpl.
    destruct (Json.is_blank v0) eqn:Hb; simpl.
    + rewrite IH. destruct (decide (k0 = k)) as [->|Hne].
      * rewrite lookup_insert_eq, Hb.
        by rewrite (not_elem_of_list_to_map_1 _ _ Hfresh).
      * by rewrite lookup_insert_ne.
    + destruct (decide (k0 = k)) as [->|Hne].
      * by rewrite !lookup_insert_eq, Hb.
      * by rewrite !lookup_insert_ne.
Qed.

Lemma drop_blank_item (items : list (string * jvalue)) (k : string) (v : jvalue) :
  NoDup items.*1 -> (k, v) ∈ items ->
  drop_blank items !! k = if Json.is_blank v then None else Some v.
Proof.
  intros Hnd Hin. rewrite drop_blank_lookup by done.
  by rewrite (elem_of_list_to_map_1 _ _ _ Hnd Hin).
Qed.

Lemma drop_blank_not_blank (items : list (string * jvalue)) (k : string) (v : jvalue) :
  NoDup items.*1 -> drop_blank items !! k = Some v -> Json.is_blank v = false.
Proof.
  intros Hnd. rewrite drop_blank_lookup by done.
  destruct (list_to_map items !! k) as [w|]; [|done].
  destruct (Json.is_blank w) eqn:Hb; [done|]. by intros [= <-].
Qed.

Lemma drop_blank_no_hash a r seq ph :
  drop_blank (event_items a r seq ph) !! "hash" = None.
Proof.
  rewrite drop_blank_lookup by apply event_items_NoDup.
  rewrite not_elem_of_list_to_map_1; [done|].
  rewrite event_items_keys. apply (bool_decide_unpack _). vm_compute. exact I.
Qed.

Lemma opt_str_blank (s : string) :
  Json.is_blank (opt_str s) = String.eqb s EmptyString.
Proof. unfold opt_str. by destruct s. Qed.

(** A file of newline-terminated records has no open line. *)
Lemma open_tail_objects (es : list (gmap string jvalue)) :
  open_tail (map Obj es) = None.
Proof.
  unfold open_tail. change (map Obj es) with (Obj <$> es). rewrite <- fmap_reverse.
  by destruct (reverse es).
Qed.

Lemma append_jsonl_terminated (f : file) (obj : gmap string jvalue) :
  terminated f = true -> append_jsonl f obj = Some (lines_of f ++ [Obj obj]).
Proof. unfold terminated, append_jsonl. by destruct (open_tail (lines_of f)). Qed.

Lemma append_jsonl_objects (es : list (gmap string jvalue)) (obj : gmap string jvalue) :
  append_jsonl (Some (map Obj es)) obj = Some (map Obj (es ++ [obj])).
Proof.
  unfold append_jsonl. cbn [lines_of default from_option id].
  by rewrite open_tail_objects, map_app.
Qed.

Section Chain.

Variable sha256_hex : string -> string.

(** The file after [append_event], where it ended in a newline. *)
Lemma append_event_file f a r :
  terminated f = true ->
  lines_of (append_event sha256_hex f a r).2
  = lines_of f ++ [Obj (append_event sha256_hex f a r).1].
Proof.
  intros Hf. unfold append_event. cbn [fst snd]. by rewrite append_jsonl_terminated.
Qed.

Lemma append_event_objects (es : list (gmap string jvalue)) a r :
  (append_event sha256_hex (Some (map Obj es)) a r).2
  = Some (map Obj (es ++ [(append_event sha256_hex (Some (map Obj es)) a r).1])).
Proof. unfold append_event. cbn [fst snd]. apply append_jsonl_objects. Qed.

Lemma append_event_delete_hash f a r :
  delete "hash" (append_event sha256_hex f a r).1
  = drop_blank (event_items a r (next_seq f (read_last_jsonl_obj f))
                  (prev_hash_of (read_last_jsonl_obj f))).
Proof.
  unfold append_event. simpl. rewrite delete_insert_eq.
  apply delete_id, drop_blank_no_hash.
Qed.

Lemma append_event_hash_ok f a r :
  hash_ok sha256_hex (append_event sha256_hex f a r).1.
Proof.
  unfold hash_ok. rewrite append_event_delete_hash.
  unfold append_event. simpl. by rewrite lookup_insert_eq.
Qed.

Lemma append_event_canonical f a r : canonical (append_event sha256_hex f a r).1.
Proof.
  intros k v. rewrite append_event_delete_hash.
  apply drop_blank_not_blank, event_items_NoDup.
Qed.

Lemma append_event_prev_hash f a r :
  (append_event sha256_hex f a r).1 !! "prev_hash"
  = if String.eqb (prev_hash_of (read_last_jsonl_obj f)) EmptyString then None
    else Some (JStr (prev_hash_of (read_last_jsonl_obj f))).
Proof.
  unfold append_event. simpl. rewrite lookup_insert_ne by done.
  rewrite (drop_blank_item _ "prev_hash" (opt_str (prev_hash_of (read_last_jsonl_obj f))))
    by (apply event_items_NoDup || (unfold event_items; set_solver)).
  rewrite opt_str_blank. unfold opt_str.
  by destruct (String.eqb _ _).
Qed.

Lemma read_last_objects (es : list (gmap string jvalue)) :
  read_last_jsonl_obj (Some (map Obj es)) = last es.
Proof.
  unfold read_last_jsonl_obj.
  replace (List.filter nonblank (map Obj es)) with (map Obj es).
  - change (map Obj es) with (Obj <$> es). rewrite fmap_last. by destruct (last es).
  - induction es as [|e es IH]; simpl; [done|]. by rewrite <- IH.
Qed.

Lemma objects_map_Obj (es : list (gmap string jvalue)) :
  objects (Some (map Obj es)) = es.
Proof.
  unfold objects, lines_of. cbn. induction es as [|e es IH]; [done|].
  cbn. f_equal. exact IH.
Qed.

(** The invariant of a ledger that only [append_event] has written. *)
Definition chained (es : list (gmap string jvalue)) : Prop :=
  Forall (fun e => hash_ok sha256_hex e /\ canonical e) es
  /\ forall (n : nat) prev e, es !! n = Some prev -> es !! S n = Some e -> linked prev e.

Lemma chained_nil : chained [].
Proof. split; [constructor|]. intros n prev e Hn. by rewrite lookup_nil in Hn. Qed.

Hypothesis sha256_hex_nonempty : forall s, sha256_hex s <> EmptyString.

Lemma prev_hash_of_hash_ok (e : gmap string jvalue) :
  hash_ok sha256_hex e ->
  prev_hash_of (Some e) = hash_event sha256_hex (delete "hash" e)
  /\ String.eqb (prev_hash_of (Some e)) EmptyString = false.
Proof.
  unfold hash_ok, prev_hash_of. intros ->. simpl.
  pose proof (sha256_hex_nonempty (Json.stable_json (delete "hash" e))) as Hne.
  unfold hash_event in *.
  destruct (String.eqb_spec (sha256_hex (Json.stable_json (delete "hash" e))) EmptyString)
    as [Heq|_]; [done|]. simpl. split; [done|]. by apply String.eqb_neq.
Qed.

Lemma chained_snoc (es : list (gmap string jvalue)) a r :
  chained es ->
  chained (es ++ [(append_event sha256_hex (Some (map Obj es)) a r).1]).
Proof.
  intros [Hall Hlink]. split.
  - apply Forall_app. split; [done|]. constructor; [|constructor].
    split; [apply append_event_hash_ok | apply append_event_canonical].
  - intros n prev e Hn HSn.
    destruct (decide (S n < length es)%nat) as [Hlt|Hge].
    + rewrite lookup_app_l in Hn by lia. rewrite lookup_app_l in HSn by lia. eauto.
    + assert (S n = length es) as Hlen.
      { apply lookup_lt_Some in HSn. rewrite length_app in HSn. simpl in HSn. lia. }
      rewrite lookup_app_l in Hn by lia.
      rewrite lookup_app_r, Hlen, Nat.sub_diag in HSn by lia.
      injection HSn as <-.
      assert (last es = Some prev) as Hlast.
      { rewrite last_lookup. replace (pred (length es)) with n by lia. done. }
      assert (hash_ok sha256_hex prev) as Hok.
      { rewrite Forall_forall in Hall. apply Hall.
        by apply list_elem_of_lookup_2 in Hn. }
      destruct (prev_hash_of_hash_ok prev Hok) as [Hph Hnz].
      exists (hash_event sha256_hex (delete "hash" prev)). split; [exact Hok|].
      pose proof (append_event_prev_hash (Some (map Obj es)) a r) as Hp.
      rewrite read_last_objects, Hlast, Hnz, Hph in Hp. exact Hp.
Qed.

Lemma append_all_objects (calls : list (fields * readings)) (es : list (gmap string jvalue)) :
  chained es ->
  exists es', append_all sha256_hex (Some (map Obj es)) calls = Some (map Obj (es ++ es'))
              /\ length es' = length calls /\ chained (es ++ es').
Proof.
  revert es. induction calls as [|[a r] calls IH]; intros es Hes.
  - exists []. by rewrite app_nil_r.
  - change (append_all sha256_hex (Some (map Obj es)) ((a, r) :: calls))
      with (append_all sha256_hex (append_event sha256_hex (Some (map Obj es)) a r).2 calls).
    set (e := (append_event sha256_hex (Some (map Obj es)) a r).1).
    assert ((append_event sha256_hex (Some (map Obj es)) a r).2 = Some (map Obj (es ++ [e])))
      as -> by apply append_event_objects.
    destruct (IH (es ++ [e])) as (es' & Heq & Hlen & Hch).
    { by apply chained_snoc. }
    exists (e :: es'). rewrite <- app_assoc in Heq, Hch. simpl in *.
    split; [done|]. split; [by rewrite Hlen | done].
Qed.

End Chain.

(** C1.  A ledger that successive [append_event] calls wrote, starting from
    an absent or empty file, holds one object per call; each object after the
    first carries the [hash] of the one before it as [prev_hash]; and each
    object's [hash] is the SHA-256 of [stable_json] of the object without
    [hash], where no field left is [None], [[]], [{}] or the empty string.
    SHA-256 enters as any function that returns no empty text. *)
Theorem append_all_chain (sha256_hex : string -> string)
  (sha256_hex_nonempty : forall s, sha256_hex s <> EmptyString)
  (start : file) (calls : list (fields * readings)) :
  start = None \/ start = Some [] ->
  let ledger := append_all sha256_hex start calls in
  lines_of ledger = map Obj (objects ledger)
  /\ length (objects ledger) = length calls
  /\ (forall (n : nat) prev e,
        objects ledger !! n = Some prev -> objects ledger !! S n = Some e ->
        linked prev e)
  /\ (forall e, e ∈ objects ledger ->
        e !! "hash" = Some (JStr (sha256_hex (Json.stable_json (delete "hash" e))))
        /\ canonical e).
Proof.
  intros Hstart ledger.
  assert (exists es, lines_of ledger = map Obj es /\ objects ledger = es
                     /\ length es = length calls /\ chained sha256_hex es)
    as (es & Hl & Ho & Hlen & [Hall Hlink]).
  { destruct (append_all_objects sha256_hex sha256_hex_nonempty calls [])
      as (es & Heq & Hlen & Hch); [apply chained_nil|].
    exists es. subst ledger.
    destruct Hstart as [-> | ->].
    - destruct calls as [|[a r] calls].
      + destruct es; [|done]. repeat split; try done; apply chained_nil.
      + change (append_all sha256_hex None ((a, r) :: calls))
          with (append_all sha256_hex (Some (map Obj [])) ((a, r) :: calls)).
        rewrite Heq. by rewrite objects_map_Obj.
    - change (Some []) with (Some (map Obj [])).
      rewrite Heq. by rewrite objects_map_Obj. }
  rewrite Ho. repeat split; try done.
  - rewrite Forall_forall in Hall. by apply Hall.
  - rewrite Forall_forall in Hall. by apply Hall.
Qed.


Lemma append_all_chain_witness :
  lines_of sample_ledger = map Obj (objects sample_ledger)
  /\ length (objects sample_ledger) = length sample_calls
  /\ (forall (n : nat) prev e,
        objects sample_ledger !! n = Some prev -> objects sample_ledger !! S n = Some e ->
        linked prev e)
  /\ (forall e, e ∈ objects sample_ledger ->
        e !! "hash" = Some (JStr (sample_digest (Json.stable_json (delete "hash" e))))
        /\ canonical e).
Proof.
  apply (append_all_chain sample_digest); [intros s; discriminate | left; reflexivity].
Defined.

(** The three sample records: numbered 1, 2, 3, the first without
    [prev_hash], with the trimmed and deduplicated path and without the
    blank task. *)
Example sample_ledger_fields :
  map (fun e : gmap string jvalue => (e !! "seq", e !! "paths", e !! "task", e !! "event_id"))
    (objects sample_ledger)
  = [ (Some (JInt 1), Some (JArr [JStr "src/a.py"]), None, Some (JStr "20260102-030405-01234567"));
      (Some (JInt 2), Some (JArr [JStr "src/a.py"]), None, Some (JStr "20260102-030405-01234567"));
      (Some (JInt 3), Some (JArr [JStr "src/a.py"]), None, Some (JStr "20260102-030405-01234567")) ]
  /\ map (fun e : gmap string jvalue => bool_decide (is_Some (e !! "prev_hash")))
       (objects sample_ledger) = [false; true; true].
Proof. vm_compute. done. Qed.


(** C2, as stated, fails: a call whose summary is blank and whose status is
    none of the four values still appends a record to an absent ledger. *)
Lemma append_event_unvalidated :
  Py.strip (summary blank_call) = EmptyString
  /\ Rehydrate.one_of (status blank_call) recognized = false
  /\ lines_of None = []
  /\ length (lines_of (append_event sample_digest None blank_call sample_readings).2) = 1%nat.
Proof. vm_compute. done. Qed.

(** C2, amended.  [append_event] checks neither the summary nor the status:
    every call returns a record and writes it at the end of the file, and
    where the file is absent, empty or ends in a newline that appends
    exactly one record, the one returned.  The record has no [summary] when
    the summary is blank after trimming and the trimmed summary otherwise,
    and likewise for the status. *)
Theorem append_event_appends_one (sha256_hex : string -> string)
  (f : file) (a : fields) (r : readings) :
  (terminated f = true ->
   lines_of (append_event sha256_hex f a r).2
   = lines_of f ++ [Obj (append_event sha256_hex f a r).1])
  /\ (append_event sha256_hex f a r).2
     = append_jsonl f (append_event sha256_hex f a r).1
  /\ (append_event sha256_hex f a r).1 !! "summary"
     = (if String.eqb (Py.strip (summary a)) EmptyString then None
        else Some (JStr (Py.strip (summary a))))
  /\ (append_event sha256_hex f a r).1 !! "status"
     = (if String.eqb (Py.strip (status a)) EmptyString then None
        else Some (JStr (Py.strip (status a)))).
Proof.
  split; [apply append_event_file|]. split; [reflexivity|].
  unfold append_event. cbn [fst]. rewrite !lookup_insert_ne by done.
  rewrite (drop_blank_item _ "summary" (JStr (Py.strip (summary a))))
    by (apply event_items_NoDup || (unfold event_items; set_solver)).
  rewrite (drop_blank_item _ "status" (JStr (Py.strip (status a))))
    by (apply event_items_NoDup || (unfold event_items; set_solver)).
  split.
  - by destruct (Py.strip (summary a)).
  - by destruct (Py.strip (status a)).
Qed.

Lemma append_event_appends_one_witness :
  terminated sample_ledger = true
  /\ lines_of (append_event sample_digest sample_ledger blank_call sample_readings).2
     = lines_of sample_ledger
       ++ [Obj (append_event sample_digest sample_ledger blank_call sample_readings).1].
Proof.
  split; [vm_compute; reflexivity|].
  apply (append_event_appends_one sample_digest sample_ledger blank_call sample_readings).
  vm_compute. reflexivity.
Defined.

(** Where the last line of the file is open and holds text, the record is
    written after that text: the file has as many lines as before, the
    last one no longer reads as JSON, and the record returned is in no
    line.  After an open blank line the record is readable. *)
Example append_event_on_open_line :
  let e0 := <["seq" := JInt 1]> (∅ : gmap string jvalue) in
  let run := append_event sample_digest (Some [Obj e0; NoNewline]) blank_call sample_readings in
  terminated (Some [Obj e0; NoNewline]) = false
  /\ run.2 = Some [Malformed]
  /\ run.1 !! "seq" = Some (JInt 2)
  /\ (append_event sample_digest (Some [Obj e0; Blank; NoNewline]) blank_call
        sample_readings).2
     = Some [Obj e0;
             Obj (append_event sample_digest (Some [Obj e0; Blank; NoNewline]) blank_call
                    sample_readings).1].
Proof. vm_compute. done. Qed.

End LedgerFacts.

(** ** Chain repair *)

Module RepairFacts.

Import Repair.
Import Sample.

(** Python's [==] holds between a value and itself. *)
Lemma py_eq_refl : forall v : jvalue, Json.py_eq v v = true.
Proof.
  fix IH 1. intros [|b|n|s|items|fields]; cbn [Json.py_eq].
  - done.
  - by destruct b.
  - apply Z.eqb_refl.
  - apply String.eqb_refl.
  - induction items as [|x xs IHxs]; [done|]. by rewrite IH, IHxs.
  - rewrite Nat.eqb_refl. cbn [andb].
    assert (forall ys : list (string * jvalue),
              (forall kv, In kv fields -> In kv ys) ->
              (fix go (xs : list (string * jvalue)) : bool :=
                 match xs with
                 | [] => true
                 | (k, v) :: xs' =>
                     existsb (fun kw : string * jvalue =>
                                String.eqb k kw.1 && Json.py_eq v kw.2) ys
                     && go xs'
                 end) fields = true) as Hall; [|by apply Hall].
    induction fields as [|[k v] xs IHxs]; intros ys Hin; [done|].
    rewrite IHxs by (intros kv Hkv; apply Hin; by right).
    rewrite andb_true_r. apply existsb_exists. exists (k, v).
    split; [apply Hin; by left|]. cbn [fst snd]. by rewrite String.eqb_refl, IH.
Qed.

Lemma py_eq_dict_refl (e : gmap string jvalue) : Json.py_eq_dict e e = true.
Proof. apply py_eq_refl. Qed.

Section Normalize.

Variable sha256_hex : string -> string.

(** One turn of the loop on a record, from the [prev_hash] and the new
    [seq]: the record before its hash is recomputed. *)
Definition rebuilt (prev_hash : string) (seq : Z) (event : gmap string jvalue) :
  gmap string jvalue :=
  delete "hash"
    (if String.eqb prev_hash EmptyString then delete "prev_hash" (<["seq" := JInt seq]> event)
     else <["prev_hash" := JStr prev_hash]> (<["seq" := JInt seq]> event)).

Lemma normalize_from_cons prev_hash seq event rest :
  normalize_from sha256_hex prev_hash seq (event :: rest)
  = <["hash" := JStr (Ledger.hash_event sha256_hex (rebuilt prev_hash (seq + 1) event))]>
      (rebuilt prev_hash (seq + 1) event)
    :: normalize_from sha256_hex
         (Ledger.hash_event sha256_hex (rebuilt prev_hash (seq + 1) event)) (seq + 1) rest.
Proof. reflexivity. Qed.

Lemma rebuilt_lookup_other prev_hash seq event k :
  k <> "seq" -> k <> "prev_hash" -> k <> "hash" ->
  rebuilt prev_hash seq event !! k = event !! k.
Proof.
  intros Hs Hp Hh. unfold rebuilt.
  destruct (String.eqb prev_hash EmptyString); by simplify_map_eq.
Qed.

(** Rebuilding a rebuilt and rehashed record changes nothing. *)
Lemma rebuilt_again prev_hash seq event h :
  rebuilt prev_hash seq (<["hash" := h]> (rebuilt prev_hash seq event))
  = rebuilt prev_hash seq event.
Proof.
  apply map_eq. intros k. unfold rebuilt.
  destruct (String.eqb prev_hash EmptyString);
    destruct (decide (k = "hash")) as [Hh|Hh];
    destruct (decide (k = "prev_hash")) as [Hp|Hp];
    destruct (decide (k = "seq")) as [Hs|Hs];
    subst; try done; by simplify_map_eq.
Qed.

Lemma normalize_from_idempotent prev_hash seq events :
  normalize_from sha256_hex prev_hash seq (normalize_from sha256_hex prev_hash seq events)
  = normalize_from sha256_hex prev_hash seq events.
Proof.
  revert prev_hash seq. induction events as [|event rest IH]; intros prev_hash seq; [done|].
  rewrite (normalize_from_cons prev_hash seq event rest), normalize_from_cons.
  rewrite rebuilt_again. by rewrite IH.
Qed.

Lemma normalize_from_length prev_hash seq events :
  length (normalize_from sha256_hex prev_hash seq events) = length events.
Proof.
  revert prev_hash seq. induction events as [|event rest IH]; intros prev_hash seq; [done|].
  rewrite normalize_from_cons. simpl. by rewrite IH.
Qed.

Lemma normalize_from_preserves prev_hash seq events (i : nat) e e' k :
  events !! i = Some e ->
  normalize_from sha256_hex prev_hash seq events !! i = Some e' ->
  k <> "seq" -> k <> "prev_hash" -> k <> "hash" ->
  e' !! k = e !! k.
Proof.
  revert prev_hash seq i. induction events as [|event rest IH]; intros prev_hash seq i; [done|].
  rewrite normalize_from_cons. destruct i as [|i]; simpl.
  - intros [= <-] [= <-] Hs Hp Hh.
    rewrite lookup_insert_ne by done. by apply rebuilt_lookup_other.
  - apply IH.
Qed.

(** Position [i] is numbered [i + 1]. *)
Lemma normalize_from_seq prev_hash seq events (i : nat) e' :
  normalize_from sha256_hex prev_hash seq events !! i = Some e' ->
  e' !! "seq" = Some (JInt (seq + 1 + Z.of_nat i)).
Proof.
  revert prev_hash seq i. induction events as [|event rest IH]; intros prev_hash seq i; [done|].
  rewrite normalize_from_cons. destruct i as [|i]; simpl.
  - intros [= <-]. rewrite Z.add_0_r. unfold rebuilt.
    destruct (String.eqb prev_hash EmptyString); by simplify_map_eq.
  - intros H. rewrite (IH _ _ _ H). do 2 f_equal. lia.
Qed.

Lemma changed_same (events : list (gmap string jvalue)) :
  changed events events = false.
Proof.
  unfold changed. induction events as [|e rest IH]; [done|].
  simpl. by rewrite IH, py_eq_dict_refl.
Qed.

Lemma load_lines_objects (events : list (gmap string jvalue)) :
  load_lines (map Ledger.Obj events) = Some events.
Proof. induction events as [|e rest IH]; [done|]. simpl. by rewrite IH. Qed.

Lemma normalize_chain_nonempty event rest :
  normalize_chain sha256_hex (event :: rest) <> [].
Proof. unfold normalize_chain. by rewrite normalize_from_cons. Qed.

(** After a run that may write, a second run reports no change. *)
Lemma main_twice f stamp1 dry2 stamp2 :
  rep_changed (main sha256_hex (rep_events_file (main sha256_hex f false stamp1)) dry2 stamp2)
  = false.
Proof.
  unfold main at 2.
  destruct (load_events f) as [[|event rest]|] eqn:Hload; simpl.
  - unfold main. by rewrite Hload.
  - destruct (changed (event :: rest) (normalize_chain sha256_hex (event :: rest))) eqn:Hch; simpl.
    + unfold main, load_events, write_events. rewrite load_lines_objects.
      pose proof (normalize_chain_nonempty event rest) as Hne.
      destruct (normalize_chain sha256_hex (event :: rest)) as [|e' rest'] eqn:Hn; [done|].
      assert (normalize_chain sha256_hex (e' :: rest') = e' :: rest') as ->.
      { rewrite <- Hn. apply normalize_from_idempotent. }
      rewrite changed_same. by destruct dry2.
    + unfold main. rewrite Hload, Hch. by destruct dry2.
  - unfold main. by rewrite Hload.
Qed.

End Normalize.

(** C3.  [normalize_chain] applied to its own output returns it unchanged,
    so the second run compares equal lists and reports [changed = False],
    also as a run of [main] after a run that was free to write.  The output
    has one record per input record, and each keeps the value, or the
    absence, of every field other than [seq], [prev_hash] and [hash]. *)
Theorem normalize_chain_idempotent (sha256_hex : string -> string)
  (events : list (gmap string jvalue)) :
  normalize_chain sha256_hex (normalize_chain sha256_hex events)
  = normalize_chain sha256_hex events
  /\ changed (normalize_chain sha256_hex events)
       (normalize_chain sha256_hex (normalize_chain sha256_hex events)) = false
  /\ (forall f stamp1 dry2 stamp2,
        rep_changed (main sha256_hex (rep_events_file (main sha256_hex f false stamp1))
                       dry2 stamp2) = false)
  /\ length (normalize_chain sha256_hex events) = length events
  /\ (forall (i : nat) e e' k,
        events !! i = Some e -> normalize_chain sha256_hex events !! i = Some e' ->
        k <> "seq" -> k <> "prev_hash" -> k <> "hash" ->
        e' !! k = e !! k).
Proof.
  unfold normalize_chain. rewrite normalize_from_idempotent.
  split; [done|]. split; [apply changed_same|].
  split; [apply main_twice|]. split; [apply normalize_from_length|].
  intros i e e' k. apply normalize_from_preserves.
Qed.


Lemma normalize_chain_idempotent_witness :
  normalize_chain sample_digest (normalize_chain sample_digest stale)
  = normalize_chain sample_digest stale
  /\ changed (normalize_chain sample_digest stale)
       (normalize_chain sample_digest (normalize_chain sample_digest stale)) = false
  /\ length (normalize_chain sample_digest stale) = length stale
  /\ default ∅ (normalize_chain sample_digest stale !! 1%nat) !! "note"
     = default ∅ (stale !! 1%nat) !! "note".
Proof.
  destruct (normalize_chain_idempotent sample_digest stale) as (H1 & H2 & _ & H4 & H5).
  split; [exact H1|]. split; [exact H2|]. split; [exact H4|].
  apply (H5 1%nat).
  - reflexivity.
  - vm_compute. reflexivity.
  - discriminate.
  - discriminate.
  - discriminate.
Defined.

Example normalize_chain_stale :
  map (fun e : gmap string jvalue => (e !! "seq", e !! "summary", e !! "note",
                                      bool_decide (is_Some (e !! "prev_hash"))))
    (normalize_chain sample_digest stale)
  = [ (Some (JInt 1), Some (JStr "first"), None, false);
      (Some (JInt 2), Some (JStr "second"), Some (JInt 3), true) ]
  /\ changed stale (normalize_chain sample_digest stale) = true
  /\ changed (normalize_chain sample_digest stale)
       (normalize_chain sample_digest
          (normalize_chain sample_digest stale)) = false.
Proof. vm_compute. done. Qed.

(** Python compares [True] equal to [1]: a record whose [seq] is [true]
    where the chain wants [1] differs from the rebuilt record, yet the run
    reports no change and leaves the file alone. *)
Example seq_true_already_consistent :
  let odd := map (insert "seq" (JBool true))
               (normalize_chain sample_digest [ <["summary" := JStr "first"]> ∅ ]) in
  bool_decide (odd = normalize_chain sample_digest odd) = false
  /\ changed odd (normalize_chain sample_digest odd) = false
  /\ rep_status (main sample_digest (Some (map Ledger.Obj odd)) false "20260301T120000Z")
     = AlreadyConsistent.
Proof. vm_compute. done. Qed.

End RepairFacts.

(** ** Branches and merges *)

Module ContextOpsFacts.

Import ContextOps.
Import Sample.

Ltac lookup_fields :=
  repeat first [ rewrite lookup_insert_eq | rewrite lookup_insert_ne by done ].

Lemma head_of_lookup (bs : gmap string (option string)) (name : string) (h : option string) :
  bs !! name = Some h -> head_of bs name = h.
Proof. unfold head_of. by intros ->. Qed.

Section Operations.

Variable sha256_hex : string -> string.

Lemma record_event_refs st a r needed text payload :
  refs_file (record_event sha256_hex st a r needed text payload) = refs_file st
  /\ commit_files (record_event sha256_hex st a r needed text payload) = commit_files st
  /\ artifacts (record_event sha256_hex st a r needed text payload) = artifacts st.
Proof.
  unfold record_event. by destruct (_ && _).
Qed.

Lemma create_commit_parents st r branch parents message meta tracked :
  let cid := (create_commit sha256_hex st r branch parents message meta tracked).1 in
  let st' := (create_commit sha256_hex st r branch parents message meta tracked).2 in
  exists payload,
    commit_files st' !! cid = Some payload
    /\ payload !! "parents" = Some (JArr (map JStr parents))
    /\ payload !! "branch" = Some (JStr branch)
    /\ payload !! "commit_id" = Some (JStr cid)
    /\ refs_file st' = refs_file st.
Proof.
  unfold create_commit. cbn [fst snd commit_files refs_file].
  eexists. split; [apply lookup_insert_eq|].
  unfold list_to_map. cbn [foldr uncurry]. by lookup_fields.
Qed.

(** The heads among [target_head, source_head] that a condition accepts. *)
Lemma merge_parents_cases (target_head : option string) (s : string) :
  s <> EmptyString ->
  merge_parents target_head (Some s)
  = match target_head with
    | Some t => if String.eqb t EmptyString then [s] else [t; s]
    | None => [s]
    end.
Proof.
  intros Hs. unfold merge_parents. simpl.
  apply String.eqb_neq in Hs. rewrite Hs. simpl.
  destruct target_head as [t|]; [|done]. simpl. by destruct (String.eqb t EmptyString).
Qed.

End Operations.


(** C5, amended.  A merge of a known source branch with head [s] into a
    known target branch whose head differs from [s] exits with status 0,
    makes the target the active branch and points it at a new commit whose
    parents are the heads among [target_head, source_head] that are neither
    [null] nor empty, in that order: both when the target has a head, the
    source head alone when it has none. *)
Theorem merge_commit_parents (sha256_hex : string -> string)
  (st : store) (a : args) (r : readings) (s : string) (target_head : option string) :
  let rf := (read_refs st r).1 in
  let source := Py.strip (arg_source a) in
  let target := Py.or_str (Py.strip (arg_target a)) (active_branch rf) in
  let res := main sha256_hex st a r in
  arg_action a = Merge ->
  source <> EmptyString ->
  branches rf !! source = Some (Some s) ->
  s <> EmptyString ->
  branches rf !! target = Some target_head ->
  target_head <> Some s ->
  exit_code res = 0
  /\ (active_branch <$> refs_file (final res)) = Some target
  /\ head_commit_parents (final res) target
     = Some (JArr (map JStr
                     match target_head with
                     | Some t => if String.eqb t EmptyString then [s] else [t; s]
                     | None => [s]
                     end)).
Proof.
  intros rf source target res Hact Hsrc Hs Hne Ht Hdiff.
  subst res. unfold main. destruct (read_refs st r) as [rf0 st0] eqn:Hread.
  cbn [fst] in rf. subst rf. rewrite Hact. unfold do_merge.
  fold source. fold target.
  apply String.eqb_neq in Hsrc. rewrite Hsrc.
  rewrite (bool_decide_eq_true_2 (is_Some (branches rf0 !! source))) by (rewrite Hs; eauto).
  rewrite (bool_decide_eq_true_2 (is_Some (branches rf0 !! target))) by (rewrite Ht; eauto).
  cbn [negb]. rewrite (head_of_lookup _ _ _ Hs), (head_of_lookup _ _ _ Ht).
  cbn [head_truthy].
  apply String.eqb_neq in Hne. rewrite Hne. cbn [negb].
  rewrite bool_decide_eq_false_2 by congruence.
  apply String.eqb_neq in Hne. rewrite (merge_parents_cases target_head s Hne).
  set (parents := match target_head with
                  | Some t => if String.eqb t EmptyString then [s] else [t; s]
                  | None => [s]
                  end).
  set (message := Py.or_str _ _). set (meta := arg_meta a ∪ _).
  pose proof (create_commit_parents sha256_hex st0 r target parents message meta
                DEFAULT_TRACKED_FILES) as (payload & Hfile & Hparents & _ & _ & _).
  destruct (create_commit sha256_hex st0 r target parents message meta DEFAULT_TRACKED_FILES)
    as [cid st1] eqn:Hcc.
  cbn [fst snd] in Hfile. cbn [exit_code final].
  split; [done|].
  unfold head_commit_parents.
  destruct (record_event_refs sha256_hex
              (write_refs st1
                 (with_active (with_branches rf0 (<[target:=Some cid]> (branches rf0))) target) r)
              a r true
              ("context merge " +:+ source +:+ " -> " +:+ target +:+ " (" +:+ cid +:+ ")")
              [("source", JStr source); ("target", JStr target);
               ("source_head", head_json (Some s));
               ("target_prev_head", head_json target_head);
               ("merge_commit", JStr cid);
               ("commit_path", JStr (commit_path a cid))])
    as (-> & -> & _).
  cbn. split; [done|].
  rewrite lookup_insert_eq. cbn. rewrite Hfile. cbn. exact Hparents.
Qed.


Lemma merge_commit_parents_witness :
  exit_code (main sample_digest (ops_store two_heads)
               (ops_args Merge EmptyString EmptyString " dev" EmptyString) ops_readings) = 0
  /\ (active_branch <$> refs_file
        (final (main sample_digest (ops_store two_heads)
                  (ops_args Merge EmptyString EmptyString " dev" EmptyString)
                  ops_readings))) = Some "main"
  /\ head_commit_parents
       (final (main sample_digest (ops_store two_heads)
                 (ops_args Merge EmptyString EmptyString " dev" EmptyString)
                 ops_readings)) "main"
     = Some (JArr [JStr "ctx-1"; JStr "ctx-2"]).
Proof.
  apply (merge_commit_parents sample_digest (ops_store two_heads)
           (ops_args Merge EmptyString EmptyString " dev" EmptyString) ops_readings
           "ctx-2" (Some "ctx-1")).
  - reflexivity.
  - discriminate.
  - vm_compute. reflexivity.
  - discriminate.
  - vm_compute. reflexivity.
  - discriminate.
Defined.


(** C5, as stated, fails: merging [main], whose head is ["ctx-1"], into
    [b1], which has no head, creates a commit with the single parent
    ["ctx-1"]. *)
Lemma merge_into_headless_target :
  headless_target !! "main" = Some (Some "ctx-1")
  /\ headless_target !! "b1" = Some None
  /\ exit_code (main sample_digest (ops_store headless_target)
                  (ops_args Merge EmptyString EmptyString "main" "b1") ops_readings) = 0
  /\ head_commit_parents
       (final (main sample_digest (ops_store headless_target)
                 (ops_args Merge EmptyString EmptyString "main" "b1") ops_readings)) "b1"
     = Some (JArr [JStr "ctx-1"]).
Proof. vm_compute. done. Qed.

Lemma read_refs_present st r rf0 :
  refs_file st = Some rf0 -> (read_refs st r).2 = st.
Proof. unfold read_refs. by intros ->. Qed.

Lemma read_refs_missing st r name h :
  refs_file st = None -> branches (read_refs st r).1 !! name = Some (Some h) -> False.
Proof.
  intros Hrf. assert ((read_refs st r).1 = default_refs r) as ->.
  { unfold read_refs. by rewrite Hrf. }
  unfold default_refs. cbn [branches].
  destruct (decide (name = "main")) as [->|Hne].
  - by rewrite lookup_singleton_eq.
  - by rewrite lookup_singleton_ne.
Qed.

(** C6, amended.  A merge of a known source branch that has a head into a
    target branch with the same head (the branch itself or another) exits
    with status 0, prints a payload with [status: ok], and leaves the store
    as it was: no commit file, no change to [refs.json], no ledger event. *)
Theorem merge_equal_heads_noop (sha256_hex : string -> string)
  (st : store) (a : args) (r : readings) (s : string) :
  let rf := (read_refs st r).1 in
  let source := Py.strip (arg_source a) in
  let target := Py.or_str (Py.strip (arg_target a)) (active_branch rf) in
  let res := main sha256_hex st a r in
  arg_action a = Merge ->
  source <> EmptyString ->
  branches rf !! source = Some (Some s) ->
  s <> EmptyString ->
  branches rf !! target = Some (Some s) ->
  exit_code res = 0
  /\ (exists payload, output res = Emit payload /\ ("status", JStr "ok") ∈ payload)
  /\ final res = st.
Proof.
  intros rf source target res Hact Hsrc Hs Hne Ht.
  assert ((read_refs st r).2 = st) as Hst.
  { destruct (refs_file st) as [rf0|] eqn:Hrf; [by eapply read_refs_present|].
    by destruct (read_refs_missing st r source s Hrf Hs). }
  subst res. unfold main. destruct (read_refs st r) as [rf0 st0] eqn:Hread.
  cbn [fst snd] in *. subst rf st0. rewrite Hact. unfold do_merge.
  fold source. fold target.
  apply String.eqb_neq in Hsrc. rewrite Hsrc.
  rewrite (bool_decide_eq_true_2 (is_Some (branches rf0 !! source))) by (rewrite Hs; eauto).
  rewrite (bool_decide_eq_true_2 (is_Some (branches rf0 !! target))) by (rewrite Ht; eauto).
  cbn [negb]. rewrite (head_of_lookup _ _ _ Hs), (head_of_lookup _ _ _ Ht).
  cbn [head_truthy]. apply String.eqb_neq in Hne. rewrite Hne. cbn [negb].
  rewrite bool_decide_eq_true_2 by done. cbn.
  split; [done|]. split; [|done]. eexists. split; [done|]. set_solver.
Qed.

Lemma merge_equal_heads_noop_witness :
  exit_code (main sample_digest (ops_store two_heads)
               (ops_args Merge EmptyString EmptyString "dev" "dev ") ops_readings) = 0
  /\ (exists payload,
        output (main sample_digest (ops_store two_heads)
                  (ops_args Merge EmptyString EmptyString "dev" "dev ") ops_readings)
        = Emit payload /\ ("status", JStr "ok") ∈ payload)
  /\ final (main sample_digest (ops_store two_heads)
              (ops_args Merge EmptyString EmptyString "dev" "dev ") ops_readings)
     = ops_store two_heads.
Proof.
  apply (merge_equal_heads_noop sample_digest (ops_store two_heads)
           (ops_args Merge EmptyString EmptyString "dev" "dev ") ops_readings "ctx-2").
  - reflexivity.
  - discriminate.
  - vm_compute. reflexivity.
  - discriminate.
  - vm_compute. reflexivity.
Defined.


(** C6, as stated, fails: [main] merged into itself while it has no head
    has equal heads on both sides, and the run ends with status 2 and an
    error line. *)
Lemma merge_headless_into_itself :
  head_of headless "main" = None
  /\ exit_code (main sample_digest (ops_store headless)
                  (ops_args Merge EmptyString EmptyString "main" "main") ops_readings) = 2
  /\ output (main sample_digest (ops_store headless)
               (ops_args Merge EmptyString EmptyString "main" "main") ops_readings)
     = Error "error: source branch has no head commit: main".
Proof. vm_compute. done. Qed.

(** C10, amended.  A [branch] run whose name, once trimmed, is not empty and
    not in use, and whose [--from], once trimmed, is not empty and names no
    branch, exits with status 0 and adds the branch with the trimmed
    [--from] text as its head.  Nothing is asked of the commit store, which
    stays as it was. *)
Theorem branch_from_literal (sha256_hex : string -> string)
  (st : store) (a : args) (r : readings) :
  let rf := (read_refs st r).1 in
  let name := Py.strip (arg_name a) in
  let start := Py.strip (arg_from_ref a) in
  let res := main sha256_hex st a r in
  arg_action a = Branch ->
  name <> EmptyString ->
  branches rf !! name = None ->
  start <> EmptyString ->
  branches rf !! start = None ->
  exit_code res = 0
  /\ (branches <$> refs_file (final res)) = Some (<[name := Some start]> (branches rf))
  /\ commit_files (final res) = commit_files st.
Proof.
  intros rf name start res Hact Hname Hfree Hstart Hlit.
  assert (commit_files (read_refs st r).2 = commit_files st) as Hcf.
  { unfold read_refs. by destruct (refs_file st). }
  subst res. unfold main. destruct (read_refs st r) as [rf0 st0] eqn:Hread.
  cbn [fst snd] in *. subst rf. rewrite Hact. unfold do_branch. fold name.
  apply String.eqb_neq in Hname. rewrite Hname.
  destruct (decide (is_Some (branches rf0 !! name))) as [[h Hh]|_]; [congruence|].
  assert (resolve_from_ref rf0 (arg_from_ref a) = Some start) as ->.
  { unfold resolve_from_ref. fold start.
    apply String.eqb_neq in Hstart. by rewrite Hstart, Hlit. }
  cbn [exit_code final]. split; [done|].
  destruct (record_event_refs sha256_hex
              (write_refs st0 (with_branches rf0 (<[name:=Some start]> (branches rf0))) r)
              a r true ("context branch created " +:+ name)
              [("branch", JStr name);
               ("from", JStr (Py.or_str (Py.strip (arg_from_ref a)) (active_branch rf0)));
               ("head", head_json (Some start))])
    as (-> & -> & _).
  by cbn.
Qed.

Lemma branch_from_literal_witness :
  exit_code (main sample_digest (ops_store headless)
               (ops_args Branch "b1" "ctx-404" EmptyString EmptyString) ops_readings) = 0
  /\ (branches <$> refs_file
        (final (main sample_digest (ops_store headless)
                  (ops_args Branch "b1" "ctx-404" EmptyString EmptyString) ops_readings)))
     = Some (<["b1" := Some "ctx-404"]> headless)
  /\ commit_files
       (final (main sample_digest (ops_store headless)
                 (ops_args Branch "b1" "ctx-404" EmptyString EmptyString) ops_readings))
     = ∅.
Proof.
  apply (branch_from_literal sample_digest (ops_store headless)
           (ops_args Branch "b1" "ctx-404" EmptyString EmptyString) ops_readings).
  - reflexivity.
  - discriminate.
  - vm_compute. reflexivity.
  - discriminate.
  - vm_compute. reflexivity.
Defined.

(** C10, as stated, fails: [--from] with a leading blank is a non-empty
    text that names no branch, and the new head is the trimmed text, not the
    text as given. *)
Lemma branch_from_is_trimmed :
  headless !! "b1" = None
  /\ headless !! " ctx-9" = None
  /\ exit_code (main sample_digest (ops_store headless)
                  (ops_args Branch "b1" " ctx-9" EmptyString EmptyString) ops_readings) = 0
  /\ (refs_file
        (final (main sample_digest (ops_store headless)
                  (ops_args Branch "b1" " ctx-9" EmptyString EmptyString) ops_readings))
      ≫= fun rf => branches rf !! "b1") = Some (Some "ctx-9")
  /\ String.eqb "ctx-9" " ctx-9" = false.
Proof. vm_compute. done. Qed.

End ContextOpsFacts.

(** ** Strings and decimal numerals *)

Module PyFacts.

Lemma length_append (s1 s2 : string) :
  String.length (s1 +:+ s2) = (String.length s1 + String.length s2)%nat.
Proof. induction s1 as [|c s1 IH]; simpl; [done|]. by rewrite IH. Qed.

Lemma len_append (s1 s2 : string) : Py.len (s1 +:+ s2) = Py.len s1 + Py.len s2.
Proof. unfold Py.len. rewrite length_append. lia. Qed.

Lemma len_nonneg (s : string) : 0 <= Py.len s.
Proof. unfold Py.len. lia. Qed.

Lemma approx_tokens_pos (text : string) : 1 <= Py.approx_tokens text.
Proof. unfold Py.approx_tokens. lia. Qed.

Lemma log2_div10 (n : Z) : 10 <= n -> Z.log2 (n / 10) < Z.log2 n.
Proof.
  intros Hn. assert (0 < n / 10) as Hpos by (apply Z.div_str_pos; lia).
  assert (2 * (n / 10) <= n) as Hle by (pose proof (Z.mul_div_le n 10); lia).
  pose proof (Z.log2_double (n / 10) Hpos) as Hd.
  pose proof (Z.log2_le_mono _ _ Hle). lia.
Qed.

(** More fuel than the binary logarithm is enough: the digits no longer
    depend on it. *)
Lemma dec_digits_fuel (f1 f2 : nat) (n : Z) :
  0 <= n -> Z.log2 n < Z.of_nat f1 -> Z.log2 n < Z.of_nat f2 ->
  Py.dec_digits f1 n = Py.dec_digits f2 n.
Proof.
  revert f2 n. induction f1 as [|f1 IH]; intros f2 n Hn H1 H2.
  - pose proof (Z.log2_nonneg n). lia.
  - destruct f2 as [|f2]; [pose proof (Z.log2_nonneg n); lia|].
    simpl. destruct (Z.ltb_spec n 10) as [Hlt|Hge]; [done|].
    pose proof (log2_div10 n Hge).
    rewrite (IH f2 (n / 10)); [done | apply Z.div_pos; lia | lia | lia].
Qed.

(** The number of characters of [str(n)] for [n >= 0]. *)
Definition width (n : Z) : Z := Py.len (Py.str_nat n).

Lemma width_unfold (n : Z) :
  0 <= n -> width n = if n <? 10 then 1 else width (n / 10) + 1.
Proof.
  intros Hn. unfold width, Py.str_nat. simpl.
  destruct (Z.ltb_spec n 10) as [Hlt|Hge]; [done|].
  rewrite len_append.
  rewrite (dec_digits_fuel (Z.to_nat (Z.log2 n)) (S (Z.to_nat (Z.log2 (n / 10)))) (n / 10)).
  - done.
  - apply Z.div_pos; lia.
  - pose proof (log2_div10 n Hge). pose proof (Z.log2_nonneg (n / 10)). lia.
  - pose proof (Z.log2_nonneg (n / 10)). lia.
Qed.

Lemma width_bounds (k : nat) (a b : Z) :
  0 <= a -> a <= b -> b < Z.of_nat k ->
  width a <= width b /\ width b <= width a + (b - a).
Proof.
  revert a b. induction k as [|k IH]; intros a b Ha Hab Hb; [lia|].
  rewrite (width_unfold a), (width_unfold b) by lia.
  destruct (Z.ltb_spec a 10) as [Ha10|Ha10]; destruct (Z.ltb_spec b 10) as [Hb10|Hb10];
    try lia.
  - assert (1 <= b / 10) as H1 by (apply Z.div_le_lower_bound; lia).
    assert (b / 10 < Z.of_nat k) as H2
      by (apply Z.div_lt_upper_bound; lia).
    destruct (IH 1 (b / 10)) as [Hlo Hhi]; [lia | lia | lia |].
    rewrite (width_unfold 1) in Hlo, Hhi by lia. simpl in Hlo, Hhi.
    assert (b / 10 <= b - 9) by (apply Z.div_le_upper_bound; lia). lia.
  - assert (a / 10 <= b / 10) as H1 by (apply Z.div_le_mono; lia).
    assert (b / 10 < Z.of_nat k) as H2
      by (apply Z.div_lt_upper_bound; lia).
    destruct (IH (a / 10) (b / 10)) as [Hlo Hhi]; [apply Z.div_pos; lia | lia | lia |].
    assert (b / 10 - a / 10 <= b - a).
    { pose proof (Z.mul_div_le b 10). pose proof (Z.mul_succ_div_gt a 10). lia. }
    lia.
Qed.

(** A larger budget is written with at least as many digits, and with no
    more extra digits than the budgets differ by. *)
Lemma str_int_len_growth (a b : Z) :
  0 <= a -> a <= b ->
  Py.len (Py.str_int a) <= Py.len (Py.str_int b)
  /\ Py.len (Py.str_int b) <= Py.len (Py.str_int a) + (b - a).
Proof.
  intros Ha Hab. unfold Py.str_int.
  destruct (Z.ltb_spec a 0) as [?|_]; [lia|]. destruct (Z.ltb_spec b 0) as [?|_]; [lia|].
  apply (width_bounds (Z.to_nat (b + 1)) a b); lia.
Qed.

Lemma approx_tokens_growth (x y : Z) :
  0 <= x -> x <= y ->
  Z.max 1 ((x + 3) / 4) <= Z.max 1 ((y + 3) / 4)
  /\ Z.max 1 ((y + 3) / 4) <= Z.max 1 ((x + 3) / 4) + (y - x).
Proof.
  intros Hx Hxy.
  pose proof (Z.div_le_mono (x + 3) (y + 3) 4).
  pose proof (Z.mul_div_le (y + 3) 4). pose proof (Z.mul_succ_div_gt (x + 3) 4).
  lia.
Qed.

End PyFacts.

(** ** Ranking of events *)

Module RankFacts.

Import Rehydrate.
Import Sample.

Lemma strongly_sorted_lookup {A : Type} (R : A -> A -> Prop) (l : list A)
  (i j : nat) (a b : A) :
  StronglySorted R l -> (i < j)%nat -> l !! i = Some a -> l !! j = Some b -> R a b.
Proof.
  intros Hsorted. revert i j. induction Hsorted as [|x l Hsorted IH Hall]; intros i j Hij.
  - by rewrite lookup_nil.
  - destruct j as [|j]; [lia|]. destruct i as [|i]; simpl.
    + intros [= <-] Hb. rewrite Forall_forall in Hall. apply Hall.
      by eapply list_elem_of_lookup_2.
    + apply IH. lia.
Qed.

Section Sorting.

Context {A : Type} (lt : A -> A -> bool).

Hypothesis lt_asym : forall x y, lt x y = true -> lt y x = false.

Hypothesis lt_trans : forall x y z, lt x y = true -> lt y z = true -> lt x z = true.

(** [x] stands before [y] in a descending list when [x] is not below [y]. *)
Definition not_below (x y : A) : Prop := lt x y = false.

Lemma insert_desc_perm (x : A) (l : list A) : insert_desc lt x l ≡ₚ x :: l.
Proof.
  induction l as [|y l IH]; simpl; [done|].
  destruct (lt y x); [done|]. rewrite IH. apply Permutation_swap.
Qed.

Lemma insert_desc_sorted (x : A) (l : list A) :
  StronglySorted not_below l -> StronglySorted not_below (insert_desc lt x l).
Proof.
  induction 1 as [|y l Hsorted IH Hall]; simpl.
  - repeat constructor.
  - destruct (lt y x) eqn:Hyx.
    + constructor; [by constructor|]. constructor.
      * by apply lt_asym.
      * eapply Forall_impl; [exact Hall|]. intros z Hyz. unfold not_below in *.
        destruct (lt x z) eqn:Hxz; [|done]. by rewrite (lt_trans y x z Hyx Hxz) in Hyz.
    + constructor; [exact IH|]. rewrite insert_desc_perm. by constructor.
Qed.

Lemma sort_desc_from (acc l : list A) :
  StronglySorted not_below acc ->
  StronglySorted not_below (foldl (fun acc x => insert_desc lt x acc) acc l)
  /\ foldl (fun acc x => insert_desc lt x acc) acc l ≡ₚ acc ++ l.
Proof.
  revert acc. induction l as [|x l IH]; intros acc Hacc; simpl.
  - by rewrite app_nil_r.
  - destruct (IH (insert_desc lt x acc)) as [Hs Hp]; [by apply insert_desc_sorted|].
    split; [done|]. rewrite Hp, insert_desc_perm. simpl. apply Permutation_middle.
Qed.

Lemma sort_desc_sorted (l : list A) : StronglySorted not_below (sort_desc lt l).
Proof. apply sort_desc_from. constructor. Qed.

Lemma sort_desc_perm (l : list A) : sort_desc lt l ≡ₚ l.
Proof. apply (sort_desc_from [] l). constructor. Qed.

End Sorting.

Lemma row_lt_asym (x y : row) : row_lt x y = true -> row_lt y x = false.
Proof. unfold row_lt. lia. Qed.

Lemma row_lt_trans (x y z : row) :
  row_lt x y = true -> row_lt y z = true -> row_lt x z = true.
Proof. unfold row_lt. lia. Qed.

(** What the scoring loop yields: the row at position [k] is the event [k]
    places from the newest, scored with recency rank [idx + k]. *)
Lemma score_from_rows idx newest_first terms task_focus rows :
  score_from idx newest_first terms task_focus = Some rows ->
  length rows = length newest_first
  /\ forall (k : nat) rw, rows !! k = Some rw ->
       newest_first !! k = Some (row_event rw)
       /\ row_neg_idx rw = - (idx + Z.of_nat k)
       /\ event_score (row_event rw) (idx + Z.of_nat k) terms task_focus
          = Some (row_score rw, row_trace rw).
Proof.
  revert idx rows. induction newest_first as [|event rest IH]; intros idx rows; simpl.
  - intros [= <-]. split; [done|]. intros k rw Hk. by rewrite lookup_nil in Hk.
  - destruct (event_score event idx terms task_focus) as [[score trace]|] eqn:Hscore; [|done].
    destruct (score_from (idx + 1) rest terms task_focus) as [rows'|] eqn:Hrest; [|done].
    intros [= <-]. destruct (IH _ _ Hrest) as [Hlen Hrows]. split; [simpl; by rewrite Hlen|].
    intros [|k] rw; simpl.
    + intros [= <-]. simpl. rewrite Z.add_0_r. done.
    + intros Hk. destruct (Hrows k rw Hk) as (He & Hi & Hs).
      replace (idx + Z.of_nat (S k)) with (idx + 1 + Z.of_nat k) by lia. done.
Qed.

Lemma score_from_NoDup idx newest_first terms task_focus rows :
  score_from idx newest_first terms task_focus = Some rows ->
  NoDup (map row_neg_idx rows).
Proof.
  intros Hrows. destruct (score_from_rows _ _ _ _ _ Hrows) as [_ Hk].
  apply NoDup_alt. intros i j x Hi Hj.
  change (map row_neg_idx rows) with (row_neg_idx <$> rows) in Hi, Hj.
  rewrite list_lookup_fmap in Hi, Hj.
  destruct (rows !! i) as [ri|] eqn:Hri; [|done].
  destruct (rows !! j) as [rj|] eqn:Hrj; [|done].
  destruct (Hk i ri Hri) as (_ & Hni & _). destruct (Hk j rj Hrj) as (_ & Hnj & _).
  simpl in Hi, Hj. injection Hi as Hi. injection Hj as Hj. lia.
Qed.

(** C7, amended.  The rows of [scored] are the events, each once, with the
    score it gets at its recency rank; they stand in descending order of
    score, and among equal scores the more recent event stands first.  The
    ranked-events block renders the first [max_events] of them in that same
    order, the order of rank, not of time. *)
Theorem ranked_events_order (events : list (gmap string jvalue)) (terms : list string)
  (task_focus : string) (max_events : Z) (scored : list row) (rendered : list string) :
  ranked events terms task_focus = Some scored ->
  rendered_events scored max_events = Some rendered ->
  (exists rows, scored ≡ₚ rows
     /\ length rows = length events
     /\ forall (k : nat) rw, rows !! k = Some rw ->
          reverse events !! k = Some (row_event rw)
          /\ row_neg_idx rw = - Z.of_nat k
          /\ event_score (row_event rw) (Z.of_nat k) terms task_focus
             = Some (row_score rw, row_trace rw))
  /\ (forall (i j : nat) a b, (i < j)%nat -> scored !! i = Some a -> scored !! j = Some b ->
        row_score b < row_score a
        \/ (row_score b = row_score a /\ row_neg_idx b < row_neg_idx a))
  /\ length rendered = length (Py.slice_to max_events scored)
  /\ (forall (i : nat) line, rendered !! i = Some line ->
        exists rw, Py.slice_to max_events scored !! i = Some rw
                   /\ render_event_line (row_event rw) = Some line).
Proof.
  unfold ranked, rendered_events, selected_events. intros Hranked Hrendered.
  destruct (score_from 0 (reverse events) terms task_focus) as [rows|] eqn:Hrows; [|done].
  injection Hranked as <-.
  pose proof (sort_desc_perm row_lt row_lt_asym row_lt_trans rows) as Hperm.
  pose proof (sort_desc_sorted row_lt row_lt_asym row_lt_trans rows) as Hsorted.
  destruct (score_from_rows _ _ _ _ _ Hrows) as [Hlen Hk].
  split; [|split; [|split]].
  - exists rows. split; [done|]. split; [by rewrite Hlen, length_reverse|].
    intros k rw Hrw. destruct (Hk k rw Hrw) as (He & Hi & Hs).
    by rewrite Z.add_0_l in Hi, Hs.
  - intros i j a b Hij Hi Hj.
    assert (not_below row_lt a b) as Hab.
    { by apply (strongly_sorted_lookup _ (sort_desc row_lt rows) i j). }
    assert (row_neg_idx a <> row_neg_idx b) as Hne.
    { pose proof (score_from_NoDup _ _ _ _ _ Hrows) as Hnd.
      change (map row_neg_idx rows) with (row_neg_idx <$> rows) in Hnd.
      rewrite <- Hperm in Hnd. intros Heq.
      assert (i = j); [|lia].
      apply (NoDup_lookup _ i j (row_neg_idx a) Hnd);
        rewrite list_lookup_fmap; [by rewrite Hi | by rewrite Hj, Heq]. }
    unfold not_below, row_lt in Hab. lia.
  - apply length_mapM in Hrendered. by rewrite length_map in Hrendered.
  - intros i line Hline.
    rewrite mapM_Some in Hrendered.
    destruct (Forall2_lookup_r _ _ _ _ _ Hrendered Hline) as (ev & Hev & Hrender).
    change (map row_event (Py.slice_to max_events (sort_desc row_lt rows)))
      with (row_event <$> Py.slice_to max_events (sort_desc row_lt rows)) in Hev.
    rewrite list_lookup_fmap in Hev.
    destruct (Py.slice_to max_events (sort_desc row_lt rows) !! i) as [rw|]; [|done].
    injection Hev as <-. by exists rw.
Qed.


Lemma ranked_events_order_witness :
  (exists rows, Rehydrate.sort_desc row_lt
                  (default [] (score_from 0 (reverse two_events) [] EmptyString)) ≡ₚ rows
     /\ length rows = length two_events
     /\ forall (k : nat) rw, rows !! k = Some rw ->
          reverse two_events !! k = Some (row_event rw)
          /\ row_neg_idx rw = - Z.of_nat k
          /\ event_score (row_event rw) (Z.of_nat k) [] EmptyString
             = Some (row_score rw, row_trace rw))
  /\ (forall (i j : nat) a b, (i < j)%nat ->
        Rehydrate.sort_desc row_lt
          (default [] (score_from 0 (reverse two_events) [] EmptyString)) !! i = Some a ->
        Rehydrate.sort_desc row_lt
          (default [] (score_from 0 (reverse two_events) [] EmptyString)) !! j = Some b ->
        row_score b < row_score a
        \/ (row_score b = row_score a /\ row_neg_idx b < row_neg_idx a))
  /\ length [ "- E1 [2026-01-01T00:00:00Z] test/failure: suite broke" ]
     = length (Py.slice_to 1 (Rehydrate.sort_desc row_lt
                 (default [] (score_from 0 (reverse two_events) [] EmptyString))))
  /\ (forall (i : nat) line,
        [ "- E1 [2026-01-01T00:00:00Z] test/failure: suite broke" ] !! i = Some line ->
        exists rw, Py.slice_to 1 (Rehydrate.sort_desc row_lt
                     (default [] (score_from 0 (reverse two_events) [] EmptyString))) !! i
                   = Some rw
                   /\ render_event_line (row_event rw) = Some line).
Proof.
  apply (ranked_events_order two_events [] EmptyString 1).
  - vm_compute. reflexivity.
  - vm_compute. reflexivity.
Defined.

(** C7, as stated, fails: of the two events the older one has the higher
    score, so the block shows it first and the most recent event last. *)
Lemma rendered_in_rank_order :
  (ranked two_events [] EmptyString ≫= fun scored => rendered_events scored 2)
  = Some [ "- E1 [2026-01-01T00:00:00Z] test/failure: suite broke";
           "- E2 [2026-01-02T00:00:00Z] note/info: wrote notes" ]
  /\ (map (fun rw => (row_score rw, row_neg_idx rw)) <$> ranked two_events [] EmptyString)
     = Some [ (56, -1); (28, 0) ].
Proof. vm_compute. done. Qed.

End RankFacts.

(** ** Packing under the budget *)

Module PackFacts.

Import Rehydrate.
Import Sample.


Lemma sum_tokens_app (l1 l2 : list string) :
  sum_tokens (l1 ++ l2) = sum_tokens l1 + sum_tokens l2.
Proof.
  induction l1 as [|x l1 IH]; cbn [sum_tokens foldr app]; [done|].
  fold (sum_tokens (l1 ++ l2)). fold (sum_tokens l1). rewrite IH. lia.
Qed.

(** The loop only appends blocks, and adds the cost of each block it
    appends to the running total. *)
Lemma pack_step_blocks (budget : Z) (p : packing) (c : string * string * Z) :
  exists added, selected_blocks (pack_step budget p c) = selected_blocks p ++ added
                /\ used_tokens (pack_step budget p c) = used_tokens p + sum_tokens added.
Proof.
  destruct c as [[title body] priority]. unfold pack_step.
  destruct (String.eqb (Py.strip body) EmptyString).
  - exists []. rewrite app_nil_r. cbn [sum_tokens foldr]. split; [done|lia].
  - destruct (used_tokens p + Py.approx_tokens (block_text title body) <=? budget).
    + exists [block_text title body].
      cbn [sum_tokens foldr selected_blocks used_tokens]. split; [done|lia].
    + exists []. rewrite app_nil_r.
      cbn [sum_tokens foldr selected_blocks used_tokens]. split; [done|lia].
Qed.

Lemma pack_steps_blocks (budget : Z) (cands : list (string * string * Z)) (p : packing) :
  exists added,
    selected_blocks (foldl (pack_step budget) p cands) = selected_blocks p ++ added
    /\ used_tokens (foldl (pack_step budget) p cands) = used_tokens p + sum_tokens added.
Proof.
  revert p. induction cands as [|c cands IH]; intros p; cbn [foldl].
  - exists []. rewrite app_nil_r. cbn [sum_tokens foldr]. split; [done|lia].
  - destruct (pack_step_blocks budget p c) as (a1 & Hb1 & Hu1).
    destruct (IH (pack_step budget p c)) as (a2 & Hb2 & Hu2).
    exists (a1 ++ a2). rewrite Hb2, Hu2, Hb1, Hu1, sum_tokens_app, <- app_assoc.
    split; [done|lia].
Qed.

(** C8, amended.  The document starts with the header and ends with the
    footer, whatever the budget.  The running total starts at the header's
    cost and grows by the cost of each block placed between them; the
    footer, which reports that total, is not counted in it. *)
Theorem header_footer_accounting (s : setting) (rq : request) (n : notes)
  (events : list (gmap string jvalue)) (c : compiled) :
  compile s rq n events = Some c ->
  exists blocks,
    output_blocks c = header s rq :: blocks ++ [footer s (plan c)]
    /\ used_tokens (plan c) = Py.approx_tokens (header s rq) + sum_tokens blocks
    /\ used_tokens (plan c) + Py.approx_tokens (footer s (plan c))
       = sum_tokens (output_blocks c).
Proof.
  unfold compile.
  destruct (ranked events (query_terms rq n) (Py.strip (task rq))) as [scored|]; [|done].
  destruct (rendered_events scored (max_events rq)) as [rendered|]; [|done].
  intros [= <-]. cbn [output_blocks plan]. unfold pack.
  destruct (pack_steps_blocks (budget_tokens rq)
              (sort_desc candidate_lt (block_candidates n rendered))
              {| selected_blocks := [header s rq];
                 used_tokens := Py.approx_tokens (header s rq);
                 omitted_titles := []; planner_trace := [] |})
    as (blocks & Hb & Hu).
  exists blocks. rewrite Hb, Hu. cbn [selected_blocks used_tokens].
  split; [done|]. split; [done|].
  rewrite !sum_tokens_app. cbn [sum_tokens foldr]. lia.
Qed.

Section TwoBudgets.

Variables b b' h h' : Z.

Hypothesis header_cost_grows : h <= h'.

Hypothesis room_grows : b - h <= b' - h'.

(** Two runs of the loop over the same candidates, one with budget [b] after
    a header of cost [h], one with [b'] after [h']: either they have made the
    same choices so far, or the second has already used more than the
    first one's room. *)
Definition related (p p' : packing) : Prop :=
  (used_tokens p - h = used_tokens p' - h' /\ included_titles p = included_titles p')
  \/ (b - h < used_tokens p' - h' /\ used_tokens p - h <= used_tokens p' - h').

Lemma pack_step_related (p p' : packing) (c : string * string * Z) :
  related p p' -> related (pack_step b p c) (pack_step b' p' c).
Proof.
  destruct c as [[title body] priority]. unfold pack_step.
  destruct (String.eqb (Py.strip body) EmptyString); [done|].
  pose proof (PyFacts.approx_tokens_pos (block_text title body)) as Hpos.
  unfold related, included_titles.
  destruct (Z.leb_spec (used_tokens p + Py.approx_tokens (block_text title body)) b);
    destruct (Z.leb_spec (used_tokens p' + Py.approx_tokens (block_text title body)) b');
    cbn [used_tokens planner_trace]; rewrite !List.filter_app, !map_app;
    cbn [List.filter map pl_included pl_title];
    rewrite ?app_nil_r; intros [[Hu Ht]|[Hc Hle]];
    try (right; lia); try lia; left; (split; [lia | by rewrite ?Ht]).
Qed.

Lemma pack_steps_related (cands : list (string * string * Z)) (p p' : packing) :
  related p p' -> related (foldl (pack_step b) p cands) (foldl (pack_step b') p' cands).
Proof.
  revert p p'. induction cands as [|c cands IH]; intros p p' Hrel; [done|].
  cbn [foldl]. by apply IH, pack_step_related.
Qed.

End TwoBudgets.

Lemma header_len_shift (s : setting) (rq : request) (b1 b2 : Z) :
  Py.len (header s (with_budget rq b1)) - Py.len (Py.str_int b1)
  = Py.len (header s (with_budget rq b2)) - Py.len (Py.str_int b2).
Proof.
  unfold header. cbn [budget_tokens query task with_budget].
  rewrite !PyFacts.len_append. lia.
Qed.

Lemma header_cost_growth (s : setting) (rq : request) (b b' : Z) :
  0 <= b -> b <= b' ->
  Py.approx_tokens (header s (with_budget rq b))
  <= Py.approx_tokens (header s (with_budget rq b'))
  /\ b - Py.approx_tokens (header s (with_budget rq b))
     <= b' - Py.approx_tokens (header s (with_budget rq b')).
Proof.
  intros Hb Hbb'. unfold Py.approx_tokens.
  pose proof (header_len_shift s rq b b') as Hshift.
  destruct (PyFacts.str_int_len_growth b b' Hb Hbb') as [Hlo Hhi].
  pose proof (PyFacts.len_nonneg (header s (with_budget rq b))) as Hnn.
  destruct (PyFacts.approx_tokens_growth (Py.len (header s (with_budget rq b)))
              (Py.len (header s (with_budget rq b')))) as [H1 H2]; lia.
Qed.

(** C4, amended.  With every other input fixed and budgets [0 <= b <= b'],
    the run with [b'] uses at least as many tokens as the run with [b].
    The blocks it includes are the same as with [b], or else it uses more
    tokens than [b]: the loop skips a block that does not fit and goes on,
    so a block included with [b] can be left out with [b']. *)
Theorem budget_growth (s : setting) (rq : request) (n : notes)
  (events : list (gmap string jvalue)) (b b' : Z) (c c' : compiled) :
  0 <= b -> b <= b' ->
  compile s (with_budget rq b) n events = Some c ->
  compile s (with_budget rq b') n events = Some c' ->
  used_tokens (plan c) <= used_tokens (plan c')
  /\ (included_titles (plan c) = included_titles (plan c')
      \/ b < used_tokens (plan c')).
Proof.
  intros Hb Hbb'. unfold compile. cbn [budget_tokens query task max_events with_budget].
  change (query_terms (with_budget rq b) n) with (query_terms rq n).
  change (query_terms (with_budget rq b') n) with (query_terms rq n).
  destruct (ranked events (query_terms rq n) (Py.strip (task rq))) as [scored|]; [|done].
  destruct (rendered_events scored (max_events rq)) as [rendered|]; [|done].
  intros [= <-] [= <-]. cbn [plan]. unfold pack.
  destruct (header_cost_growth s rq b b' Hb Hbb') as [Hh Hroom].
  set (h := Py.approx_tokens (header s (with_budget rq b))) in *.
  set (h' := Py.approx_tokens (header s (with_budget rq b'))) in *.
  destruct (pack_steps_related b b' h h' Hroom
              (sort_desc candidate_lt (block_candidates n rendered))
              {| selected_blocks := [header s (with_budget rq b)]; used_tokens := h;
                 omitted_titles := []; planner_trace := [] |}
              {| selected_blocks := [header s (with_budget rq b')]; used_tokens := h';
                 omitted_titles := []; planner_trace := [] |})
    as [[Hu Ht]|[Hc Hle]].
  - left. unfold included_titles. cbn [used_tokens planner_trace List.filter map].
    split; [lia|done].
  - split; [lia|]. by left.
  - split; [lia|]. right. lia.
Qed.


(** The header costs 56 tokens for a two-digit budget, the objective block
    13, the criteria block 10 and the capsule pointer 18. *)
Example sample_run_1800 :
  sample_run 1800 = Some (97, ["Active Objective"; "Acceptance Criteria"; "Capsule Pointer"]).
Proof. vm_compute. reflexivity. Qed.

(** C4, as stated, fails: with budget 66 the criteria block is included
    (the objective does not fit and is skipped); with budget 69 the
    objective fits, and the criteria block no longer does. *)
Lemma larger_budget_drops_block :
  sample_run 66 = Some (66, ["Acceptance Criteria"])
  /\ sample_run 69 = Some (69, ["Active Objective"]).
Proof. vm_compute. done. Qed.

(** Below zero the header, which shows the budget, can cost more for the
    smaller budget, and the header is all that is counted. *)
Example negative_budget_total :
  sample_run (-100000) = Some (57, []) /\ sample_run (-1) = Some (56, []).
Proof. vm_compute. done. Qed.


Lemma budget_growth_witness :
  used_tokens (plan (sample_compiled 66)) <= used_tokens (plan (sample_compiled 1800))
  /\ (included_titles (plan (sample_compiled 66))
      = included_titles (plan (sample_compiled 1800))
      \/ 66 < used_tokens (plan (sample_compiled 1800))).
Proof.
  apply (budget_growth sample_setting compile_request sample_notes [] 66 1800).
  - lia.
  - lia.
  - vm_compute. reflexivity.
  - vm_compute. reflexivity.
Defined.

Lemma header_footer_accounting_witness :
  exists blocks,
    output_blocks (sample_compiled 1800)
    = header sample_setting (with_budget compile_request 1800)
      :: blocks ++ [footer sample_setting (plan (sample_compiled 1800))]
    /\ used_tokens (plan (sample_compiled 1800))
       = Py.approx_tokens (header sample_setting (with_budget compile_request 1800))
         + sum_tokens blocks
    /\ used_tokens (plan (sample_compiled 1800))
       + Py.approx_tokens (footer sample_setting (plan (sample_compiled 1800)))
       = sum_tokens (output_blocks (sample_compiled 1800)).
Proof.
  apply (header_footer_accounting sample_setting (with_budget compile_request 1800)
           sample_notes []).
  vm_compute. reflexivity.
Defined.

(** C8, as stated, fails: the blocks of the sample document cost 56 (the
    header), 13, 10, 18 and 37 (the footer), and the running total, which
    the footer prints, ends at 97: it counts the header and the three blocks
    and never the footer. *)
Lemma footer_not_counted :
  (used_tokens ∘ plan <$> compile sample_setting compile_request sample_notes []) = Some 97
  /\ (map Py.approx_tokens ∘ output_blocks
        <$> compile sample_setting compile_request sample_notes [])
     = Some [56; 13; 10; 18; 37]
  /\ (Py.contains "- Approx tokens used: `97`" ∘ output
        <$> compile sample_setting compile_request sample_notes []) = Some true.
Proof. vm_compute. done. Qed.

End PackFacts.

(** ** Typed-memory summaries *)

Module TypedMemoryFacts.

Import TypedMemory.
Import Sample.

(** The clock reading enters the payload as [generated_at] and nowhere
    else. *)
Lemma extract_generated_at events max_items t1 t2 :
  extract events max_items t2
  = (<["generated_at" := JStr t2]>) <$> extract events max_items t1.
Proof.
  unfold extract. destruct (extract_loop empty_tally events) as [t|]; [|done].
  cbn [fmap option_fmap option_map]. f_equal.
Qed.

Lemma summarize_generated_at f rq t1 t2 :
  summarize f rq t2 = (<["generated_at" := JStr t2]>) <$> summarize f rq t1.
Proof.
  unfold summarize. rewrite (extract_generated_at _ _ t1 t2).
  destruct (extract (window f rq) (Z.max 1 (max_items rq)) t1) as [p|]; [|done].
  cbn [fmap option_fmap option_map]. f_equal.
  rewrite (insert_insert_ne _ "generated_at" "events_file") by done.
  rewrite (insert_insert_ne _ "generated_at" "memory_root") by done.
  by rewrite (insert_insert_ne _ "generated_at" "repo_root") by done.
Qed.

(** A run returns unless [_extract] raises or the run is to write
    [typed-memory.json] and the memory root is missing. *)
Lemma main_returns (sha256_hex : string -> string) (f : Ledger.file)
  (stored : option string) (root_dir : bool) (rq : request) (t : string)
  (r : Ledger.readings) :
  is_Some (main sha256_hex f stored root_dir rq t r)
  <-> is_Some (summarize f rq t)
      /\ (no_write rq = true \/ root_present f stored root_dir = true).
Proof.
  unfold main. destruct (summarize f rq t) as [p|].
  - destruct (no_write rq), (root_present f stored root_dir); cbn [negb andb].
    + split; [intros _; split; [by eexists | by left] | intros _; by eexists].
    + split; [intros _; split; [by eexists | by left] | intros _; by eexists].
    + split; [intros _; split; [by eexists | by right] | intros _; by eexists].
    + split; [by intros [? ?] | by intros [_ [?|?]]].
  - split; [by intros [? ?] | by intros [[? ?] _]].
Qed.

(** What a run that returns reports. *)
Lemma main_outcome (sha256_hex : string -> string) (f : Ledger.file)
  (stored : option string) (root_dir : bool) (rq : request) (t : string)
  (r : Ledger.readings) (o : outcome) :
  main sha256_hex f stored root_dir rq t r = Some o ->
  Some (new_json o) = serialize <$> summarize f rq t
  /\ changed o = negb (String.eqb (default EmptyString stored) (new_json o))
  /\ recorded o = match record_event rq with
                  | ContextOps.Always => true
                  | ContextOps.OnChange => changed o
                  | ContextOps.Off => false
                  end
  /\ (recorded o = false -> events_after o = f).
Proof.
  unfold main. destruct (summarize f rq t) as [p|]; [|done].
  destruct (negb (no_write rq) && negb (root_present f stored root_dir)); [done|].
  intros [= <-]. cbn [new_json changed recorded events_after fmap option_fmap option_map].
  repeat split. by intros ->.
Qed.

(** C9, amended.  Two runs over the same ledger and window compute the same
    summary except for [generated_at], which holds the clock reading of each
    run; the serialized summaries are the same text when the readings are.
    A run that returns serializes that summary; it reports [changed] only
    if the text differs from the stored one (empty while the file is
    missing); under [on-change] it records a ledger event when it reports
    [changed] and not otherwise; and a run that records nothing leaves the
    ledger as it was. *)
Theorem summary_rerun (sha256_hex : string -> string) (f : Ledger.file)
  (stored : option string) (root_dir : bool) (rq : request) (t1 t2 : string)
  (r : Ledger.readings) :
  summarize f rq t2 = (<["generated_at" := JStr t2]>) <$> summarize f rq t1
  /\ (forall o, main sha256_hex f stored root_dir rq t1 r = Some o ->
        Some (new_json o) = serialize <$> summarize f rq t1
        /\ (changed o = true -> default EmptyString stored <> new_json o)
        /\ recorded o = match record_event rq with
                        | ContextOps.Always => true
                        | ContextOps.OnChange => changed o
                        | ContextOps.Off => false
                        end
        /\ (recorded o = false -> events_after o = f)).
Proof.
  split; [apply summarize_generated_at|].
  intros o Hrun. destruct (main_outcome _ _ _ _ _ _ _ _ Hrun) as (Hnew & Hch & Hrec & Hkeep).
  split; [done|]. split; [|done].
  rewrite Hch. intros Hne%negb_true_iff. by apply String.eqb_neq.
Qed.

Lemma summary_rerun_witness :
  summarize sample_ledger (typed_request ContextOps.Off) "2026-03-01T12:00:05Z"
  = (<["generated_at" := JStr "2026-03-01T12:00:05Z"]>)
      <$> summarize sample_ledger (typed_request ContextOps.Off) "2026-03-01T12:00:00Z"
  /\ (events_after
        <$> main sample_digest sample_ledger None false (typed_request ContextOps.Off)
              "2026-03-01T12:00:00Z" sample_readings) = Some sample_ledger.
Proof.
  destruct (summary_rerun sample_digest sample_ledger None false
              (typed_request ContextOps.Off)
              "2026-03-01T12:00:00Z" "2026-03-01T12:00:05Z" sample_readings)
    as (H1 & H2).
  split; [exact H1|].
  destruct (main sample_digest sample_ledger None false (typed_request ContextOps.Off)
              "2026-03-01T12:00:00Z" sample_readings) as [o|] eqn:Hrun.
  - change (Some (events_after o) = Some sample_ledger). f_equal.
    destruct (H2 o eq_refl) as (_ & _ & Hrec & Hkeep). apply Hkeep. exact Hrec.
  - vm_compute in Hrun. discriminate Hrun.
Defined.

(** With nothing under the memory root and no root either, a run that
    writes raises at the write, though the summary is computed; with the
    root in place it returns. *)
Example missing_root_raises :
  main sample_digest None None false (typed_request ContextOps.Off)
    "2026-03-01T12:00:00Z" sample_readings = None
  /\ is_Some (summarize None (typed_request ContextOps.Off) "2026-03-01T12:00:00Z")
  /\ is_Some (main sample_digest None None true (typed_request ContextOps.Off)
                "2026-03-01T12:00:00Z" sample_readings).
Proof.
  assert (is_Some (summarize None (typed_request ContextOps.Off) "2026-03-01T12:00:00Z"))
    as Hsum.
  { unfold summarize. apply fmap_is_Some.
    change (window None (typed_request ContextOps.Off)) with (@nil (gmap string jvalue)).
    unfold extract. apply fmap_is_Some. cbn [extract_loop]. by eexists. }
  split; [|split; [exact Hsum|]].
  - unfold main. by destruct (summarize None _ _).
  - apply main_returns. split; [exact Hsum | by right].
Qed.

(** C9, as stated, fails: the second run reads the same ledger with the same
    window, yet its serialized summary is another text, it reports
    [changed], and under [on-change] it appends an event. *)
Lemma rerun_not_identical :
  (events_after <$> first_run) = Some sample_ledger
  /\ bool_decide ((new_json <$> first_run) = (new_json <$> second_run)) = false
  /\ (changed <$> second_run) = Some true
  /\ (length ∘ Ledger.lines_of ∘ events_after <$> second_run) = Some 4%nat.
Proof. vm_compute. done. Qed.

(** The summary of the three sample events (success, warning, failure):
    two risks, one success, no decision. *)
Example sample_summary_counts :
  (fun p : gmap string jvalue =>
     (p !! "event_count", p !! "risk_count", p !! "success_count", p !! "decision_count",
      p !! "top_paths"))
    <$> summarize sample_ledger (typed_request ContextOps.Off)
          "2026-03-01T12:00:00Z"
  = Some (Some (JInt 3), Some (JInt 2), Some (JInt 1), Some (JInt 0),
          Some (JArr [JObj [("value", JStr "src/a.py"); ("count", JInt 3)]])).
Proof. vm_compute. reflexivity. Qed.

End TypedMemoryFacts.

Set Warnings "-clear-no-such-hyp".

(** ** More on the ledger *)

Module LedgerMore.

Import Ledger.

(** *** Whitespace *)

Lemma rstrip_idempotent (s : string) : Py.rstrip (Py.rstrip s) = Py.rstrip s.
Proof.
  induction s as [|c s IH]; [done|]. simpl.
  destruct (Py.rstrip s) as [|d r] eqn:Hr.
  - destruct (Py.is_space c) eqn:Hc; [done|]. simpl. by rewrite Hc.
  - simpl in *. by rewrite IH.
Qed.

Lemma rstrip_keeps_head (c : ascii) (s : string) :
  Py.is_space c = false -> exists r, Py.rstrip (String c s) = String c r.
Proof.
  intros Hc. simpl. destruct (Py.rstrip s) as [|d r]; [|by eexists].
  rewrite Hc. by eexists.
Qed.

Lemma lstrip_head (s : string) :
  Py.lstrip s = EmptyString
  \/ exists c r, Py.lstrip s = String c r /\ Py.is_space c = false.
Proof.
  induction s as [|c s IH]; [by left|]. simpl.
  destruct (Py.is_space c) eqn:Hc; [done|]. right. by exists c, s.
Qed.

Lemma strip_idempotent (s : string) : Py.strip (Py.strip s) = Py.strip s.
Proof.
  unfold Py.strip. destruct (lstrip_head s) as [->|(c & r & -> & Hc)]; [done|].
  destruct (rstrip_keeps_head c r Hc) as [r' Hr]. rewrite Hr.
  simpl Py.lstrip. rewrite Hc. rewrite <- Hr. apply rstrip_idempotent.
Qed.

(** *** [unique_keep_order] *)

Lemma unique_from_elem (seen : gset string) (items : list string) (x : string) :
  x ∈ Py.unique_from seen items <-> x ∈ items /\ x ∉ seen.
Proof.
  revert seen. induction items as [|item rest IH]; intros seen; simpl.
  - set_solver.
  - destruct (decide (item ∈ seen)) as [Hin|Hout].
    + rewrite IH. set_solver.
    + rewrite elem_of_cons, IH. split.
      * intros [->|[Hx Hs]]; set_solver.
      * intros [Hx Hs]. destruct (decide (x = item)) as [->|Hne]; [by left|].
        right. set_solver.
Qed.

Lemma unique_from_NoDup (seen : gset string) (items : list string) :
  NoDup (Py.unique_from seen items).
Proof.
  revert seen. induction items as [|item rest IH]; intros seen; simpl.
  - constructor.
  - destruct (decide (item ∈ seen)); [apply IH|].
    constructor; [|apply IH]. rewrite unique_from_elem. set_solver.
Qed.

Lemma unique_from_sublist (seen : gset string) (items : list string) :
  Py.unique_from seen items `sublist_of` items.
Proof.
  revert seen. induction items as [|item rest IH]; intros seen; simpl; [done|].
  destruct (decide (item ∈ seen)).
  - by apply sublist_cons.
  - by apply sublist_skip.
Qed.

Lemma unique_from_NoDup_id (seen : gset string) (items : list string) :
  NoDup items -> (forall x, x ∈ items -> x ∉ seen) -> Py.unique_from seen items = items.
Proof.
  revert seen. induction items as [|item rest IH]; intros seen Hnd Hout; simpl; [done|].
  apply NoDup_cons in Hnd as [Hfresh Hnd].
  destruct (decide (item ∈ seen)) as [Hin|_]; [exfalso; apply (Hout item); set_solver|].
  f_equal. apply IH; [done|]. intros x Hx. specialize (Hout x). set_solver.
Qed.

(** X1.  [unique_keep_order] keeps exactly the elements of its input, each
    once, as a subsequence of the input; applied again it changes
    nothing. *)
Theorem unique_keep_order_set (items : list string) :
  NoDup (Py.unique_keep_order items)
  /\ (forall x, x ∈ Py.unique_keep_order items <-> x ∈ items)
  /\ Py.unique_keep_order items `sublist_of` items
  /\ Py.unique_keep_order (Py.unique_keep_order items) = Py.unique_keep_order items.
Proof.
  unfold Py.unique_keep_order. split; [apply unique_from_NoDup|].
  split; [intros x; rewrite unique_from_elem; set_solver|].
  split; [apply unique_from_sublist|].
  apply unique_from_NoDup_id; [apply unique_from_NoDup | set_solver].
Qed.

(** X2.  A list field of [append_event] ([paths], [symbols], [commands],
    [refs]) is stored as the trimmed texts of the entries that are not
    blank: no stored text is empty or has blanks around it, none occurs
    twice, and every trimmed non-blank entry is stored. *)
Theorem clean_list_entries (items : option (list string)) :
  NoDup (clean_list items)
  /\ Forall (fun p => p <> EmptyString /\ Py.strip p = p) (clean_list items)
  /\ (forall p, p ∈ clean_list items
        <-> exists q, q ∈ default [] items /\ Py.strip q = p /\ p <> EmptyString).
Proof.
  assert (forall p, p ∈ clean_list items
            <-> exists q, q ∈ default [] items /\ Py.strip q = p /\ p <> EmptyString) as Hmem.
  { intros p. unfold clean_list, Py.unique_keep_order. rewrite unique_from_elem.
    change (map Py.strip ?l) with (Py.strip <$> l). rewrite list_elem_of_fmap.
    split.
    - intros [(q & -> & Hq) _]. apply list_elem_of_In, List.filter_In in Hq as [Hq Hb].
      exists q. split; [by apply list_elem_of_In|]. split; [done|].
      apply andb_true_iff in Hb as [_ Hb]. apply negb_true_iff in Hb.
      by apply String.eqb_neq.
    - intros (q & Hq & <- & Hne). split; [|set_solver]. exists q. split; [done|].
      apply list_elem_of_In, List.filter_In. split; [by apply list_elem_of_In|].
      apply andb_true_iff. split; apply negb_true_iff, String.eqb_neq; [|done].
      intros ->. by apply Hne. }
  split; [apply unique_from_NoDup|]. split; [|exact Hmem].
  apply Forall_forall. intros p Hp. apply Hmem in Hp as (q & _ & <- & Hne).
  split; [done | apply strip_idempotent].
Qed.

(** X3.  [approx_tokens] is 1 for the empty text and otherwise the length
    divided by four, rounded up. *)
Theorem approx_tokens_ceiling (text : string) :
  Py.approx_tokens EmptyString = 1
  /\ 1 <= Py.approx_tokens text
  /\ Py.len text <= 4 * Py.approx_tokens text
  /\ (text <> EmptyString -> 4 * (Py.approx_tokens text - 1) < Py.len text).
Proof.
  split; [done|]. unfold Py.approx_tokens, Py.len.
  pose proof (Z.mul_div_le (Z.of_nat (String.length text) + 3) 4).
  pose proof (Z.mul_succ_div_gt (Z.of_nat (String.length text) + 3) 4).
  split; [lia|]. split; [lia|].
  intros Hne. destruct text; [done|]. simpl String.length in *. lia.
Qed.

Lemma approx_tokens_ceiling_witness :
  4 * (Py.approx_tokens "abcde" - 1) < Py.len "abcde".
Proof.
  apply (approx_tokens_ceiling "abcde"). discriminate.
Defined.

(** *** Numbering *)

Lemma count_objects (es : list (gmap string jvalue)) :
  count_nonempty_lines (Some (map Obj es)) = Z.of_nat (length es).
Proof.
  unfold count_nonempty_lines. f_equal.
  induction es as [|e es IH]; [done|]. simpl. by rewrite IH.
Qed.

Lemma append_event_seq (sha256_hex : string -> string) f a r :
  (append_event sha256_hex f a r).1 !! "seq"
  = Some (JInt (next_seq f (read_last_jsonl_obj f))).
Proof.
  unfold append_event. cbn [fst]. rewrite lookup_insert_ne by done.
  by rewrite (LedgerFacts.drop_blank_item _ "seq" (JInt (next_seq f (read_last_jsonl_obj f))))
    by (apply LedgerFacts.event_items_NoDup || (unfold event_items; set_solver)).
Qed.

(** Every record stands at the position its [seq] names, and the first one
    has no [prev_hash]. *)
Definition numbered (es : list (gmap string jvalue)) : Prop :=
  (forall (i : nat) e, es !! i = Some e -> e !! "seq" = Some (JInt (Z.of_nat i + 1)))
  /\ (forall e, es !! 0%nat = Some e -> e !! "prev_hash" = None).

Lemma numbered_snoc (sha256_hex : string -> string) (es : list (gmap string jvalue)) a r :
  numbered es ->
  numbered (es ++ [(append_event sha256_hex (Some (map Obj es)) a r).1]).
Proof.
  intros [Hseq Hfirst]. split.
  - intros i e Hi. destruct (decide (i < length es)%nat) as [Hlt|Hge].
    + rewrite lookup_app_l in Hi by done. by apply Hseq.
    + assert (i = length es) as ->.
      { apply lookup_lt_Some in Hi. rewrite length_app in Hi. simpl in Hi. lia. }
      rewrite lookup_app_r, Nat.sub_diag in Hi by lia.
      pose proof (append_event_seq sha256_hex (Some (map Obj es)) a r) as Hs.
      rewrite LedgerFacts.read_last_objects in Hs.
      assert (e = (append_event sha256_hex (Some (map Obj es)) a r).1) as ->
        by (by injection Hi).
      rewrite Hs. do 2 f_equal.
      unfold next_seq. destruct (last es) as [prev|] eqn:Hlast.
      * rewrite last_lookup in Hlast. rewrite (Hseq _ _ Hlast).
        assert (length es <> 0)%nat by (intros H0; rewrite H0 in Hlast; by destruct es).
        do 2 f_equal. lia.
      * apply last_None in Hlast as ->. by rewrite count_objects.
  - intros e H0. destruct es as [|e0 es'].
    + pose proof (LedgerFacts.append_event_prev_hash sha256_hex (Some (map Obj [])) a r)
        as Hp.
      simpl in H0. assert (e = (append_event sha256_hex (Some (map Obj [])) a r).1) as ->
        by (by injection H0).
      exact Hp.
    + simpl in H0. injection H0 as <-. by apply Hfirst.
Qed.

Lemma append_all_numbered (sha256_hex : string -> string)
  (calls : list (fields * readings)) (es : list (gmap string jvalue)) :
  numbered es ->
  exists es', append_all sha256_hex (Some (map Obj es)) calls = Some (map Obj (es ++ es'))
              /\ numbered (es ++ es').
Proof.
  revert es. induction calls as [|[a r] calls IH]; intros es Hes.
  - exists []. by rewrite app_nil_r.
  - change (append_all sha256_hex (Some (map Obj es)) ((a, r) :: calls))
      with (append_all sha256_hex (append_event sha256_hex (Some (map Obj es)) a r).2 calls).
    set (e := (append_event sha256_hex (Some (map Obj es)) a r).1).
    assert ((append_event sha256_hex (Some (map Obj es)) a r).2 = Some (map Obj (es ++ [e])))
      as ->.
    { apply LedgerFacts.append_event_objects. }
    destruct (IH (es ++ [e])) as (es' & Heq & Hn); [by apply numbered_snoc|].
    exists (e :: es'). by rewrite <- app_assoc in Heq, Hn.
Qed.

Lemma numbered_nil : numbered [].
Proof. split; [intros i e H | intros e H]; by rewrite lookup_nil in H. Qed.

Lemma append_all_from_nothing (sha256_hex : string -> string)
  (start : file) (calls : list (fields * readings)) :
  start = None \/ start = Some [] ->
  objects (append_all sha256_hex start calls)
  = objects (append_all sha256_hex (Some (map Obj [])) calls).
Proof.
  intros [-> | ->]; [|done]. by destruct calls as [|[a r] calls].
Qed.

(** X4.  In a ledger that successive [append_event] calls wrote, starting
    from an absent or empty file, the record at position [n] (from 1) has
    [seq = n], and the first record has no [prev_hash]. *)
Theorem append_all_seq (sha256_hex : string -> string)
  (start : file) (calls : list (fields * readings)) :
  start = None \/ start = Some [] ->
  (forall (i : nat) e,
     objects (append_all sha256_hex start calls) !! i = Some e ->
     e !! "seq" = Some (JInt (Z.of_nat i + 1)))
  /\ (forall e, objects (append_all sha256_hex start calls) !! 0%nat = Some e ->
        e !! "prev_hash" = None).
Proof.
  intros Hstart. rewrite (append_all_from_nothing _ _ _ Hstart).
  destruct (append_all_numbered sha256_hex calls [] numbered_nil) as (es & -> & Hn).
  by rewrite LedgerFacts.objects_map_Obj.
Qed.

Lemma append_all_seq_witness :
  (forall (i : nat) e,
     objects (append_all Sample.sample_digest None Sample.sample_calls) !! i = Some e ->
     e !! "seq" = Some (JInt (Z.of_nat i + 1)))
  /\ (forall e,
        objects (append_all Sample.sample_digest None Sample.sample_calls) !! 0%nat = Some e ->
        e !! "prev_hash" = None).
Proof.
  apply (append_all_seq Sample.sample_digest None Sample.sample_calls). by left.
Defined.

(** X5.  When the last non-blank line of the file is no JSON object, the
    new record is numbered one more than the count of non-blank lines and
    carries no [prev_hash]: the chain starts anew. *)
Theorem append_event_after_damage (sha256_hex : string -> string)
  (ls : list line) (a : fields) (r : readings) (l : line) :
  last (List.filter nonblank ls) = Some l ->
  l = Malformed \/ l = NonObject ->
  (append_event sha256_hex (Some ls) a r).1 !! "seq"
  = Some (JInt (Z.of_nat (length (List.filter nonblank ls)) + 1))
  /\ (append_event sha256_hex (Some ls) a r).1 !! "prev_hash" = None.
Proof.
  intros Hlast Hl.
  assert (read_last_jsonl_obj (Some ls) = None) as Hread.
  { unfold read_last_jsonl_obj. rewrite Hlast. by destruct Hl as [-> | ->]. }
  rewrite append_event_seq, LedgerFacts.append_event_prev_hash, Hread. done.
Qed.

Lemma append_event_after_damage_witness :
  (append_event Sample.sample_digest
     (Some [Obj ∅; Blank; Malformed; Blank]) (Sample.sample_fields "info" "again")
     Sample.sample_readings).1 !! "seq" = Some (JInt (Z.of_nat 2 + 1))
  /\ (append_event Sample.sample_digest
        (Some [Obj ∅; Blank; Malformed; Blank]) (Sample.sample_fields "info" "again")
        Sample.sample_readings).1 !! "prev_hash" = None.
Proof.
  apply (append_event_after_damage Sample.sample_digest
           [Obj ∅; Blank; Malformed; Blank] _ _ Malformed).
  - reflexivity.
  - by left.
Defined.

End LedgerMore.

(** ** Strings, character by character *)

Module StringFacts.

(** Every character of [s] passes [P]. *)
Fixpoint all_chars (P : ascii -> bool) (s : string) : bool :=
  match s with
  | EmptyString => true
  | String c s' => P c && all_chars P s'
  end.

Lemma all_chars_app (P : ascii -> bool) (s t : string) :
  all_chars P (s +:+ t) = all_chars P s && all_chars P t.
Proof. induction s as [|c s IH]; simpl; [done|]. by rewrite IH, andb_assoc. Qed.

Lemma all_chars_impl (P Q : ascii -> bool) (s : string) :
  (forall c, P c = true -> Q c = true) -> all_chars P s = true -> all_chars Q s = true.
Proof.
  intros HPQ. induction s as [|c s IH]; simpl; [done|].
  intros [Hc Hs]%andb_true_iff. rewrite (HPQ c Hc). by apply IH.
Qed.

Lemma all_chars_and (P Q : ascii -> bool) (s : string) :
  all_chars (fun c => P c && Q c) s = all_chars P s && all_chars Q s.
Proof.
  induction s as [|c s IH]; simpl; [done|]. rewrite IH.
  destruct (P c), (Q c), (all_chars P s), (all_chars Q s); done.
Qed.

Lemma lower_char_idempotent (c : ascii) : Py.lower_char (Py.lower_char c) = Py.lower_char c.
Proof.
  destruct c as [b0 b1 b2 b3 b4 b5 b6 b7].
  destruct b0, b1, b2, b3, b4, b5, b6, b7; vm_compute; reflexivity.
Qed.

(** [c.lower() == c] *)
Definition is_lowered (c : ascii) : bool := Ascii.eqb (Py.lower_char c) c.

Lemma lower_lowered (s : string) : all_chars is_lowered (Py.lower s) = true.
Proof.
  induction s as [|c s IH]; simpl; [done|]. rewrite IH, andb_true_r.
  unfold is_lowered. rewrite lower_char_idempotent. apply Ascii.eqb_refl.
Qed.

Lemma lowered_fixed (s : string) : all_chars is_lowered s = true -> Py.lower s = s.
Proof.
  induction s as [|c s IH]; simpl; [done|].
  intros [Hc Hs]%andb_true_iff. apply Ascii.eqb_eq in Hc. by rewrite Hc, IH.
Qed.

Lemma lstrip_all_chars (P : ascii -> bool) (s : string) :
  all_chars P s = true -> all_chars P (Py.lstrip s) = true.
Proof.
  induction s as [|c s IH]; simpl; [done|].
  intros [Hc Hs]%andb_true_iff. destruct (Py.is_space c); [by apply IH|].
  simpl. by rewrite Hc, Hs.
Qed.

Lemma rstrip_all_chars (P : ascii -> bool) (s : string) :
  all_chars P s = true -> all_chars P (Py.rstrip s) = true.
Proof.
  induction s as [|c s IH]; simpl; [done|].
  intros [Hc Hs]%andb_true_iff. specialize (IH Hs).
  destruct (Py.rstrip s) as [|d r].
  - destruct (Py.is_space c); [done|]. simpl. by rewrite Hc.
  - cbn [all_chars]. by rewrite Hc.
Qed.

(** A text without blanks is its own trimmed form. *)
Lemma strip_no_space (s : string) :
  all_chars (fun c => negb (Py.is_space c)) s = true -> Py.strip s = s.
Proof.
  intros Hs. unfold Py.strip.
  assert (Py.lstrip s = s) as ->.
  { destruct s as [|c s]; [done|]. simpl in *.
    apply andb_true_iff in Hs as [Hc _]. by destruct (Py.is_space c). }
  induction s as [|c s IH]; simpl; [done|].
  simpl in Hs. apply andb_true_iff in Hs as [Hc Hs]. rewrite (IH Hs).
  destruct s; [by destruct (Py.is_space c)|done].
Qed.

End StringFacts.

(** ** Repair and verification of the chain *)

Module ChainFacts.

Import Ledger.

Section Chain.

Variable sha256_hex : string -> string.

(** A chain that continues from the hash [prev_hash] and the number [seq]:
    each record is numbered one more than the one before, names the hash
    before it (or has no [prev_hash] when that is empty), and stores the
    digest of the rest of its fields. *)
Fixpoint chain_from (prev_hash : string) (seq : Z) (es : list (gmap string jvalue)) : Prop :=
  match es with
  | [] => True
  | e :: rest =>
      e !! "seq" = Some (JInt (seq + 1))
      /\ e !! "prev_hash"
         = (if String.eqb prev_hash EmptyString then None else Some (JStr prev_hash))
      /\ hash_ok sha256_hex e
      /\ chain_from (hash_event sha256_hex (delete "hash" e)) (seq + 1) rest
  end.

(** The hash the next record has to name. *)
Definition last_hash (prev_hash : string) (es : list (gmap string jvalue)) : string :=
  match last es with
  | Some e => hash_event sha256_hex (delete "hash" e)
  | None => prev_hash
  end.

Lemma chain_from_snoc prev_hash seq es e :
  chain_from prev_hash seq (es ++ [e])
  <-> chain_from prev_hash seq es
      /\ chain_from (last_hash prev_hash es) (seq + Z.of_nat (length es)) [e].
Proof.
  revert prev_hash seq. induction es as [|e0 es IH]; intros prev_hash seq.
  - unfold last_hash. simpl. rewrite Z.add_0_r. tauto.
  - replace (last_hash prev_hash (e0 :: es))
      with (last_hash (hash_event sha256_hex (delete "hash" e0)) es)
      by (unfold last_hash; rewrite last_cons; by destruct (last es)).
    replace (seq + Z.of_nat (length (e0 :: es))) with (seq + 1 + Z.of_nat (length es))
      by (simpl length; lia).
    change (chain_from prev_hash seq ((e0 :: es) ++ [e]))
      with (e0 !! "seq" = Some (JInt (seq + 1))
            /\ e0 !! "prev_hash"
               = (if String.eqb prev_hash EmptyString then None else Some (JStr prev_hash))
            /\ hash_ok sha256_hex e0
            /\ chain_from (hash_event sha256_hex (delete "hash" e0)) (seq + 1) (es ++ [e])).
    rewrite IH.
    change (chain_from prev_hash seq (e0 :: es))
      with (e0 !! "seq" = Some (JInt (seq + 1))
            /\ e0 !! "prev_hash"
               = (if String.eqb prev_hash EmptyString then None else Some (JStr prev_hash))
            /\ hash_ok sha256_hex e0
            /\ chain_from (hash_event sha256_hex (delete "hash" e0)) (seq + 1) es).
    tauto.
Qed.

Lemma chain_from_lookup prev_hash seq es (i : nat) e :
  chain_from prev_hash seq es -> es !! i = Some e ->
  e !! "seq" = Some (JInt (seq + Z.of_nat i + 1))
  /\ hash_ok sha256_hex e
  /\ e !! "prev_hash"
     = (if String.eqb (last_hash prev_hash (take i es)) EmptyString then None
        else Some (JStr (last_hash prev_hash (take i es)))).
Proof.
  revert prev_hash seq i. induction es as [|e0 es IH]; intros prev_hash seq i; [done|].
  intros (Hs & Hp & Hh & Hrest). destruct i as [|i]; simpl.
  - intros [= <-]. rewrite Z.add_0_r. done.
  - intros Hi. destruct (IH _ _ _ Hrest Hi) as (Hs' & Hh' & Hp').
    split; [rewrite Hs'; do 2 f_equal; lia|]. split; [done|].
    rewrite Hp'. unfold last_hash. rewrite last_cons. by destruct (last (take i es)).
Qed.

(** *** What [normalize_chain] builds *)

Lemma rebuilt_no_hash prev_hash seq event :
  RepairFacts.rebuilt prev_hash seq event !! "hash" = None.
Proof. unfold RepairFacts.rebuilt. apply lookup_delete_eq. Qed.

Lemma rebuilt_seq prev_hash seq event :
  RepairFacts.rebuilt prev_hash seq event !! "seq" = Some (JInt seq).
Proof.
  unfold RepairFacts.rebuilt. destruct (String.eqb prev_hash EmptyString); by simplify_map_eq.
Qed.

Lemma rebuilt_prev_hash prev_hash seq event :
  RepairFacts.rebuilt prev_hash seq event !! "prev_hash"
  = (if String.eqb prev_hash EmptyString then None else Some (JStr prev_hash)).
Proof.
  unfold RepairFacts.rebuilt. destruct (String.eqb prev_hash EmptyString); by simplify_map_eq.
Qed.

Lemma normalize_from_chain prev_hash seq events :
  chain_from prev_hash seq (Repair.normalize_from sha256_hex prev_hash seq events).
Proof.
  revert prev_hash seq. induction events as [|event rest IH]; intros prev_hash seq; [done|].
  rewrite RepairFacts.normalize_from_cons.
  set (R := RepairFacts.rebuilt prev_hash (seq + 1) event).
  assert (delete "hash" (<["hash" := JStr (hash_event sha256_hex R)]> R) = R) as Hdel
    by apply delete_insert_id, rebuilt_no_hash.
  cbn [chain_from]. unfold hash_ok. rewrite Hdel.
  rewrite !lookup_insert_ne by done. rewrite lookup_insert_eq.
  split; [apply rebuilt_seq|]. split; [apply rebuilt_prev_hash|]. split; [done|]. apply IH.
Qed.

(** A chain is what [normalize_chain] leaves alone. *)
Lemma normalize_from_fixed prev_hash seq events :
  chain_from prev_hash seq events ->
  Repair.normalize_from sha256_hex prev_hash seq events = events.
Proof.
  revert prev_hash seq. induction events as [|event rest IH]; intros prev_hash seq; [done|].
  intros (Hs & Hp & Hh & Hrest). rewrite RepairFacts.normalize_from_cons.
  assert (RepairFacts.rebuilt prev_hash (seq + 1) event = delete "hash" event) as ->.
  { unfold RepairFacts.rebuilt. rewrite (insert_id _ _ _ Hs).
    destruct (String.eqb prev_hash EmptyString).
    - by rewrite (delete_id _ _ Hp).
    - by rewrite (insert_id _ _ _ Hp). }
  rewrite (insert_delete_id _ _ _ Hh). f_equal. by apply IH.
Qed.

(** *** What [append_event] builds *)

Lemma prev_hash_of_last es :
  chain_from EmptyString 0 es -> prev_hash_of (last es) = last_hash EmptyString es.
Proof.
  intros Hch. unfold last_hash, prev_hash_of. destruct (last es) as [e|] eqn:Hlast; [|done].
  rewrite last_lookup in Hlast.
  destruct (chain_from_lookup _ _ _ _ _ Hch Hlast) as (_ & Hh & _).
  rewrite Hh. simpl.
  by destruct (String.eqb_spec (hash_event sha256_hex (delete "hash" e)) EmptyString) as [->|].
Qed.

Lemma next_seq_of_last es :
  chain_from EmptyString 0 es ->
  next_seq (Some (map Obj es)) (last es) = Z.of_nat (length es) + 1.
Proof.
  intros Hch. unfold next_seq. destruct (last es) as [e|] eqn:Hlast.
  - rewrite last_lookup in Hlast.
    destruct (chain_from_lookup _ _ _ _ _ Hch Hlast) as (Hs & _ & _). rewrite Hs.
    assert (length es <> 0)%nat by (intros H0; rewrite H0 in Hlast; by destruct es). lia.
  - apply last_None in Hlast as ->. done.
Qed.

Lemma append_event_chain es a r :
  chain_from EmptyString 0 es ->
  chain_from EmptyString 0 (es ++ [(append_event sha256_hex (Some (map Obj es)) a r).1]).
Proof.
  intros Hch. apply chain_from_snoc. split; [done|].
  cbn [chain_from]. rewrite Z.add_0_l.
  rewrite LedgerMore.append_event_seq, LedgerFacts.append_event_prev_hash,
    LedgerFacts.read_last_objects, prev_hash_of_last, next_seq_of_last by done.
  split; [done|]. split; [done|]. split; [apply LedgerFacts.append_event_hash_ok | done].
Qed.

Lemma append_all_chain_from (calls : list (fields * readings)) es :
  chain_from EmptyString 0 es ->
  exists es', append_all sha256_hex (Some (map Obj es)) calls = Some (map Obj (es ++ es'))
              /\ chain_from EmptyString 0 (es ++ es').
Proof.
  revert es. induction calls as [|[a r] calls IH]; intros es Hes.
  - exists []. by rewrite app_nil_r.
  - change (append_all sha256_hex (Some (map Obj es)) ((a, r) :: calls))
      with (append_all sha256_hex (append_event sha256_hex (Some (map Obj es)) a r).2 calls).
    set (e := (append_event sha256_hex (Some (map Obj es)) a r).1).
    assert ((append_event sha256_hex (Some (map Obj es)) a r).2 = Some (map Obj (es ++ [e])))
      as ->.
    { apply LedgerFacts.append_event_objects. }
    destruct (IH (es ++ [e])) as (es' & Heq & Hn); [by apply append_event_chain|].
    exists (e :: es'). by rewrite <- app_assoc in Heq, Hn.
Qed.

(** A ledger that only appends wrote, from nothing: its lines are its
    objects, and they form a chain. *)
Lemma appended_chain (start : file) (calls : list (fields * readings)) :
  start = None \/ start = Some [] ->
  lines_of (append_all sha256_hex start calls)
  = map Obj (objects (append_all sha256_hex start calls))
  /\ chain_from EmptyString 0 (objects (append_all sha256_hex start calls)).
Proof.
  intros Hstart.
  destruct (append_all_chain_from calls []) as (es & Heq & Hch); [done|].
  simpl app in Heq, Hch.
  assert (objects (append_all sha256_hex start calls) = es) as Hobj.
  { rewrite (LedgerMore.append_all_from_nothing _ _ _ Hstart), Heq.
    apply LedgerFacts.objects_map_Obj. }
  rewrite Hobj. split; [|done].
  destruct Hstart as [-> | ->].
  2: { change (append_all sha256_hex (Some []) calls)
         with (append_all sha256_hex (Some (map Obj [])) calls).
       by rewrite Heq. }
  destruct calls as [|[a r] calls].
  - simpl in Heq. injection Heq as Heq. by destruct es.
  - change (append_all sha256_hex None ((a, r) :: calls))
      with (append_all sha256_hex (Some (map Obj [])) ((a, r) :: calls)).
    by rewrite Heq.
Qed.

End Chain.

Lemma last_take_lookup {A} (l : list A) (i : nat) (x : A) :
  l !! i = Some x -> last (take (S i) l) = Some x.
Proof.
  intros Hi. rewrite last_lookup, length_take.
  pose proof (lookup_lt_Some _ _ _ Hi) as Hlt.
  replace (pred (S i `min` length l)) with i by lia.
  rewrite lookup_take_lt by lia. done.
Qed.

(** X6.  Whatever records it is given, [normalize_chain] returns a chain:
    the record at position [n] (from 1) has [seq = n] and stores the digest
    of the rest of its fields as [hash]; the first record has no
    [prev_hash]; every later record has the [hash] of the record before it
    as [prev_hash] (and none if that digest were the empty text). *)
Theorem normalize_chain_rebuilds (sha256_hex : string -> string)
  (events : list (gmap string jvalue)) :
  (forall (i : nat) e,
     Repair.normalize_chain sha256_hex events !! i = Some e ->
     e !! "seq" = Some (JInt (Z.of_nat i + 1))
     /\ e !! "hash" = Some (JStr (sha256_hex (Json.stable_json (delete "hash" e)))))
  /\ (forall e, Repair.normalize_chain sha256_hex events !! 0%nat = Some e ->
        e !! "prev_hash" = None)
  /\ (forall (i : nat) prev e,
        Repair.normalize_chain sha256_hex events !! i = Some prev ->
        Repair.normalize_chain sha256_hex events !! S i = Some e ->
        e !! "prev_hash"
        = (if String.eqb (hash_event sha256_hex (delete "hash" prev)) EmptyString then None
           else Some (JStr (hash_event sha256_hex (delete "hash" prev))))).
Proof.
  pose proof (normalize_from_chain sha256_hex EmptyString 0 events) as Hch.
  fold (Repair.normalize_chain sha256_hex events) in Hch.
  split; [|split].
  - intros i e Hi. destruct (chain_from_lookup _ _ _ _ _ _ Hch Hi) as (Hs & Hh & _).
    by rewrite Z.add_0_l in Hs.
  - intros e H0. by destruct (chain_from_lookup _ _ _ _ _ _ Hch H0) as (_ & _ & Hp).
  - intros i prev e Hi HSi.
    destruct (chain_from_lookup _ _ _ _ _ _ Hch HSi) as (_ & _ & Hp).
    rewrite Hp. unfold last_hash. by rewrite (last_take_lookup _ _ _ Hi).
Qed.

Lemma normalize_chain_rebuilds_witness :
  default ∅ (Repair.normalize_chain Sample.sample_digest Sample.stale !! 1%nat) !! "prev_hash"
  = (if String.eqb
          (hash_event Sample.sample_digest
             (delete "hash"
                (default ∅ (Repair.normalize_chain Sample.sample_digest Sample.stale !! 0%nat))))
          EmptyString
     then None
     else Some (JStr (hash_event Sample.sample_digest
                        (delete "hash"
                           (default ∅ (Repair.normalize_chain Sample.sample_digest Sample.stale
                                       !! 0%nat)))))).
Proof.
  apply (normalize_chain_rebuilds Sample.sample_digest Sample.stale) with (i := 0%nat).
  - vm_compute. reflexivity.
  - vm_compute. reflexivity.
Defined.

Lemma load_lines_are_objects (ls : list line) (es : list (gmap string jvalue)) :
  Repair.load_lines ls = Some es -> es = objects (Some ls).
Proof.
  unfold objects, lines_of. cbn [default from_option id].
  revert es. induction ls as [|l ls IH]; intros es; simpl.
  - by intros [= <-].
  - destruct l as [| | |e|]; try done.
    + apply IH.
    + destruct (Repair.load_lines ls) as [es'|]; [|done].
      intros [= <-]. by rewrite (IH es').
    + apply IH.
Qed.

Lemma load_lines_None (ls : list line) :
  Repair.load_lines ls = None <-> exists l, l ∈ ls /\ (l = Malformed \/ l = NonObject).
Proof.
  induction ls as [|l ls IH]; simpl.
  - split; [done|]. intros (l & Hl & _). by apply elem_of_nil in Hl.
  - destruct l as [| | |e|].
    + rewrite IH. split.
      * intros (l & Hl & Hk). exists l. split; [by right|done].
      * intros (l & Hl & Hk). apply elem_of_cons in Hl as [->|Hl]; [by destruct Hk|].
        by exists l.
    + split; [|done]. intros _. exists Malformed. split; [by left | by left].
    + split; [|done]. intros _. exists NonObject. split; [by left | by right].
    + destruct (Repair.load_lines ls) as [es'|] eqn:Hl; simpl.
      * split; [done|]. intros (l & Hin & Hk).
        apply elem_of_cons in Hin as [->|Hin]; [by destruct Hk|].
        assert (Some es' = None) as Habs; [|done]. apply IH. by exists l.
      * split; [|done]. intros _. destruct (proj1 IH eq_refl) as (l & Hin & Hk).
        exists l. split; [by right|done].
    + rewrite IH. split.
      * intros (l & Hl & Hk). exists l. split; [by right|done].
      * intros (l & Hl & Hk). apply elem_of_cons in Hl as [->|Hl]; [by destruct Hk|].
        by exists l.
Qed.

Lemma load_events_some (f : file) (es : list (gmap string jvalue)) :
  Repair.load_events f = Some es -> es = objects f.
Proof.
  destruct f as [ls|]; simpl; [apply load_lines_are_objects | by intros [= <-]].
Qed.

(** X7.  [load_events] of the repair script reads the same records as the
    loaders that skip bad lines, and gives up exactly when some line of the
    file is not blank and not a JSON object. *)
Theorem load_events_strict (f : file) :
  (forall es, Repair.load_events f = Some es -> es = objects f)
  /\ (Repair.load_events f = None
      <-> exists l, l ∈ lines_of f /\ (l = Malformed \/ l = NonObject)).
Proof.
  split; [apply load_events_some|].
  destruct f as [ls|]; simpl; [apply load_lines_None|].
  split; [done|]. intros (l & Hl & _). by apply elem_of_nil in Hl.
Qed.

Lemma load_events_objects (ls : list line) (es : list (gmap string jvalue)) :
  ls = map Obj es -> Repair.load_lines ls = Some es.
Proof. intros ->. apply RepairFacts.load_lines_objects. Qed.

(** X8.  A ledger that successive [append_event] calls wrote, starting from
    an absent or empty file, is a fixed point of the repair:
    [normalize_chain] returns its records unchanged, and [main] reports
    [changed = False], leaves the file as it is and takes no backup. *)
Theorem repair_after_appends (sha256_hex : string -> string)
  (start : file) (calls : list (fields * readings)) (dry_run : bool) (stamp : string) :
  start = None \/ start = Some [] ->
  Repair.normalize_chain sha256_hex (objects (append_all sha256_hex start calls))
  = objects (append_all sha256_hex start calls)
  /\ Repair.rep_changed (Repair.main sha256_hex (append_all sha256_hex start calls)
                           dry_run stamp) = false
  /\ Repair.rep_events_file (Repair.main sha256_hex (append_all sha256_hex start calls)
                               dry_run stamp)
     = append_all sha256_hex start calls
  /\ Repair.rep_backup (Repair.main sha256_hex (append_all sha256_hex start calls)
                          dry_run stamp) = None.
Proof.
  intros Hstart. destruct (appended_chain sha256_hex start calls Hstart) as [Hlines Hch].
  set (f := append_all sha256_hex start calls) in *.
  assert (Repair.normalize_chain sha256_hex (objects f) = objects f) as Hfix
    by (by apply normalize_from_fixed).
  split; [done|].
  assert (Repair.load_events f = Some (objects f)) as Hload.
  { destruct f as [ls|] eqn:Hf; [|done]. simpl. by apply load_events_objects. }
  unfold Repair.main. rewrite Hload.
  destruct (objects f) as [|e es] eqn:Hobj; [done|].
  rewrite Hfix, RepairFacts.changed_same. by destruct dry_run.
Qed.

Lemma repair_after_appends_witness :
  Repair.normalize_chain Sample.sample_digest
    (objects (append_all Sample.sample_digest None Sample.sample_calls))
  = objects (append_all Sample.sample_digest None Sample.sample_calls)
  /\ Repair.rep_changed (Repair.main Sample.sample_digest
                           (append_all Sample.sample_digest None Sample.sample_calls)
                           false "20260301T120000Z") = false
  /\ Repair.rep_events_file (Repair.main Sample.sample_digest
                               (append_all Sample.sample_digest None Sample.sample_calls)
                               false "20260301T120000Z")
     = append_all Sample.sample_digest None Sample.sample_calls
  /\ Repair.rep_backup (Repair.main Sample.sample_digest
                          (append_all Sample.sample_digest None Sample.sample_calls)
                          false "20260301T120000Z") = None.
Proof.
  apply (repair_after_appends Sample.sample_digest None Sample.sample_calls). by left.
Defined.

(** X9.  [main] of the repair script replaces the file only in a run that
    is no dry run and found a change; the backup then holds the file as it
    was, and the new file holds the rebuilt records, one line each.  In
    every other run the file stays as it is and no backup is taken. *)
Theorem repair_writes_with_backup (sha256_hex : string -> string)
  (f : file) (dry_run : bool) (stamp : string) :
  (Repair.rep_events_file (Repair.main sha256_hex f dry_run stamp) = f
   /\ Repair.rep_backup (Repair.main sha256_hex f dry_run stamp) = None
   /\ Repair.rep_status (Repair.main sha256_hex f dry_run stamp) <> Repair.Repaired)
  \/ (dry_run = false
      /\ Repair.rep_changed (Repair.main sha256_hex f dry_run stamp) = true
      /\ Repair.rep_status (Repair.main sha256_hex f dry_run stamp) = Repair.Repaired
      /\ Repair.rep_backup (Repair.main sha256_hex f dry_run stamp)
         = Some (".bak." +:+ stamp, f)
      /\ Repair.rep_events_file (Repair.main sha256_hex f dry_run stamp)
         = Some (map Obj (Repair.normalize_chain sha256_hex (objects f)))).
Proof.
  unfold Repair.main. destruct (Repair.load_events f) as [[|e es]|] eqn:Hload.
  - by left.
  - rewrite <- (load_events_some f _ Hload).
    destruct dry_run; [by left|].
    destruct (Repair.changed (e :: es) (Repair.normalize_chain sha256_hex (e :: es)));
      [by right | by left].
  - by left.
Qed.

End ChainFacts.

(** ** Verification *)

Module VerifyFacts.

Import Ledger.
Import Verify.

Section Scan.

Variable sha256_hex : string -> string.

Variable parse_iso8601 : string -> bool.

Variable ref_exists : string -> bool.

(** No finding so far is about the numbering or the chain. *)
Definition clean (s : scan) : Prop :=
  Forall (fun p : Z * finding => chain_finding p.2 = false) (errors s ++ warnings s).

Lemma ref_warnings_other line_no event ref_key :
  Forall (fun p : Z * finding => chain_finding p.2 = false)
    (ref_warnings ref_exists line_no event ref_key).
Proof.
  unfold ref_warnings. destruct (event !! ref_key) as [[| | | |items|]|]; try constructor.
  apply Forall_forall. intros p Hp. apply list_elem_of_omap in Hp as (x & _ & Hx).
  destruct (nonblank_str (Some x)); [|by injection Hx as <-].
  destruct (ref_exists s); [done|]. by injection Hx as <-.
Qed.

(** The findings of a line that do not depend on the lines before it. *)
Definition own_errors (l : line) : list finding :=
  match l with
  | Blank | NoNewline => []
  | Malformed => [InvalidJson]
  | NonObject => [NotAnObject]
  | Obj event =>
      match nonblank_str (event !! "hash") with
      | None => [MissingHash]
      | Some h =>
          if String.eqb (hash_event sha256_hex (delete "hash" event)) h then []
          else [HashMismatch]
      end
  end.

Definition own_kind (f : finding) : bool :=
  match f with
  | InvalidJson | NotAnObject | MissingHash | HashMismatch => true
  | _ => false
  end.

Ltac absurd_finding Hq Hf :=
  repeat (match type of Hq with
          | context [match ?c with _ => _ end] => destruct c
          end);
  first [ by apply elem_of_nil in Hq
        | apply list_elem_of_singleton in Hq; injection Hq as ? ?; subst;
          by simpl in Hf ].

Lemma check_line_errors line_no s l (n : Z) (f : finding) :
  own_kind f = true ->
  (n, f) ∈ errors (check_line sha256_hex parse_iso8601 ref_exists line_no s l)
  <-> (n, f) ∈ errors s \/ (n = line_no /\ f ∈ own_errors l).
Proof.
  intros Hf. destruct l as [| | |event|]; simpl; [| | | |set_solver].
  - set_solver.
  - rewrite elem_of_app, !list_elem_of_singleton. split; intros [?|H]; auto.
    + right. by injection H as -> ->.
    + right. by destruct H as [-> ->].
  - rewrite elem_of_app, !list_elem_of_singleton. split; intros [?|H]; auto.
    + right. by injection H as -> ->.
    + right. by destruct H as [-> ->].
  - unfold check_event. cbn [errors]. rewrite !elem_of_app.
    split.
    + intros [?|[Hq|[Hq|[Hq|[Hq|Hq]]]]]; [by left|..]; try (exfalso; absurd_finding Hq Hf).
      right. destruct (nonblank_str (event !! "hash")) as [h|].
      * destruct (String.eqb _ h); [by apply elem_of_nil in Hq|].
        apply list_elem_of_singleton in Hq. injection Hq as -> ->.
        split; [done | by apply list_elem_of_singleton].
      * apply list_elem_of_singleton in Hq. injection Hq as -> ->.
        split; [done | by apply list_elem_of_singleton].
    + intros [?|[-> Hq]]; [by left|]. right. do 4 right.
      destruct (nonblank_str (event !! "hash")) as [h|].
      * destruct (String.eqb _ h); [by apply elem_of_nil in Hq|].
        apply list_elem_of_singleton in Hq as ->. by apply list_elem_of_singleton.
      * apply list_elem_of_singleton in Hq as ->. by apply list_elem_of_singleton.
Qed.

Lemma scan_lines_errors (ls : list line) line_no s (n : Z) (f : finding) :
  own_kind f = true ->
  (n, f) ∈ errors (scan_lines sha256_hex parse_iso8601 ref_exists line_no s ls)
  <-> (n, f) ∈ errors s
      \/ exists (i : nat) l, ls !! i = Some l /\ n = line_no + Z.of_nat i /\ f ∈ own_errors l.
Proof.
  intros Hf. revert line_no s. induction ls as [|l ls IH]; intros line_no s; simpl.
  - split; [by left|]. intros [?|(i & l & Hi & _)]; [done|]. by rewrite lookup_nil in Hi.
  - rewrite IH, check_line_errors by done. split.
    + intros [[?|[-> Hq]]|(i & l' & Hi & -> & Hq)]; [by left|..].
      * right. exists 0%nat, l. rewrite Z.add_0_r. done.
      * right. exists (S i), l'. split; [done|]. split; [lia|done].
    + intros [?|(i & l' & Hi & -> & Hq)]; [by left; left|].
      destruct i as [|i].
      * simpl in Hi. injection Hi as <-. left. right. rewrite Z.add_0_r. done.
      * right. exists i, l'. split; [done|]. split; [lia|done].
Qed.

Hypothesis sha256_hex_nonblank : forall s, Py.strip (sha256_hex s) <> EmptyString.

Lemma check_event_chain line_no s event prev_hash seq :
  clean s -> previous_hash s = prev_hash -> previous_seq s = seq -> 0 <= seq ->
  event !! "seq" = Some (JInt (seq + 1)) ->
  event !! "prev_hash"
  = (if String.eqb prev_hash EmptyString then None else Some (JStr prev_hash)) ->
  hash_ok sha256_hex event ->
  clean (check_event sha256_hex parse_iso8601 ref_exists line_no s event)
  /\ previous_hash (check_event sha256_hex parse_iso8601 ref_exists line_no s event)
     = hash_event sha256_hex (delete "hash" event)
  /\ previous_seq (check_event sha256_hex parse_iso8601 ref_exists line_no s event)
     = seq + 1.
Proof.
  intros Hclean Hph Hseq Hnn Hs Hp Hh.
  assert (nonblank_str (event !! "hash") = Some (hash_event sha256_hex (delete "hash" event)))
    as Hnb.
  { rewrite Hh. simpl. unfold hash_event.
    by destruct (String.eqb_spec
                   (Py.strip (sha256_hex (Json.stable_json (delete "hash" event))))
                   EmptyString) as [Heq|_]; [apply sha256_hex_nonblank in Heq|]. }
  unfold check_event. cbn [previous_hash previous_seq]. rewrite Hnb, Hs. cbn [as_int].
  split; [|done]. unfold clean in *. cbn [errors warnings].
  rewrite Forall_app in Hclean. destruct Hclean as [He Hw].
  rewrite String.eqb_refl, Hseq, Hph.
  destruct (Z.leb_spec (seq + 1) 0) as [?|_]; [lia|]. rewrite Z.eqb_refl. cbn [negb].
  assert (String.eqb
            (Json.str (Json.get_or event "prev_hash" (JStr EmptyString))) prev_hash = true
          /\ (String.eqb prev_hash EmptyString = true ->
              String.eqb (Json.str (Json.get_or event "prev_hash" (JStr EmptyString)))
                EmptyString = true)) as [Hsame Hnone].
  { unfold Json.get_or. rewrite Hp.
    destruct (String.eqb_spec prev_hash EmptyString) as [->|Hne]; [done|].
    simpl. apply String.eqb_neq in Hne. rewrite Hne. simpl.
    split; [apply String.eqb_refl | done]. }
  rewrite Hsame, andb_false_r.
  assert (negb (negb (String.eqb prev_hash EmptyString))
          && negb (String.eqb (Json.str (Json.get_or event "prev_hash" (JStr EmptyString)))
                     EmptyString) = false) as ->.
  { destruct (String.eqb prev_hash EmptyString) eqn:E; [|done].
    by rewrite (Hnone eq_refl). }
  rewrite !Forall_app. repeat split; try done; try apply ref_warnings_other.
  - destruct (nonblank_str (event !! "event_id")) as [i|]; [|by repeat constructor].
    destruct (decide (i ∈ seen_ids s)); by repeat constructor.
  - destruct (event !! "timestamp") as [[| | |ts| |]|]; try by repeat constructor.
    destruct (parse_iso8601 ts); by repeat constructor.
  - destruct (decide (event !! "schema" = Some (JStr "context-continuity-event-v1")));
      by repeat constructor.
Qed.

Lemma scan_lines_chain (ls : list line) (es : list (gmap string jvalue))
  line_no s prev_hash seq :
  Repair.load_lines ls = Some es ->
  clean s -> previous_hash s = prev_hash -> previous_seq s = seq -> 0 <= seq ->
  ChainFacts.chain_from sha256_hex prev_hash seq es ->
  clean (scan_lines sha256_hex parse_iso8601 ref_exists line_no s ls).
Proof.
  revert es line_no s prev_hash seq.
  induction ls as [|l ls IH]; intros es line_no s prev_hash seq Hload Hc Hp Hs Hnn Hch;
    [done|].
  destruct l as [| | |e|]; try done; [| |simpl in *; by apply (IH es _ _ prev_hash seq)].
  - simpl in *. by apply (IH es _ _ prev_hash seq).
  - simpl in Hload. destruct (Repair.load_lines ls) as [es'|] eqn:Hl; [|done].
    injection Hload as <-. destruct Hch as (Hseq & Hprev & Hh & Hrest).
    cbn [scan_lines check_line].
    destruct (check_event_chain line_no s e prev_hash seq Hc Hp Hs Hnn Hseq Hprev Hh)
      as (Hc' & Hp' & Hs').
    apply (IH es' _ _ _ _ eq_refl Hc' Hp' Hs'); [lia | done].
Qed.

Lemma clean_start : clean start.
Proof. constructor. Qed.

Lemma verify_chain (ls : list line) (es : list (gmap string jvalue)) :
  Repair.load_lines ls = Some es ->
  ChainFacts.chain_from sha256_hex EmptyString 0 es ->
  exists s, verify sha256_hex parse_iso8601 ref_exists (Some ls) = Some s /\ clean s.
Proof.
  intros Hload Hch. eexists. split; [done|].
  apply (scan_lines_chain ls es 1 start EmptyString 0 Hload clean_start eq_refl eq_refl
           (Z.le_refl 0) Hch).
Qed.

End Scan.

Lemma scan_lines_count sha256_hex parse_iso8601 ref_exists (ls : list line) line_no s :
  event_count (scan_lines sha256_hex parse_iso8601 ref_exists line_no s ls)
  = event_count s + count_nonempty_lines (Some ls).
Proof.
  unfold count_nonempty_lines, lines_of. cbn [default from_option id].
  revert line_no s. induction ls as [|l ls IH]; intros line_no s; [simpl; lia|].
  cbn [scan_lines]. rewrite IH.
  destruct l; cbn [check_line nonblank List.filter add_error check_event event_count length];
    lia.
Qed.

Lemma sample_digest_nonblank (s : string) : Py.strip (Sample.sample_digest s) <> EmptyString.
Proof.
  unfold Sample.sample_digest, Py.strip. change (Py.lstrip (String "h" s)) with (String "h" s).
  by destruct (LedgerMore.rstrip_keeps_head "h" s eq_refl) as [r ->].
Qed.

Ltac own_line l Hq :=
  destruct l; simpl in Hq;
  repeat (match type of Hq with
          | context [match ?c with _ => _ end] => destruct c
          end);
  first [ by apply elem_of_nil in Hq | by apply list_elem_of_singleton in Hq | done ].

(** What the scan has found at the end of a file with the lines [ls]. *)
Definition report_of (sha256_hex : string -> string)
  (parse_iso8601 ref_exists : string -> bool) (ls : list line) : scan :=
  scan_lines sha256_hex parse_iso8601 ref_exists 1 start ls.

Ltac other_line Hq :=
  simpl in Hq;
  first [ by apply elem_of_nil in Hq | by apply list_elem_of_singleton in Hq ].

(** X10.  The scan of [verify_memory.py] does not stop at the first damaged
    line: whatever surrounds a line, the line is reported under its own
    number as invalid JSON exactly when it does not parse, as no object
    exactly when it parses to something else, as missing its hash exactly
    when it is an object whose [hash] is no non-blank string, and as a hash
    mismatch exactly when its non-blank [hash] differs from the digest of
    the rest of the record.  [events_checked] counts the non-blank lines. *)
Theorem verify_reports_each_line (sha256_hex : string -> string)
  (parse_iso8601 ref_exists : string -> bool) (ls : list line) (n : Z) :
  verify sha256_hex parse_iso8601 ref_exists (Some ls) = Some (report_of sha256_hex parse_iso8601 ref_exists ls)
  /\ ((n, InvalidJson) ∈ errors (report_of sha256_hex parse_iso8601 ref_exists ls)
      <-> exists i : nat, ls !! i = Some Malformed /\ n = Z.of_nat i + 1)
  /\ ((n, NotAnObject) ∈ errors (report_of sha256_hex parse_iso8601 ref_exists ls)
      <-> exists i : nat, ls !! i = Some NonObject /\ n = Z.of_nat i + 1)
  /\ ((n, MissingHash) ∈ errors (report_of sha256_hex parse_iso8601 ref_exists ls)
      <-> exists (i : nat) e, ls !! i = Some (Obj e) /\ n = Z.of_nat i + 1
                              /\ nonblank_str (e !! "hash") = None)
  /\ ((n, HashMismatch) ∈ errors (report_of sha256_hex parse_iso8601 ref_exists ls)
      <-> exists (i : nat) e h, ls !! i = Some (Obj e) /\ n = Z.of_nat i + 1
                                /\ nonblank_str (e !! "hash") = Some h
                                /\ hash_event sha256_hex (delete "hash" e) <> h)
  /\ event_count (report_of sha256_hex parse_iso8601 ref_exists ls) = count_nonempty_lines (Some ls).
Proof.
  unfold report_of. set (s := scan_lines sha256_hex parse_iso8601 ref_exists 1 start ls).
  split; [done|].
  assert (forall f, own_kind f = true ->
            (n, f) ∈ errors s
            <-> exists (i : nat) l, ls !! i = Some l /\ n = Z.of_nat i + 1
                                    /\ f ∈ own_errors sha256_hex l) as Hown.
  { intros f Hf. unfold s. rewrite scan_lines_errors by done. split.
    - intros [H|(i & l & Hi & -> & Hq)]; [by apply elem_of_nil in H|].
      exists i, l. split; [done|]. split; [lia|done].
    - intros (i & l & Hi & -> & Hq). right. exists i, l. split; [done|]. split; [lia|done]. }
  repeat split.
  - intros (i & l & Hi & -> & Hq)%Hown; [|done]. exists i. split; [|done].
    by own_line l Hq.
  - intros (i & Hi & ->). apply Hown; [done|]. exists i, Malformed.
    split; [done|]. split; [done|]. by apply list_elem_of_singleton.
  - intros (i & l & Hi & -> & Hq)%Hown; [|done]. exists i. split; [|done].
    by own_line l Hq.
  - intros (i & Hi & ->). apply Hown; [done|]. exists i, NonObject.
    split; [done|]. split; [done|]. by apply list_elem_of_singleton.
  - intros (i & l & Hi & -> & Hq)%Hown; [|done].
    destruct l as [| | |e|];
      [by other_line Hq | by other_line Hq | by other_line Hq | | by other_line Hq].
    exists i, e. split; [done|]. split; [done|]. simpl in Hq.
    destruct (nonblank_str (e !! "hash")); [destruct (String.eqb _ _)|];
      first [by apply elem_of_nil in Hq | by apply list_elem_of_singleton in Hq | done].
  - intros (i & e & Hi & -> & Hnb). apply Hown; [done|]. exists i, (Obj e).
    split; [done|]. split; [done|]. simpl. rewrite Hnb. by apply list_elem_of_singleton.
  - intros (i & l & Hi & -> & Hq)%Hown; [|done].
    destruct l as [| | |e|];
      [by other_line Hq | by other_line Hq | by other_line Hq | | by other_line Hq].
    simpl in Hq. exists i, e. destruct (nonblank_str (e !! "hash")) as [h|];
      [|by apply list_elem_of_singleton in Hq].
    exists h. split; [done|]. split; [done|]. split; [done|].
    destruct (String.eqb_spec (hash_event sha256_hex (delete "hash" e)) h) as [|Hne];
      [by apply elem_of_nil in Hq | done].
  - intros (i & e & h & Hi & -> & Hnb & Hne). apply Hown; [done|]. exists i, (Obj e).
    split; [done|]. split; [done|]. simpl. rewrite Hnb.
    apply String.eqb_neq in Hne. rewrite Hne. by apply list_elem_of_singleton.
  - unfold s. by rewrite scan_lines_count.
Qed.

(** X11.  A ledger that successive [append_event] calls wrote, starting
    from an absent or empty file, passes the checks of [verify_memory.py]
    on its numbering and its chain: the file is there unless nothing was
    appended to an absent one, and no error or warning is about invalid
    JSON, a non-object, [seq], [prev_hash] or [hash].  The digest is taken
    to be non-blank, as a SHA-256 hex digest is. *)
Theorem verify_after_appends (sha256_hex : string -> string)
  (parse_iso8601 ref_exists : string -> bool)
  (start : file) (calls : list (fields * readings)) :
  (forall s, Py.strip (sha256_hex s) <> EmptyString) ->
  start = None \/ start = Some [] ->
  match verify sha256_hex parse_iso8601 ref_exists (append_all sha256_hex start calls) with
  | Some s =>
      (forall n f, (n, f) ∈ errors s ++ warnings s -> chain_finding f = false)
      /\ event_count s = Z.of_nat (length calls)
  | None => start = None /\ calls = []
  end.
Proof.
  intros Hsha Hstart.
  destruct (ChainFacts.appended_chain sha256_hex start calls Hstart) as [_ Hch].
  assert (forall s, sha256_hex s <> EmptyString) as Hne
    by (intros s Hs; apply (Hsha s); by rewrite Hs).
  destruct (LedgerFacts.append_all_objects sha256_hex Hne calls []
              (LedgerFacts.chained_nil _)) as (es & Hes & Hlen & _).
  rewrite app_nil_l in Hes.
  assert ((start = None /\ calls = [] /\ append_all sha256_hex start calls = None)
          \/ append_all sha256_hex start calls = Some (map Obj es)) as [(-> & -> & ->)|Hf].
  { destruct Hstart as [-> | ->]; [|by right].
    destruct calls as [|[a r] calls]; [by left | by right]. }
  { done. }
  rewrite Hf in Hch |- *. rewrite LedgerFacts.objects_map_Obj in Hch.
  cbn [verify fmap option_fmap option_map]. split.
  - intros n f Hin.
    pose proof (scan_lines_chain sha256_hex parse_iso8601 ref_exists Hsha (map Obj es) es 1
                  Verify.start EmptyString 0 (RepairFacts.load_lines_objects es)
                  clean_start eq_refl eq_refl (Z.le_refl 0) Hch) as Hclean.
    unfold clean in Hclean. rewrite Forall_forall in Hclean. by apply (Hclean (n, f)).
  - rewrite scan_lines_count, LedgerMore.count_objects. unfold Verify.start.
    cbn [event_count]. lia.
Qed.

Lemma verify_after_appends_witness :
  match verify Sample.sample_digest (fun _ => true) (fun _ => false)
          (append_all Sample.sample_digest None Sample.sample_calls) with
  | Some s =>
      (forall n f, (n, f) ∈ errors s ++ warnings s -> chain_finding f = false)
      /\ event_count s = Z.of_nat (length Sample.sample_calls)
  | None => @None file = None /\ Sample.sample_calls = []
  end.
Proof.
  apply (verify_after_appends Sample.sample_digest (fun _ => true) (fun _ => false)
           None Sample.sample_calls); [apply sample_digest_nonblank | by left].
Defined.

(** X12.  What the repair script writes passes the same checks: after a
    run of [repair_events_chain.py] that is no dry run and ends in
    [repaired], [verify_memory.py] finds the events file and reports no
    error or warning about invalid JSON, a non-object, [seq], [prev_hash]
    or [hash].  The digest is taken to be non-blank. *)
Theorem verify_after_repair (sha256_hex : string -> string)
  (parse_iso8601 ref_exists : string -> bool) (f : file) (stamp : string) :
  (forall s, Py.strip (sha256_hex s) <> EmptyString) ->
  Repair.rep_status (Repair.main sha256_hex f false stamp) = Repair.Repaired ->
  exists s,
    verify sha256_hex parse_iso8601 ref_exists
      (Repair.rep_events_file (Repair.main sha256_hex f false stamp)) = Some s
    /\ forall n g, (n, g) ∈ errors s ++ warnings s -> chain_finding g = false.
Proof.
  intros Hsha. unfold Repair.main.
  destruct (Repair.load_events f) as [[|e es]|] eqn:Hload; [done| |done].
  set (events := e :: es) in *.
  pose proof (ChainFacts.normalize_from_chain sha256_hex EmptyString 0 events) as Hch.
  fold (Repair.normalize_chain sha256_hex events) in Hch.
  cbn [negb]. destruct (Repair.changed events (Repair.normalize_chain sha256_hex events));
    cbn [negb Repair.rep_status Repair.rep_events_file]; [intros _|done].
  destruct (verify_chain sha256_hex parse_iso8601 ref_exists Hsha
              (map Obj (Repair.normalize_chain sha256_hex events)) _
              (RepairFacts.load_lines_objects _) Hch) as (s & Hv & Hclean).
  exists s. split; [done|]. intros n g Hin.
  unfold clean in Hclean. rewrite Forall_forall in Hclean. by apply (Hclean (n, g)).
Qed.

Lemma verify_after_repair_witness :
  exists s,
    verify Sample.sample_digest (fun _ => true) (fun _ => false)
      (Repair.rep_events_file
         (Repair.main Sample.sample_digest (Some (map Obj Sample.stale)) false "20260301T120000Z"))
    = Some s
    /\ forall n g, (n, g) ∈ errors s ++ warnings s -> chain_finding g = false.
Proof.
  apply (verify_after_repair Sample.sample_digest (fun _ => true) (fun _ => false)
           (Some (map Obj Sample.stale)) "20260301T120000Z");
    [apply sample_digest_nonblank | vm_compute; reflexivity].
Defined.

(** A run that ends in [already consistent] promises less: the file with
    [seq: true] that it leaves alone has a hash that does not match. *)
Example verify_after_already_consistent :
  let odd := map (insert "seq" (JBool true))
               (Repair.normalize_chain Sample.sample_digest
                  [ <["summary" := JStr "first"]> ∅ ]) in
  Repair.rep_status (Repair.main Sample.sample_digest (Some (map Obj odd)) false
                       "20260301T120000Z") = Repair.AlreadyConsistent
  /\ (errors <$> verify Sample.sample_digest (fun _ => true) (fun _ => false)
                   (Some (map Obj odd)))
     = Some [ (1, InvalidEventId); (1, InvalidTimestamp); (1, HashMismatch) ].
Proof. vm_compute. done. Qed.

End VerifyFacts.

(** ** More on the context operations *)

Module ContextOpsMore.

Import ContextOps.
Import Sample.
Import ContextOpsFacts.

Section Operations.

Variable sha256_hex : string -> string.

Lemma read_refs_store st r :
  commit_files (read_refs st r).2 = commit_files st
  /\ artifacts (read_refs st r).2 = artifacts st
  /\ events (read_refs st r).2 = events st
  /\ is_Some (refs_file (read_refs st r).2).
Proof. unfold read_refs. destruct (refs_file st) eqn:Hrf; cbn; rewrite ?Hrf; eauto. Qed.

Lemma read_refs_active st r :
  Py.strip (active_branch (read_refs st r).1) <> EmptyString.
Proof.
  unfold read_refs.
  destruct (refs_file st) as [rf|]; cbn [fst].
  - destruct (String.eqb_spec (Py.strip (active_branch rf)) EmptyString); [|done].
    by vm_compute.
  - by vm_compute.
Qed.

Lemma record_event_events st a r needed text payload :
  events (record_event sha256_hex st a r needed text payload) = events st
  \/ exists e, events (record_event sha256_hex st a r needed text payload)
               = Ledger.append_jsonl (events st) e.
Proof.
  unfold record_event. destruct (_ && _); [|by left]. right.
  eexists. cbn [with_events events]. reflexivity.
Qed.

Lemma record_event_off st a r needed text payload :
  arg_record_event a = Off ->
  record_event sha256_hex st a r needed text payload = st.
Proof. unfold record_event. by intros ->. Qed.

Lemma record_event_unneeded st a r text payload :
  arg_record_event a = OnChange ->
  record_event sha256_hex st a r false text payload = st.
Proof. unfold record_event. by intros ->. Qed.

Lemma create_commit_store st r branch parents message meta tracked :
  let cid := (create_commit sha256_hex st r branch parents message meta tracked).1 in
  let st' := (create_commit sha256_hex st r branch parents message meta tracked).2 in
  (exists payload, commit_files st' = <[cid := payload]> (commit_files st)
                   /\ payload !! "commit_id" = Some (JStr cid))
  /\ refs_file st' = refs_file st
  /\ artifacts st' = artifacts st
  /\ events st' = events st.
Proof.
  unfold create_commit. cbn [fst snd commit_files refs_file artifacts events].
  split; [|done]. eexists. split; [done|]. apply lookup_insert_eq.
Qed.

(** What a run may do to a store: leave the tracked entries alone, write at
    most one commit file, write at most one record at the end of the
    ledger. *)
Definition bounded (st st' : store) : Prop :=
  artifacts st' = artifacts st
  /\ (commit_files st' = commit_files st
      \/ exists cid payload, commit_files st' = <[cid := payload]> (commit_files st)
                             /\ payload !! "commit_id" = Some (JStr cid))
  /\ (events st' = events st
      \/ exists e, events st' = Ledger.append_jsonl (events st) e)
  /\ is_Some (refs_file st').

Lemma bounded_refl st : is_Some (refs_file st) -> bounded st st.
Proof. intros H. repeat split; auto. Qed.

Lemma bounded_write st rf r a needed text payload :
  bounded st (record_event sha256_hex (write_refs st rf r) a r needed text payload).
Proof.
  destruct (record_event_refs sha256_hex (write_refs st rf r) a r needed text payload)
    as (Hr & Hc & Ha).
  split; [by rewrite Ha|]. split; [left; by rewrite Hc|].
  split; [apply (record_event_events (write_refs st rf r))|].
  rewrite Hr. cbn. eauto.
Qed.

Lemma bounded_commit st rf r a needed text payload branch parents message meta tracked :
  bounded st
    (record_event sha256_hex
       (write_refs (create_commit sha256_hex st r branch parents message meta tracked).2 rf r)
       a r needed text payload).
Proof.
  destruct (create_commit_store st r branch parents message meta tracked)
    as ((p & Hcf & Hp) & _ & Hart & Hev).
  set (st1 := (create_commit sha256_hex st r branch parents message meta tracked).2) in *.
  destruct (record_event_refs sha256_hex (write_refs st1 rf r) a r needed text payload)
    as (Hr & Hc & Ha).
  split; [by rewrite Ha|]. split; [right; rewrite Hc; cbn; eauto|].
  split.
  - destruct (record_event_events (write_refs st1 rf r) a r needed text payload) as [He|[e He]].
    + left. rewrite He. by cbn.
    + right. exists e. rewrite He. cbn [write_refs events]. by rewrite Hev.
  - rewrite Hr. cbn. eauto.
Qed.

Lemma do_branch_bounded st rf a r :
  is_Some (refs_file st) -> bounded st (final (do_branch sha256_hex st rf a r)).
Proof.
  intros Hsome. unfold do_branch.
  destruct (String.eqb _ _); [by apply bounded_refl|].
  destruct (decide _); [by apply bounded_refl|]. apply bounded_write.
Qed.

Lemma do_switch_bounded st rf a r :
  is_Some (refs_file st) -> bounded st (final (do_switch sha256_hex st rf a r)).
Proof.
  intros Hsome. unfold do_switch.
  destruct (String.eqb _ _); [by apply bounded_refl|].
  destruct (decide _); [|by apply bounded_refl]. apply bounded_write.
Qed.

Lemma do_commit_bounded st rf a r :
  is_Some (refs_file st) -> bounded st (final (do_commit sha256_hex st rf a r)).
Proof.
  intros Hsome. unfold do_commit.
  destruct (decide _); [|by apply bounded_refl].
  set (branch_name := Py.or_str (Py.strip (arg_branch a)) (active_branch rf)).
  set (parents := match head_of _ _ with Some p => _ | None => _ end).
  set (message := Py.or_str (Py.strip (arg_message a)) _).
  pose proof (fun rf' needed text payload =>
                bounded_commit st rf' r a needed text payload branch_name parents message
                  (arg_meta a) DEFAULT_TRACKED_FILES) as Hb.
  destruct (create_commit sha256_hex st r branch_name parents message (arg_meta a)
              DEFAULT_TRACKED_FILES) as [cid st1].
  cbn [final]. apply Hb.
Qed.

Lemma do_merge_bounded st rf a r :
  is_Some (refs_file st) -> bounded st (final (do_merge sha256_hex st rf a r)).
Proof.
  intros Hsome. unfold do_merge.
  destruct (String.eqb _ _); [by apply bounded_refl|].
  destruct (negb _); [by apply bounded_refl|].
  destruct (negb _); [by apply bounded_refl|].
  destruct (negb _); [by apply bounded_refl|].
  destruct (bool_decide _); [by apply bounded_refl|].
  set (target := Py.or_str (Py.strip (arg_target a)) (active_branch rf)).
  set (parents := merge_parents _ _). set (message := Py.or_str (Py.strip (arg_message a)) _).
  set (meta := arg_meta a ∪ _).
  pose proof (fun rf' needed text payload =>
                bounded_commit st rf' r a needed text payload target parents message
                  meta DEFAULT_TRACKED_FILES) as Hb.
  destruct (create_commit sha256_hex st r target parents message meta DEFAULT_TRACKED_FILES)
    as [cid st1].
  cbn [final]. apply Hb.
Qed.

Lemma bounded_read_refs st r st' :
  bounded (read_refs st r).2 st' -> bounded st st'.
Proof.
  destruct (read_refs_store st r) as (Hc & Ha & He & _).
  unfold bounded. by rewrite Hc, Ha, He.
Qed.

Lemma exit_codes st a r :
  exit_code (main sha256_hex st a r) = 0 \/ exit_code (main sha256_hex st a r) = 2.
Proof.
  unfold main. destruct (read_refs st r) as [rf st0].
  destruct (arg_action a); cbn [exit_code]; auto.
  - unfold do_commit. destruct (decide _); [|by right].
    destruct (create_commit _ _ _ _ _ _ _ _). by left.
  - unfold do_branch. repeat (destruct (String.eqb _ _) || destruct (decide _)); auto.
  - unfold do_switch. repeat (destruct (String.eqb _ _) || destruct (decide _)); auto.
  - unfold do_merge. destruct (String.eqb _ _); [by right|].
    destruct (negb _); [by right|]. destruct (negb _); [by right|].
    destruct (negb _); [by right|]. destruct (bool_decide _); [by left|].
    destruct (create_commit _ _ _ _ _ _ _ _). by left.
Qed.

Lemma failed_final st a r :
  exit_code (main sha256_hex st a r) = 2 ->
  final (main sha256_hex st a r) = (read_refs st r).2
  /\ exists msg, output (main sha256_hex st a r) = Error msg.
Proof.
  unfold main. destruct (read_refs st r) as [rf st0]. cbn [snd].
  destruct (arg_action a); cbn [exit_code]; try done.
  - unfold do_commit. destruct (decide _); [|cbn; eauto].
    by destruct (create_commit _ _ _ _ _ _ _ _).
  - unfold do_branch. destruct (String.eqb _ _); [cbn; eauto|].
    destruct (decide _); [cbn; eauto|done].
  - unfold do_switch. destruct (String.eqb _ _); [cbn; eauto|].
    destruct (decide _); [done|cbn; eauto].
  - unfold do_merge. destruct (String.eqb _ _); [cbn; eauto|].
    destruct (negb _); [cbn; eauto|]. destruct (negb _); [cbn; eauto|].
    destruct (negb _); [cbn; eauto|]. destruct (bool_decide _); [done|].
    by destruct (create_commit _ _ _ _ _ _ _ _).
Qed.

Lemma quiet_events st a r :
  arg_record_event a = Off \/ arg_action a = Init \/ arg_action a = Status ->
  events (final (main sha256_hex st a r)) = events st.
Proof.
  intros Hq. destruct (read_refs_store st r) as (_ & _ & He & _). rewrite <- He.
  unfold main. destruct (read_refs st r) as [rf st0]. cbn [snd].
  destruct (arg_action a) eqn:Hact; try done;
    (destruct Hq as [Hoff|[?|?]]; [|done|done]).
  - unfold do_commit. destruct (decide _); [|done].
    set (branch_name := Py.or_str (Py.strip (arg_branch a)) (active_branch rf)).
    set (parents := match head_of _ _ with Some p => _ | None => _ end).
    set (message := Py.or_str (Py.strip (arg_message a)) _).
    destruct (create_commit_store st0 r branch_name parents message (arg_meta a)
                DEFAULT_TRACKED_FILES) as (_ & _ & _ & Hev).
    destruct (create_commit sha256_hex st0 r branch_name parents message (arg_meta a)
                DEFAULT_TRACKED_FILES) as [cid st1].
    cbn [final]. by rewrite record_event_off.
  - unfold do_branch. destruct (String.eqb _ _); [done|]. destruct (decide _); [done|].
    cbn [final]. by rewrite record_event_off.
  - unfold do_switch. destruct (String.eqb _ _); [done|]. destruct (decide _); [|done].
    cbn [final]. by rewrite record_event_off.
  - unfold do_merge. destruct (String.eqb _ _); [done|].
    destruct (negb _); [done|]. destruct (negb _); [done|].
    destruct (negb _); [done|]. destruct (bool_decide _); [done|].
    set (target := Py.or_str (Py.strip (arg_target a)) (active_branch rf)).
    set (parents := merge_parents _ _).
    set (message := Py.or_str (Py.strip (arg_message a)) _).
    set (meta := arg_meta a ∪ _).
    destruct (create_commit_store st0 r target parents message meta DEFAULT_TRACKED_FILES)
      as (_ & _ & _ & Hev).
    destruct (create_commit sha256_hex st0 r target parents message meta DEFAULT_TRACKED_FILES)
      as [cid st1].
    cbn [final]. by rewrite record_event_off.
Qed.

Lemma snapshot_fold (fs : gmap string fs_entry) (files : list string)
  (acc : gmap string jvalue) (k : string) :
  foldl (fun snaps rel =>
           let rel_norm := Py.strip rel in
           if String.eqb rel_norm EmptyString then snaps
           else <[rel_norm := snapshot_entry sha256_hex fs rel_norm]> snaps) acc files !! k
  = if bool_decide (k <> EmptyString /\ k ∈ Py.strip <$> files)
    then Some (snapshot_entry sha256_hex fs k)
    else acc !! k.
Proof.
  revert acc. induction files as [|rel files IH]; intros acc.
  - cbn [foldl]. rewrite bool_decide_eq_false_2; [done|].
    intros (_ & Hin). by apply elem_of_nil in Hin.
  - cbn [foldl]. rewrite IH. clear IH. rewrite fmap_cons.
    destruct (decide (k <> EmptyString /\ k ∈ Py.strip <$> files)) as [Hin|Hout].
    + rewrite !bool_decide_eq_true_2; [done| |done].
      destruct Hin as (Hk & Hin). split; [done|]. set_solver.
    + rewrite (bool_decide_eq_false_2 _ Hout).
      destruct (String.eqb_spec (Py.strip rel) EmptyString) as [Hblank|Hfull].
      * rewrite bool_decide_eq_false_2; [done|].
        intros (Hk & [->|Hin]%elem_of_cons); [congruence|]. by apply Hout.
      * destruct (decide (Py.strip rel = k)) as [<-|Hne].
        -- rewrite lookup_insert_eq, bool_decide_eq_true_2; [done|]. set_solver.
        -- rewrite lookup_insert_ne by done. rewrite bool_decide_eq_false_2; [done|].
           intros (Hk & [->|Hin]%elem_of_cons); [congruence|]. by apply Hout.
Qed.

End Operations.

(** X13.  Whatever the action and the arguments, a run of [context_ops.py]
    whose [--meta-json] parses exits with status 0 or 2, leaves [refs.json]
    in place, never touches the tracked entries of the memory root, writes
    at most one commit file (which records its own id), and writes at most
    one record at the end of the event ledger: where the ledger is absent,
    empty or ends in a newline, that adds at most one line, which holds
    the record. *)
Theorem run_effects (sha256_hex : string -> string) (st : store) (a : args) (r : readings) :
  (exit_code (main sha256_hex st a r) = 0 \/ exit_code (main sha256_hex st a r) = 2)
  /\ is_Some (refs_file (final (main sha256_hex st a r)))
  /\ artifacts (final (main sha256_hex st a r)) = artifacts st
  /\ (commit_files (final (main sha256_hex st a r)) = commit_files st
      \/ exists cid payload,
           commit_files (final (main sha256_hex st a r)) = <[cid := payload]> (commit_files st)
           /\ payload !! "commit_id" = Some (JStr cid))
  /\ (events (final (main sha256_hex st a r)) = events st
      \/ exists e, events (final (main sha256_hex st a r))
                   = Ledger.append_jsonl (events st) e
                   /\ (Ledger.terminated (events st) = true ->
                       events (final (main sha256_hex st a r))
                       = Some (Ledger.lines_of (events st) ++ [Ledger.Obj e]))).
Proof.
  split; [apply exit_codes|].
  assert (bounded st (final (main sha256_hex st a r))) as (Ha & Hc & He & Hr).
  { apply (bounded_read_refs st r).
    destruct (read_refs_store st r) as (_ & _ & _ & Hsome).
    unfold main. destruct (read_refs st r) as [rf st0]. cbn [snd] in *.
    destruct (arg_action a).
    - cbn [final]. repeat split; cbn; eauto.
    - by apply bounded_refl.
    - by apply do_commit_bounded.
    - by apply do_branch_bounded.
    - by apply do_switch_bounded.
    - by apply do_merge_bounded. }
  split; [done|]. split; [done|]. split; [done|].
  destruct He as [He|[e He]]; [by left|]. right. exists e. split; [done|].
  intros Hterm. rewrite He. by apply LedgerFacts.append_jsonl_terminated.
Qed.

(** X14.  A run that exits with status 2 printed an error line and changed
    nothing: the store is as [_read_refs] left it, so no commit file was
    written, no event recorded, and [refs.json] was at most created with
    its defaults where it was missing. *)
Theorem failed_run_changes_nothing (sha256_hex : string -> string)
  (st : store) (a : args) (r : readings) :
  exit_code (main sha256_hex st a r) = 2 ->
  (exists msg, output (main sha256_hex st a r) = Error msg)
  /\ final (main sha256_hex st a r) = (read_refs st r).2
  /\ commit_files (final (main sha256_hex st a r)) = commit_files st
  /\ events (final (main sha256_hex st a r)) = events st
  /\ (forall rf, refs_file st = Some rf -> final (main sha256_hex st a r) = st).
Proof.
  intros Hexit. destruct (failed_final sha256_hex st a r Hexit) as [Hfinal Hmsg].
  destruct (read_refs_store st r) as (Hc & _ & He & _).
  rewrite Hfinal. repeat split; try done.
  intros rf Hrf. by apply (read_refs_present st r rf).
Qed.

Lemma failed_run_changes_nothing_witness :
  (exists msg, output (main sample_digest (ops_store headless)
                         (ops_args Switch "nowhere" EmptyString EmptyString EmptyString)
                         ops_readings) = Error msg)
  /\ final (main sample_digest (ops_store headless)
              (ops_args Switch "nowhere" EmptyString EmptyString EmptyString) ops_readings)
     = (read_refs (ops_store headless) ops_readings).2
  /\ commit_files (final (main sample_digest (ops_store headless)
                            (ops_args Switch "nowhere" EmptyString EmptyString EmptyString)
                            ops_readings))
     = commit_files (ops_store headless)
  /\ events (final (main sample_digest (ops_store headless)
                      (ops_args Switch "nowhere" EmptyString EmptyString EmptyString)
                      ops_readings))
     = events (ops_store headless)
  /\ (forall rf, refs_file (ops_store headless) = Some rf ->
        final (main sample_digest (ops_store headless)
                 (ops_args Switch "nowhere" EmptyString EmptyString EmptyString) ops_readings)
        = ops_store headless).
Proof.
  apply (failed_run_changes_nothing sample_digest (ops_store headless)
           (ops_args Switch "nowhere" EmptyString EmptyString EmptyString) ops_readings).
  vm_compute. reflexivity.
Defined.

(** X15.  [--action switch] succeeds exactly when the trimmed name is not
    empty and names a branch.  It then makes that branch the active one and
    changes nothing else of the ref set: every branch keeps its head, and
    no commit file is written.  With [--record-event on-change] a switch
    to the branch that is already active records no event. *)
Theorem switch_moves_active_only (sha256_hex : string -> string)
  (st : store) (a : args) (r : readings) :
  let rf := (read_refs st r).1 in
  let name := Py.strip (arg_name a) in
  let res := main sha256_hex st a r in
  arg_action a = Switch ->
  (exit_code res = 0 <-> name <> EmptyString /\ is_Some (branches rf !! name))
  /\ (exit_code res = 0 ->
      (active_branch <$> refs_file (final res)) = Some name
      /\ (branches <$> refs_file (final res)) = Some (branches rf)
      /\ commit_files (final res) = commit_files st
      /\ (arg_record_event a = OnChange -> name = active_branch rf ->
          events (final res) = events st)).
Proof.
  intros rf name res Hact.
  destruct (read_refs_store st r) as (Hc & _ & He & _).
  subst res. unfold main. destruct (read_refs st r) as [rf0 st0] eqn:Hread.
  cbn [fst snd] in *. subst rf. rewrite Hact. unfold do_switch. fold name.
  destruct (String.eqb_spec name EmptyString) as [Hblank|Hname].
  { cbn. split; [|done]. split; [done|]. by intros [? _]. }
  destruct (decide (is_Some (branches rf0 !! name))) as [Hin|Hout].
  - cbn [exit_code final]. split; [done|]. intros _.
    destruct (record_event_refs sha256_hex (write_refs st0 (with_active rf0 name) r) a r
                (negb (String.eqb name (active_branch rf0)))
                ("context branch switched to " +:+ name)
                [("from", JStr (active_branch rf0)); ("to", JStr name)]) as (-> & -> & _).
    cbn. repeat split; try done.
    intros Hpol ->. rewrite String.eqb_refl. cbn [negb].
    by rewrite record_event_unneeded.
  - cbn. split; [|done]. split; [done|]. by intros [_ ?].
Qed.

Lemma switch_moves_active_only_witness :
  (exit_code (main sample_digest (ops_store two_heads)
                (ops_args Switch " dev" EmptyString EmptyString EmptyString) ops_readings) = 0
   <-> "dev" <> EmptyString
       /\ is_Some (branches (read_refs (ops_store two_heads) ops_readings).1 !! "dev"))
  /\ (exit_code (main sample_digest (ops_store two_heads)
                   (ops_args Switch " dev" EmptyString EmptyString EmptyString) ops_readings)
      = 0 ->
      (active_branch <$> refs_file
         (final (main sample_digest (ops_store two_heads)
                   (ops_args Switch " dev" EmptyString EmptyString EmptyString)
                   ops_readings))) = Some "dev"
      /\ (branches <$> refs_file
            (final (main sample_digest (ops_store two_heads)
                      (ops_args Switch " dev" EmptyString EmptyString EmptyString)
                      ops_readings))) = Some two_heads
      /\ commit_files
           (final (main sample_digest (ops_store two_heads)
                     (ops_args Switch " dev" EmptyString EmptyString EmptyString)
                     ops_readings)) = ∅
      /\ (OnChange = OnChange -> "dev" = "main" ->
          events (final (main sample_digest (ops_store two_heads)
                           (ops_args Switch " dev" EmptyString EmptyString EmptyString)
                           ops_readings)) = None)).
Proof.
  apply (switch_moves_active_only sample_digest (ops_store two_heads)
           (ops_args Switch " dev" EmptyString EmptyString EmptyString) ops_readings).
  reflexivity.
Defined.

(** X16.  [--action commit] on a known branch (the trimmed [--branch], or
    the active branch where that is empty) exits with status 0, makes the
    branch active and points it at a new commit whose [parents] hold the
    previous head, or nothing where the branch had no head or an empty
    one.  Every other branch keeps its head. *)
Theorem commit_advances_head (sha256_hex : string -> string)
  (st : store) (a : args) (r : readings) (h : option string) :
  let rf := (read_refs st r).1 in
  let b := Py.or_str (Py.strip (arg_branch a)) (active_branch rf) in
  let res := main sha256_hex st a r in
  arg_action a = Commit ->
  branches rf !! b = Some h ->
  exit_code res = 0
  /\ (active_branch <$> refs_file (final res)) = Some b
  /\ head_commit_parents (final res) b
     = Some (JArr (if head_truthy h then [head_json h] else []))
  /\ (forall other, other <> b ->
        (refs_file (final res) ≫= fun rf' => branches rf' !! other) = branches rf !! other).
Proof.
  intros rf b res Hact Hb.
  subst res. unfold main. destruct (read_refs st r) as [rf0 st0] eqn:Hread.
  cbn [fst] in rf. subst rf. rewrite Hact. unfold do_commit. fold b.
  destruct (decide (is_Some (branches rf0 !! b))) as [_|Hout]; [|by destruct Hout; eauto].
  rewrite (head_of_lookup _ _ _ Hb).
  set (parents := match h with Some p => if head_truthy h then [p] else [] | None => [] end).
  assert (map JStr parents = (if head_truthy h then [head_json h] else [])) as Hparents.
  { subst parents. destruct h as [p|]; [|done]. by destruct (head_truthy (Some p)). }
  set (message := Py.or_str (Py.strip (arg_message a)) _).
  pose proof (create_commit_parents sha256_hex st0 r b parents message (arg_meta a)
                DEFAULT_TRACKED_FILES) as (payload & Hfile & Hpar & _ & _ & _).
  destruct (create_commit sha256_hex st0 r b parents message (arg_meta a)
              DEFAULT_TRACKED_FILES) as [cid st1] eqn:Hcc.
  cbn [fst snd] in Hfile. cbn [exit_code final]. split; [done|].
  unfold head_commit_parents.
  destruct (record_event_refs sha256_hex
              (write_refs st1
                 (with_active (with_branches rf0 (<[b:=Some cid]> (branches rf0))) b) r)
              a r true ("context commit " +:+ cid +:+ " on " +:+ b)
              [("branch", JStr b); ("commit_id", JStr cid);
               ("parents", JArr (map JStr parents));
               ("commit_path", JStr (commit_path a cid))]) as (-> & -> & _).
  cbn. split; [done|]. split.
  - rewrite lookup_insert_eq. cbn. rewrite Hfile. cbn. by rewrite Hpar, Hparents.
  - intros other Hne. by rewrite lookup_insert_ne.
Qed.

Lemma commit_advances_head_witness :
  exit_code (main sample_digest (ops_store two_heads)
               (ops_args Commit EmptyString EmptyString EmptyString EmptyString)
               ops_readings) = 0
  /\ (active_branch <$> refs_file
        (final (main sample_digest (ops_store two_heads)
                  (ops_args Commit EmptyString EmptyString EmptyString EmptyString)
                  ops_readings))) = Some "main"
  /\ head_commit_parents
       (final (main sample_digest (ops_store two_heads)
                 (ops_args Commit EmptyString EmptyString EmptyString EmptyString)
                 ops_readings)) "main"
     = Some (JArr [JStr "ctx-1"])
  /\ (forall other, other <> "main" ->
        (refs_file
           (final (main sample_digest (ops_store two_heads)
                     (ops_args Commit EmptyString EmptyString EmptyString EmptyString)
                     ops_readings)) ≫= fun rf' => branches rf' !! other)
        = two_heads !! other).
Proof.
  apply (commit_advances_head sample_digest (ops_store two_heads)
           (ops_args Commit EmptyString EmptyString EmptyString EmptyString) ops_readings
           (Some "ctx-1")); reflexivity.
Defined.

(** X17.  [--action branch] with a free, non-empty name and a [--from] that
    is empty or names a branch creates the branch at the head of that
    branch (of the active branch where [--from] is empty), whatever that
    head is, and does not switch to it: the active branch stays, and no
    commit file is written. *)
Theorem branch_from_branch (sha256_hex : string -> string)
  (st : store) (a : args) (r : readings) (h : option string) :
  let rf := (read_refs st r).1 in
  let name := Py.strip (arg_name a) in
  let src := Py.or_str (Py.strip (arg_from_ref a)) (active_branch rf) in
  let res := main sha256_hex st a r in
  arg_action a = Branch ->
  name <> EmptyString ->
  branches rf !! name = None ->
  branches rf !! src = Some h ->
  exit_code res = 0
  /\ (branches <$> refs_file (final res)) = Some (<[name := h]> (branches rf))
  /\ (active_branch <$> refs_file (final res)) = Some (active_branch rf)
  /\ commit_files (final res) = commit_files st.
Proof.
  intros rf name src res Hact Hname Hfree Hsrc.
  destruct (read_refs_store st r) as (Hc & _ & _ & _).
  subst res. unfold main. destruct (read_refs st r) as [rf0 st0] eqn:Hread.
  cbn [fst snd] in *. subst rf. rewrite Hact. unfold do_branch. fold name.
  apply String.eqb_neq in Hname. rewrite Hname.
  destruct (decide (is_Some (branches rf0 !! name))) as [[h' Hh]|_]; [congruence|].
  assert (resolve_from_ref rf0 (arg_from_ref a) = h) as ->.
  { unfold resolve_from_ref. subst src. unfold Py.or_str in Hsrc.
    destruct (String.eqb (Py.strip (arg_from_ref a)) EmptyString).
    - by apply head_of_lookup.
    - by rewrite Hsrc. }
  cbn [exit_code final]. split; [done|].
  destruct (record_event_refs sha256_hex
              (write_refs st0 (with_branches rf0 (<[name:=h]> (branches rf0))) r)
              a r true ("context branch created " +:+ name)
              [("branch", JStr name);
               ("from", JStr (Py.or_str (Py.strip (arg_from_ref a)) (active_branch rf0)));
               ("head", head_json h)]) as (-> & -> & _).
  by cbn.
Qed.

Lemma branch_from_branch_witness :
  exit_code (main sample_digest (ops_store two_heads)
               (ops_args Branch "topic" "dev" EmptyString EmptyString) ops_readings) = 0
  /\ (branches <$> refs_file
        (final (main sample_digest (ops_store two_heads)
                  (ops_args Branch "topic" "dev" EmptyString EmptyString) ops_readings)))
     = Some (<["topic" := Some "ctx-2"]> two_heads)
  /\ (active_branch <$> refs_file
        (final (main sample_digest (ops_store two_heads)
                  (ops_args Branch "topic" "dev" EmptyString EmptyString) ops_readings)))
     = Some "main"
  /\ commit_files
       (final (main sample_digest (ops_store two_heads)
                 (ops_args Branch "topic" "dev" EmptyString EmptyString) ops_readings))
     = ∅.
Proof.
  apply (branch_from_branch sample_digest (ops_store two_heads)
           (ops_args Branch "topic" "dev" EmptyString EmptyString) ops_readings
           (Some "ctx-2")).
  - reflexivity.
  - discriminate.
  - reflexivity.
  - reflexivity.
Defined.

(** A run records no event when [--record-event] is [off], and none
    for [init], [status] and [list] whatever the policy. *)
Theorem quiet_runs_record_nothing (sha256_hex : string -> string)
  (st : store) (a : args) (r : readings) :
  arg_record_event a = Off \/ arg_action a = Init \/ arg_action a = Status ->
  events (final (main sha256_hex st a r)) = events st.
Proof. apply quiet_events. Qed.

Lemma quiet_runs_record_nothing_witness :
  events (final (main sample_digest (ops_store two_heads)
                   (ops_args Init EmptyString EmptyString EmptyString EmptyString)
                   ops_readings))
  = events (ops_store two_heads).
Proof.
  apply (quiet_runs_record_nothing sample_digest (ops_store two_heads)
           (ops_args Init EmptyString EmptyString EmptyString EmptyString) ops_readings).
  right. left. reflexivity.
Defined.

(** X18.  [_snapshot_files] keys its entries by the trimmed paths: a key is
    present exactly when it is not empty and is the trimmed form of a
    listed path, and its entry then describes the file system entry of
    that trimmed path, however often and in whatever spelling the path is
    listed. *)
Theorem snapshot_files_entries (sha256_hex : string -> string)
  (fs : gmap string fs_entry) (files : list string) (k : string) :
  (is_Some (snapshot_files sha256_hex fs files !! k)
   <-> k <> EmptyString /\ exists rel, rel ∈ files /\ Py.strip rel = k)
  /\ (forall v, snapshot_files sha256_hex fs files !! k = Some v ->
        v = snapshot_entry sha256_hex fs k).
Proof.
  unfold snapshot_files. rewrite snapshot_fold.
  assert (k ∈ Py.strip <$> files <-> exists rel, rel ∈ files /\ Py.strip rel = k) as Hmem.
  { rewrite list_elem_of_fmap. split; intros (rel & H1 & H2); eauto. }
  destruct (decide (k <> EmptyString /\ k ∈ Py.strip <$> files)) as [Hin|Hout].
  - rewrite bool_decide_eq_true_2 by done. rewrite <- Hmem.
    split; [by split; eauto|]. by intros v [= <-].
  - rewrite bool_decide_eq_false_2 by done. rewrite lookup_empty, <- Hmem. split; [|done].
    split; [by intros [? ?]|done].
Qed.

End ContextOpsMore.

(** ** More on the rehydration *)

Module RehydrateMore.

Import Rehydrate.

(** *** The packing loop *)

Lemma pack_step_budget (budget cap : Z) (p : packing) (c : string * string * Z) :
  budget <= cap -> used_tokens p <= cap ->
  used_tokens p <= used_tokens (pack_step budget p c)
  /\ used_tokens (pack_step budget p c) <= cap.
Proof.
  intros Hcap Hp. destruct c as [[title body] priority]. unfold pack_step.
  destruct (String.eqb (Py.strip body) EmptyString); [lia|].
  pose proof (PyFacts.approx_tokens_pos (block_text title body)) as Hpos.
  destruct (Z.leb_spec (used_tokens p + Py.approx_tokens (block_text title body)) budget);
    cbn [used_tokens]; lia.
Qed.

Lemma pack_steps_budget (budget cap : Z) (cands : list (string * string * Z)) (p : packing) :
  budget <= cap -> used_tokens p <= cap ->
  used_tokens p <= used_tokens (foldl (pack_step budget) p cands)
  /\ used_tokens (foldl (pack_step budget) p cands) <= cap.
Proof.
  intros Hcap. revert p. induction cands as [|c cands IH]; intros p Hp; cbn [foldl]; [lia|].
  destruct (pack_step_budget budget cap p c Hcap Hp) as [Hlo Hhi].
  destruct (IH (pack_step budget p c) Hhi). lia.
Qed.

(** The bodies that the loop does not skip. *)
Definition with_body (c : string * string * Z) : bool :=
  negb (String.eqb (Py.strip c.1.2) EmptyString).

Definition shown (e : planned) : string * Z := (pl_title e, pl_priority e).

Definition left_out (e : planned) : bool := negb (pl_included e).

Lemma pack_step_trace (budget : Z) (p : packing) (c : string * string * Z) :
  map shown (planner_trace (pack_step budget p c))
  = map shown (planner_trace p)
    ++ map (fun c : string * string * Z => (c.1.1, c.2)) (List.filter with_body [c])
  /\ (omitted_titles p = map pl_title (List.filter left_out (planner_trace p)) ->
      omitted_titles (pack_step budget p c)
      = map pl_title (List.filter left_out (planner_trace (pack_step budget p c))))
  /\ (length (selected_blocks (pack_step budget p c)) + length (included_titles p)
      = length (selected_blocks p) + length (included_titles (pack_step budget p c)))%nat.
Proof.
  destruct c as [[title body] priority]. unfold pack_step, with_body, included_titles.
  cbn [List.filter fst snd].
  destruct (String.eqb (Py.strip body) EmptyString); cbn [negb map].
  - rewrite app_nil_r. repeat split; try done; lia.
  - destruct (_ <=? _); cbn [planner_trace omitted_titles selected_blocks];
      rewrite !List.filter_app, !map_app, ?length_app;
      cbn [List.filter map left_out pl_included pl_title negb length shown pl_priority];
      rewrite ?app_nil_r, ?length_app; cbn [length]; repeat split; try done; try lia.
    by intros ->.
Qed.

Lemma pack_steps_trace (budget : Z) (cands : list (string * string * Z)) (p : packing) :
  omitted_titles p = map pl_title (List.filter left_out (planner_trace p)) ->
  map shown (planner_trace (foldl (pack_step budget) p cands))
  = map shown (planner_trace p)
    ++ map (fun c : string * string * Z => (c.1.1, c.2)) (List.filter with_body cands)
  /\ omitted_titles (foldl (pack_step budget) p cands)
     = map pl_title (List.filter left_out (planner_trace (foldl (pack_step budget) p cands)))
  /\ (length (selected_blocks (foldl (pack_step budget) p cands))
      + length (included_titles p)
      = length (selected_blocks p)
        + length (included_titles (foldl (pack_step budget) p cands)))%nat.
Proof.
  revert p. induction cands as [|c cands IH]; intros p Hom; cbn [foldl].
  - cbn [List.filter map]. by rewrite app_nil_r.
  - destruct (pack_step_trace budget p c) as (Ht & Ho & Hd).
    destruct (IH (pack_step budget p c) (Ho Hom)) as (Ht' & Ho' & Hd').
    split; [|split; [done|lia]].
    rewrite Ht', Ht, <- app_assoc, <- map_app. do 2 f_equal.
    change (c :: cands) with ([c] ++ cands). by rewrite List.filter_app.
Qed.

(** X19.  The packing loop counts the header first and then never lets the
    total pass the budget: the total at the end is at least the cost of
    the header and at most the larger of the budget and that cost. *)
Theorem pack_respects_budget (hdr : string) (budget : Z)
  (cands : list (string * string * Z)) :
  Py.approx_tokens hdr <= used_tokens (pack hdr budget cands)
  /\ used_tokens (pack hdr budget cands) <= Z.max budget (Py.approx_tokens hdr).
Proof.
  unfold pack.
  apply (pack_steps_budget budget (Z.max budget (Py.approx_tokens hdr)) cands
           {| selected_blocks := [hdr]; used_tokens := Py.approx_tokens hdr;
              omitted_titles := []; planner_trace := [] |}); cbn [used_tokens]; lia.
Qed.

(** X20.  The planner trace has one entry for every candidate whose body
    is not blank, in the order of the candidates, with the candidate's
    title and priority; the titles reported as omitted are those of the
    entries that were not included, in that order; and the selected blocks
    are the header and one block for every included entry. *)
Theorem planner_trace_complete (hdr : string) (budget : Z)
  (cands : list (string * string * Z)) :
  map shown (planner_trace (pack hdr budget cands))
  = map (fun c : string * string * Z => (c.1.1, c.2)) (List.filter with_body cands)
  /\ omitted_titles (pack hdr budget cands)
     = map pl_title (List.filter left_out (planner_trace (pack hdr budget cands)))
  /\ length (selected_blocks (pack hdr budget cands))
     = S (length (included_titles (pack hdr budget cands))).
Proof.
  unfold pack.
  destruct (pack_steps_trace budget cands
              {| selected_blocks := [hdr]; used_tokens := Py.approx_tokens hdr;
                 omitted_titles := []; planner_trace := [] |} eq_refl)
    as (Ht & Ho & Hd).
  split; [exact Ht|]. split; [exact Ho|].
  unfold included_titles at 1 in Hd.
  cbn [selected_blocks planner_trace List.filter map length] in Hd. lia.
Qed.

(** X21.  [block_candidates] lists the blocks by falling priority already,
    so the stable sort by priority that [main] applies before packing
    leaves them as listed, whatever the notes and the rendered events. *)
Theorem candidates_already_sorted (n : notes) (rendered : list string) :
  sort_desc candidate_lt (block_candidates n rendered) = block_candidates n rendered.
Proof. reflexivity. Qed.

(** *** Scoring *)

Lemma kind_bonus_bounds (kind : string) : 0 <= kind_bonus kind <= 12.
Proof. unfold kind_bonus. repeat destruct (one_of _ _); lia. Qed.

Lemma status_bonus_bounds (status : string) : 0 <= status_bonus status <= 22.
Proof. unfold status_bonus. repeat destruct (String.eqb _ _); lia. Qed.

Lemma filter_length_le {A} (f : A -> bool) (l : list A) :
  (length (List.filter f l) <= length l)%nat.
Proof. induction l as [|x l IH]; simpl; [lia|]. destruct (f x); simpl; lia. Qed.

(** X22.  Where [event_score] returns, the score is the sum of the parts
    its trace lists; for a rank that is not negative it lies between 0 and
    71 plus 5 for every query term; and the same event at a later rank
    scores no higher, and at most 28 lower. *)
Theorem event_score_bounds (event : gmap string jvalue) (rank : Z)
  (terms : list string) (task_focus : string) (score : Z) (tr : score_trace) :
  0 <= rank ->
  event_score event rank terms task_focus = Some (score, tr) ->
  score = tr_recency_score tr + tr_status_bonus tr + tr_kind_bonus tr
          + 5 * Z.of_nat (length (tr_term_hits tr))
          + (if tr_task_match tr then 9 else 0)
  /\ 0 <= score <= 71 + 5 * Z.of_nat (length terms)
  /\ (forall rank', rank <= rank' ->
        exists score' tr',
          event_score event rank' terms task_focus = Some (score', tr')
          /\ score' <= score <= score' + 28).
Proof.
  intros Hrank. unfold event_score.
  destruct (haystack event) as [hay|]; [|done]. intros [= <- <-].
  cbn [tr_recency_score tr_status_bonus tr_kind_bonus tr_term_hits tr_task_match].
  pose proof (kind_bonus_bounds (Py.lower (Py.strip (field_str event "kind")))) as Hk.
  pose proof (status_bonus_bounds (Py.lower (field_str event "status"))) as Hs.
  pose proof (filter_length_le (fun term => Py.contains term hay) terms) as Hf.
  set (hits := List.filter _ terms) in *.
  set (tm := negb _ && _).
  split; [done|]. split; [destruct tm; lia|].
  intros rank' Hle. eexists _, _. split; [reflexivity|]. lia.
Qed.

Lemma event_score_bounds_witness :
  27 = 0 + 22 + 0 + 5 * Z.of_nat (length [ "broke" ]) + 0
  /\ 0 <= 27 <= 71 + 5 * Z.of_nat (length [ "broke"; "absent" ])
  /\ (forall rank', 40 <= rank' ->
        exists score' tr',
          event_score (<["status" := JStr "failure"]> (<["summary" := JStr "suite broke"]> ∅))
            rank' [ "broke"; "absent" ] EmptyString = Some (score', tr')
          /\ score' <= 27 <= score' + 28).
Proof.
  apply (event_score_bounds
           (<["status" := JStr "failure"]> (<["summary" := JStr "suite broke"]> ∅))
           40 [ "broke"; "absent" ] EmptyString 27
           {| tr_recency_rank := 40; tr_recency_score := 0; tr_status_bonus := 22;
              tr_kind_bonus := 0; tr_term_hits := [ "broke" ]; tr_task_match := false |}).
  - lia.
  - vm_compute. reflexivity.
Defined.

(** *** Query terms *)

Lemma term_runs_chars (cur s : string) :
  StringFacts.all_chars StringFacts.is_lowered s = true ->
  StringFacts.all_chars (fun c => is_term_char c && StringFacts.is_lowered c) cur = true ->
  Forall (fun w => StringFacts.all_chars
                     (fun c => is_term_char c && StringFacts.is_lowered c) w = true)
    (term_runs cur s).
Proof.
  revert cur. induction s as [|c s IH]; intros cur Hs Hcur; cbn [term_runs].
  - destruct (String.eqb cur EmptyString); by repeat constructor.
  - cbn [StringFacts.all_chars] in Hs. apply andb_true_iff in Hs as [Hc Hs].
    destruct (is_term_char c) eqn:Hterm.
    + apply IH; [done|]. rewrite StringFacts.all_chars_app, Hcur. simpl.
      by rewrite Hterm, Hc.
    + destruct (String.eqb cur EmptyString); [by apply IH|].
      constructor; [done|]. by apply IH.
Qed.

(** X23.  [tokenize_terms] lists no term twice, and every term is a run of
    at least three of the characters [a-z0-9_./-], in lower case. *)
Theorem tokenize_terms_shape (text : string) :
  NoDup (tokenize_terms text)
  /\ forall w, w ∈ tokenize_terms text ->
       3 <= Py.len w
       /\ StringFacts.all_chars is_term_char w = true
       /\ Py.lower w = w.
Proof.
  unfold tokenize_terms, Py.unique_keep_order. split; [apply LedgerMore.unique_from_NoDup|].
  intros w [Hw _]%LedgerMore.unique_from_elem.
  apply list_elem_of_In, filter_In in Hw as [Hw Hlen]. apply list_elem_of_In in Hw.
  split; [lia|].
  pose proof (term_runs_chars EmptyString (Py.lower text)
                (StringFacts.lower_lowered text) eq_refl) as Hall.
  rewrite Forall_forall in Hall. specialize (Hall w Hw).
  rewrite StringFacts.all_chars_and in Hall. apply andb_true_iff in Hall as [Ht Hl].
  split; [done|]. by apply StringFacts.lowered_fixed.
Qed.

End RehydrateMore.

(** ** Text helpers *)

Module TextFacts.

Import Text.
Import StringFacts.

(** *** [slugify] *)

Lemma slug_char_no_space (c : ascii) : is_slug_char c = true -> Py.is_space c = false.
Proof.
  destruct c as [b0 b1 b2 b3 b4 b5 b6 b7].
  destruct b0, b1, b2, b3, b4, b5, b6, b7; vm_compute; congruence.
Qed.

Lemma dash_runs_chars (in_run : bool) (s : string) :
  all_chars is_slug_char (dash_runs in_run s) = true.
Proof.
  revert in_run. induction s as [|c s IH]; intros in_run; simpl; [done|].
  destruct (is_slug_char c) eqn:Hc.
  - simpl. by rewrite Hc, IH.
  - destruct in_run; [apply IH|]. simpl. by rewrite IH.
Qed.

Lemma dash_runs_fixed (in_run : bool) (s : string) :
  all_chars is_slug_char s = true -> dash_runs in_run s = s.
Proof.
  revert in_run. induction s as [|c s IH]; intros in_run; simpl; [done|].
  intros [Hc Hs]%andb_true_iff. by rewrite Hc, IH.
Qed.

Lemma lstrip_dash_chars (P : ascii -> bool) (s : string) :
  all_chars P s = true -> all_chars P (lstrip_dash s) = true.
Proof.
  induction s as [|c s IH]; simpl; [done|].
  intros [Hc Hs]%andb_true_iff. destruct (Ascii.eqb c "-"); [by apply IH|].
  simpl. by rewrite Hc, Hs.
Qed.

Lemma rstrip_dash_chars (P : ascii -> bool) (s : string) :
  all_chars P s = true -> all_chars P (rstrip_dash s) = true.
Proof.
  induction s as [|c s IH]; simpl; [done|].
  intros [Hc Hs]%andb_true_iff. specialize (IH Hs).
  destruct (rstrip_dash s) as [|d r].
  - destruct (Ascii.eqb c "-"); [done|]. simpl. by rewrite Hc.
  - cbn [all_chars]. by rewrite Hc.
Qed.

Lemma lstrip_dash_head (s : string) :
  lstrip_dash s = EmptyString
  \/ exists c r, lstrip_dash s = String c r /\ Ascii.eqb c "-" = false.
Proof.
  induction s as [|c s IH]; [by left|]. simpl.
  destruct (Ascii.eqb c "-") eqn:Hc; [done|]. right. by exists c, s.
Qed.

Lemma rstrip_dash_keeps_head (c : ascii) (s : string) :
  Ascii.eqb c "-" = false -> exists r, rstrip_dash (String c s) = String c r.
Proof.
  intros Hc. simpl. destruct (rstrip_dash s) as [|d r]; [|by eexists].
  rewrite Hc. by eexists.
Qed.

Lemma rstrip_dash_idempotent (s : string) : rstrip_dash (rstrip_dash s) = rstrip_dash s.
Proof.
  induction s as [|c s IH]; [done|]. simpl.
  destruct (rstrip_dash s) as [|d r] eqn:Hr.
  - destruct (Ascii.eqb c "-") eqn:Hc; [done|]. simpl. by rewrite Hc.
  - simpl in *. by rewrite IH.
Qed.

(** [s.endswith("-")] *)
Fixpoint ends_with_dash (s : string) : bool :=
  match s with
  | EmptyString => false
  | String c EmptyString => Ascii.eqb c "-"
  | String _ s' => ends_with_dash s'
  end.

Lemma rstrip_dash_end (s : string) : ends_with_dash (rstrip_dash s) = false.
Proof.
  induction s as [|c s IH]; [done|]. simpl.
  destruct (rstrip_dash s) as [|d r] eqn:Hr.
  - destruct (Ascii.eqb c "-") eqn:Hc; [done|]. simpl. by rewrite Hc.
  - exact IH.
Qed.

(** The slug before the fallback to ["entry"]. *)
Definition slug_core (text : string) : string :=
  rstrip_dash (lstrip_dash (dash_runs false (Py.strip text))).

Lemma slug_core_shape (text : string) :
  all_chars is_slug_char (slug_core text) = true
  /\ String.prefix "-" (slug_core text) = false
  /\ ends_with_dash (slug_core text) = false
  /\ lstrip_dash (slug_core text) = slug_core text.
Proof.
  unfold slug_core. split; [apply rstrip_dash_chars, lstrip_dash_chars, dash_runs_chars|].
  split; [|split; [apply rstrip_dash_end|]].
  - destruct (lstrip_dash_head (dash_runs false (Py.strip text))) as [->|(c & r & -> & Hc)];
      [done|].
    destruct (rstrip_dash_keeps_head c r Hc) as [r' ->]. cbn [String.prefix].
    destruct (Ascii.ascii_dec "-" c) as [<-|]; [|done]. by rewrite Ascii.eqb_refl in Hc.
  - destruct (lstrip_dash_head (dash_runs false (Py.strip text))) as [->|(c & r & -> & Hc)];
      [done|].
    destruct (rstrip_dash_keeps_head c r Hc) as [r' ->]. simpl. by rewrite Hc.
Qed.

(** X24.  [slugify] never returns an empty text; what it returns is made of
    the characters [a-zA-Z0-9._-] only and neither starts nor ends with a
    dash; and a slug is its own slug. *)
Theorem slugify_shape (text : string) :
  slugify text <> EmptyString
  /\ all_chars is_slug_char (slugify text) = true
  /\ String.prefix "-" (slugify text) = false
  /\ ends_with_dash (slugify text) = false
  /\ slugify (slugify text) = slugify text.
Proof.
  destruct (slug_core_shape text) as (Hchars & Hhead & Hend & Hl).
  unfold slugify. fold (slug_core text). unfold Py.or_str.
  destruct (String.eqb_spec (slug_core text) EmptyString) as [Hempty|Hfull].
  - repeat split; try done.
  - split; [done|]. split; [done|]. split; [done|]. split; [done|].
    rewrite (strip_no_space (slug_core text))
      by (apply (all_chars_impl is_slug_char); [|done];
          intros c Hc; by rewrite (slug_char_no_space c Hc)).
    rewrite (dash_runs_fixed false _ Hchars), Hl.
    assert (rstrip_dash (slug_core text) = slug_core text) as ->
      by (unfold slug_core; apply rstrip_dash_idempotent).
    apply String.eqb_neq in Hfull. by rewrite Hfull.
Qed.

(** *** [compact_lines] *)

(** The characters of the lines, without what joins them. *)
Definition total_len (lines : list string) : Z :=
  foldr (fun line acc => Py.len line + acc) 0 lines.

(** What [compact_lines] asks of a line it keeps. *)
Definition kept_line (line : string) : Prop :=
  Py.rstrip line = line /\ Py.strip line <> EmptyString /\ String.prefix "#" line = false.

Lemma compact_from_bounds (max_lines max_chars count chars : Z) (lines : list string) :
  (compact_from max_lines max_chars count chars lines = []
   \/ (count + Z.of_nat (length (compact_from max_lines max_chars count chars lines))
       <= max_lines
       /\ chars + total_len (compact_from max_lines max_chars count chars lines)
          <= max_chars))
  /\ Forall kept_line (compact_from max_lines max_chars count chars lines).
Proof.
  revert count chars. induction lines as [|raw rest IH]; intros count chars;
    cbn [compact_from]; [by split; [left|]|].
  destruct (String.eqb_spec (Py.strip (Py.rstrip raw)) EmptyString) as [|Hfull]; [apply IH|].
  destruct (String.prefix "#" (Py.rstrip raw)) eqn:Hhash; [apply IH|].
  destruct (Z.leb_spec max_lines count); [by split; [left|]|].
  destruct (Z.ltb_spec max_chars (chars + Py.len (Py.rstrip raw))); [by split; [left|]|].
  destruct (IH (count + 1) (chars + Py.len (Py.rstrip raw))) as [Hb Hk].
  split.
  - right. cbn [length total_len foldr]. fold (total_len
      (compact_from max_lines max_chars (count + 1) (chars + Py.len (Py.rstrip raw)) rest)).
    destruct Hb as [->|[H1 H2]]; [cbn; lia|lia].
  - constructor; [|done]. split; [apply LedgerMore.rstrip_idempotent|done].
Qed.

Lemma join_len (sep : string) (parts : list string) :
  Py.len (Py.join sep parts)
  = total_len parts + Py.len sep * Z.max 0 (Z.of_nat (length parts) - 1).
Proof.
  induction parts as [|p rest IH]; [cbn [Py.join total_len foldr length]; change (Py.len EmptyString) with 0; lia|].
  destruct rest as [|q rest].
  - cbn [Py.join total_len foldr length]. lia.
  - change (Py.join sep (p :: q :: rest)) with (p +:+ sep +:+ Py.join sep (q :: rest)).
    rewrite !PyFacts.len_append, IH. cbn [total_len foldr length].
    rewrite !Z.max_r by lia. rewrite !Nat2Z.inj_succ. ring.
Qed.

(** X25.  [compact_lines] keeps at most [max_lines] lines holding at most
    [max_chars] characters between them; the text it returns can be longer
    than [max_chars] by the line breaks that join the lines, one fewer than
    there are lines.  Every line kept has no trailing blanks, is not blank
    and does not start with [#]. *)
Theorem compact_lines_bounds (text : string) (max_lines max_chars : Z) :
  Z.of_nat (length (compact_kept text max_lines max_chars)) <= Z.max 0 max_lines
  /\ total_len (compact_kept text max_lines max_chars) <= Z.max 0 max_chars
  /\ Py.len (compact_lines text max_lines max_chars)
     = total_len (compact_kept text max_lines max_chars)
       + Z.max 0 (Z.of_nat (length (compact_kept text max_lines max_chars)) - 1)
  /\ Py.len (compact_lines text max_lines max_chars)
     <= Z.max 0 max_chars + Z.max 0 (max_lines - 1)
  /\ Forall kept_line (compact_kept text max_lines max_chars).
Proof.
  unfold compact_lines, compact_kept.
  destruct (compact_from_bounds max_lines max_chars 0 0 (splitlines text)) as [Hb Hk].
  rewrite join_len. change (Py.len Py.nl) with 1.
  set (kept := compact_from max_lines max_chars 0 0 (splitlines text)) in *.
  destruct Hb as [->|[H1 H2]]; cbn [length total_len foldr]; repeat split; try done; lia.
Qed.

(** *** [tail_decision_titles] *)

Lemma slice_from_suffix {A} (m : Z) (l : list A) :
  exists older, l = older ++ Py.slice_from m l.
Proof.
  unfold Py.slice_from. destruct (0 <=? m); eexists; symmetry; apply take_drop.
Qed.

Lemma slice_from_tail {A} (k : Z) (l : list A) :
  0 < k -> Z.of_nat (length (Py.slice_from (- k) l)) = Z.min k (Z.of_nat (length l)).
Proof.
  intros Hk. unfold Py.slice_from. destruct (Z.leb_spec 0 (- k)); [lia|].
  rewrite length_drop, Z.opp_involutive. lia.
Qed.

Lemma rstrip_prefix (p s : string) :
  all_chars (fun c => negb (Py.is_space c)) p = true ->
  String.prefix p s = true -> String.prefix p (Py.rstrip s) = true.
Proof.
  revert s. induction p as [|a p IH]; intros s Hp; [by destruct (Py.rstrip s)|].
  cbn [all_chars] in Hp. apply andb_true_iff in Hp as [Ha Hp].
  destruct s as [|b s]; [done|]. cbn [String.prefix].
  destruct (Ascii.ascii_dec a b) as [<-|]; [|done]. intros Hs.
  specialize (IH s Hp Hs). cbn [Py.rstrip].
  destruct (Py.rstrip s) as [|d r].
  - destruct p; [|done]. apply negb_true_iff in Ha. rewrite Ha. cbn [String.prefix].
    by destruct (Ascii.ascii_dec a a).
  - cbn [String.prefix]. by destruct (Ascii.ascii_dec a a).
Qed.

Lemma title_prefix (line : string) :
  String.prefix "### " line = true -> String.prefix "###" (Py.strip line) = true.
Proof.
  intros Hline.
  assert (String.prefix "###" line = true /\ Py.lstrip line = line) as [Hp Hl].
  { destruct line as [|c1 [|c2 [|c3 rest]]]; try done; cbn [String.prefix] in *.
    - by destruct (Ascii.ascii_dec "#" c1).
    - destruct (Ascii.ascii_dec "#" c1); [|done]. by destruct (Ascii.ascii_dec "#" c2).
    - destruct (Ascii.ascii_dec "#" c1) as [<-|]; [|done].
      destruct (Ascii.ascii_dec "#" c2) as [<-|]; [|done].
      destruct (Ascii.ascii_dec "#" c3) as [<-|]; [|done].
      split; [by destruct rest | reflexivity]. }
  unfold Py.strip. rewrite Hl. by apply rstrip_prefix.
Qed.

(** X26.  [tail_decision_titles] returns the last titles of the document,
    in order: a suffix of the trimmed lines that start with [### ], with
    [max_items] of them when [max_items] is positive and there are that
    many.  With [max_items] at 0 it returns every title, not none.  Each
    title returned still starts with [###] and has no blanks around it. *)
Theorem tail_decision_titles_suffix (decisions_md : string) (max_items : Z) :
  (exists older,
     map Py.strip (List.filter (String.prefix "### ") (splitlines decisions_md))
     = older ++ tail_decision_titles decisions_md max_items)
  /\ (0 < max_items ->
      Z.of_nat (length (tail_decision_titles decisions_md max_items))
      = Z.min max_items
          (Z.of_nat (length (List.filter (String.prefix "### ") (splitlines decisions_md)))))
  /\ tail_decision_titles decisions_md 0
     = map Py.strip (List.filter (String.prefix "### ") (splitlines decisions_md))
  /\ (forall t, t ∈ tail_decision_titles decisions_md max_items ->
        String.prefix "###" t = true /\ Py.strip t = t).
Proof.
  unfold tail_decision_titles.
  set (titles := map Py.strip (List.filter (String.prefix "### ") (splitlines decisions_md))).
  destruct (slice_from_suffix (- max_items) titles) as [older Hold].
  split; [by exists older|]. split.
  { intros Hk. rewrite (slice_from_tail max_items titles Hk). unfold titles.
    by rewrite length_map. }
  split; [done|].
  intros t Ht.
  assert (t ∈ titles) as Hin by (rewrite Hold; set_solver).
  unfold titles in Hin. change (map Py.strip ?l) with (Py.strip <$> l) in Hin.
  apply list_elem_of_fmap in Hin as (line & -> & Hline).
  apply list_elem_of_In, filter_In in Hline as [_ Hp].
  split; [by apply title_prefix | apply LedgerMore.strip_idempotent].
Qed.

(** *** [extract_section] *)

Lemma section_lines_body (start : string) (body : list string) (next : string)
  (post : list string) :
  Forall (fun l => Py.strip l <> start /\ String.prefix "## " l = false) body ->
  String.prefix "## " next = true -> Py.strip next <> start ->
  section_lines start true (body ++ next :: post) = body.
Proof.
  intros Hbody Hnext Hne. induction Hbody as [|l body [Hl Hp] _ IH]; cbn [app section_lines].
  - apply String.eqb_neq in Hne. by rewrite Hne, Hnext.
  - apply String.eqb_neq in Hl. rewrite Hl, Hp. cbn. by rewrite IH.
Qed.

Lemma section_lines_end (start : string) (body : list string) :
  Forall (fun l => Py.strip l <> start /\ String.prefix "## " l = false) body ->
  section_lines start true body = body.
Proof.
  induction 1 as [|l body [Hl Hp] _ IH]; cbn [section_lines]; [done|].
  apply String.eqb_neq in Hl. rewrite Hl, Hp. cbn. by rewrite IH.
Qed.

Lemma section_lines_absent (start : string) (lines : list string) :
  Forall (fun l => Py.strip l <> start) lines -> section_lines start false lines = [].
Proof.
  induction 1 as [|l lines Hl _ IH]; cbn [section_lines]; [done|].
  apply String.eqb_neq in Hl. by rewrite Hl.
Qed.

(** X27.  The loop of [extract_section] collects the lines between the
    heading and the next line that starts with [## ]: with no earlier line
    equal to the heading once trimmed, and no line of the body equal to it
    or starting with [## ], the body is what it collects, whether a next
    heading follows or the document ends.  What precedes the heading and
    what follows the next heading plays no part. *)
Theorem section_lines_between (start heading_line next : string)
  (pre body post : list string) :
  Forall (fun l => Py.strip l <> start) pre ->
  Py.strip heading_line = start ->
  Forall (fun l => Py.strip l <> start /\ String.prefix "## " l = false) body ->
  String.prefix "## " next = true ->
  Py.strip next <> start ->
  section_lines start false (pre ++ heading_line :: body ++ next :: post) = body
  /\ section_lines start false (pre ++ heading_line :: body) = body.
Proof.
  intros Hpre Hh Hbody Hnext Hne.
  assert (forall tail, section_lines start false (pre ++ heading_line :: tail)
                       = section_lines start true tail) as Hskip.
  { intros tail. induction Hpre as [|l pre Hl _ IH]; cbn [app section_lines].
    - apply String.eqb_eq in Hh. by rewrite Hh.
    - apply String.eqb_neq in Hl. by rewrite Hl. }
  rewrite !Hskip. split; [by apply section_lines_body | by apply section_lines_end].
Qed.

Lemma section_lines_between_witness :
  section_lines "## Status" false
    ([ "# Task"; "" ] ++ "## Status " :: [ "all good"; "### detail" ] ++ "## Next" :: [ "later" ])
  = [ "all good"; "### detail" ]
  /\ section_lines "## Status" false
       ([ "# Task"; "" ] ++ "## Status " :: [ "all good"; "### detail" ])
     = [ "all good"; "### detail" ].
Proof.
  apply (section_lines_between "## Status" "## Status " "## Next"
           [ "# Task"; "" ] [ "all good"; "### detail" ] [ "later" ]).
  - repeat constructor; by vm_compute.
  - reflexivity.
  - repeat constructor; by vm_compute.
  - reflexivity.
  - by vm_compute.
Defined.

(** Where no line of the document is the heading once trimmed,
    [extract_section] returns the empty text; and what it returns never has
    blanks around it. *)
Theorem extract_section_absent (markdown heading : string) :
  (forall line, line ∈ splitlines markdown -> Py.strip line <> Py.strip ("## " +:+ heading)) ->
  extract_section markdown heading = EmptyString
  /\ forall other, Py.strip (extract_section markdown other) = extract_section markdown other.
Proof.
  intros Habsent. split; [|intros other; apply LedgerMore.strip_idempotent].
  unfold extract_section. rewrite section_lines_absent; [done|].
  by apply Forall_forall.
Qed.

Lemma extract_section_absent_witness :
  extract_section ("# Task" +:+ Py.nl +:+ "## Status" +:+ Py.nl +:+ "ok") "Risks" = EmptyString
  /\ forall other,
       Py.strip (extract_section ("# Task" +:+ Py.nl +:+ "## Status" +:+ Py.nl +:+ "ok") other)
       = extract_section ("# Task" +:+ Py.nl +:+ "## Status" +:+ Py.nl +:+ "ok") other.
Proof.
  apply (extract_section_absent ("# Task" +:+ Py.nl +:+ "## Status" +:+ Py.nl +:+ "ok") "Risks").
  intros line Hline. vm_compute in Hline.
  repeat (apply elem_of_cons in Hline as [->|Hline]; [by vm_compute|]).
  by apply elem_of_nil in Hline.
Defined.

End TextFacts.

(** ** More on the typed-memory summary *)

Module TypedMemoryMore.

Import TypedMemory.

(** *** The window *)

(** X28.  The summary is computed from the last records of the ledger: the
    window is a suffix of the objects of the file, the last [max_events]
    of them (or all, where there are fewer) when [--max-events] is
    positive, and all of them when it is zero or negative. *)
Theorem window_suffix (f : Ledger.file) (rq : request) :
  (exists older, Ledger.objects f = older ++ window f rq)
  /\ (0 < max_events rq ->
      Z.of_nat (length (window f rq))
      = Z.min (max_events rq) (Z.of_nat (length (Ledger.objects f))))
  /\ (max_events rq <= 0 -> window f rq = Ledger.objects f).
Proof.
  unfold window. destruct (Z.ltb_spec 0 (max_events rq)) as [Hpos|Hneg].
  - split; [apply TextFacts.slice_from_suffix|].
    split; [intros _; by apply TextFacts.slice_from_tail | lia].
  - split; [by exists []|]. split; [lia|done].
Qed.

(** *** [most_common] *)

Lemma count_lt_asym (x y : string * Z) : count_lt x y = true -> count_lt y x = false.
Proof. unfold count_lt. lia. Qed.

Lemma count_lt_trans (x y z : string * Z) :
  count_lt x y = true -> count_lt y z = true -> count_lt x z = true.
Proof. unfold count_lt. lia. Qed.

(** [most_common(limit)] with a limit that is not negative returns at
    most [limit] entries of the counter, by falling count, and nothing it
    leaves out has a higher count than something it returns. *)
Theorem most_common_top (counter : list (string * Z)) (limit : Z) :
  0 <= limit ->
  Z.of_nat (length (most_common counter limit)) = Z.min limit (Z.of_nat (length counter))
  /\ (forall (i j : nat) a b, (i < j)%nat ->
        most_common counter limit !! i = Some a ->
        most_common counter limit !! j = Some b -> b.2 <= a.2)
  /\ (exists rest, counter ≡ₚ most_common counter limit ++ rest
                   /\ forall a b, a ∈ most_common counter limit -> b ∈ rest -> b.2 <= a.2).
Proof.
  intros Hlimit. unfold most_common, Py.slice_to.
  destruct (Z.leb_spec 0 limit) as [_|]; [|lia].
  pose proof (RankFacts.sort_desc_sorted count_lt count_lt_asym count_lt_trans counter)
    as Hsorted.
  pose proof (RankFacts.sort_desc_perm count_lt count_lt_asym count_lt_trans counter)
    as Hperm.
  set (sorted := Rehydrate.sort_desc count_lt counter) in *.
  split; [rewrite length_take, <- (Permutation_length Hperm); lia|].
  split.
  - intros i j a b Hij Ha Hb.
    apply lookup_take_Some in Ha as [Ha _]. apply lookup_take_Some in Hb as [Hb _].
    pose proof (RankFacts.strongly_sorted_lookup _ _ i j a b Hsorted Hij Ha Hb) as Hab.
    unfold RankFacts.not_below, count_lt in Hab. lia.
  - exists (drop (Z.to_nat limit) sorted). split; [by rewrite take_drop|].
    intros a b [i Ha]%list_elem_of_lookup_1 [j Hb]%list_elem_of_lookup_1.
    apply lookup_take_Some in Ha as [Ha Hi]. rewrite lookup_drop in Hb.
    pose proof (RankFacts.strongly_sorted_lookup _ _ i (Z.to_nat limit + j) a b Hsorted
                  ltac:(lia) Ha Hb) as Hab.
    unfold RankFacts.not_below, count_lt in Hab. lia.
Qed.

Lemma most_common_top_witness :
  Z.of_nat (length (most_common [("a", 1); ("b", 3); ("c", 2)] 2))
  = Z.min 2 (Z.of_nat (length [("a", 1); ("b", 3); ("c", 2)]))
  /\ (forall (i j : nat) a b, (i < j)%nat ->
        most_common [("a", 1); ("b", 3); ("c", 2)] 2 !! i = Some a ->
        most_common [("a", 1); ("b", 3); ("c", 2)] 2 !! j = Some b -> b.2 <= a.2)
  /\ (exists rest, [("a", 1); ("b", 3); ("c", 2)]
                   ≡ₚ most_common [("a", 1); ("b", 3); ("c", 2)] 2 ++ rest
                   /\ forall a b, a ∈ most_common [("a", 1); ("b", 3); ("c", 2)] 2 ->
                                  b ∈ rest -> b.2 <= a.2).
Proof. apply (most_common_top [("a", 1); ("b", 3); ("c", 2)] 2). lia. Defined.

(** *** [_extract] *)

(** A value under [paths], [symbols] or [commands] that the loops of
    [_extract] cannot iterate: a number other than 0, or [true]. *)
Definition not_iterable (v : jvalue) : Prop :=
  v = JBool true \/ exists n, n <> 0 /\ v = JInt n.

Lemma iter_get_or_None (ev : gmap string jvalue) (k : string) :
  Json.iter (Json.get_or ev k (JArr [])) = None
  <-> exists v, ev !! k = Some v /\ not_iterable v.
Proof.
  unfold Json.get_or, not_iterable. destruct (ev !! k) as [v|]; [|split; [done|]].
  - destruct v as [|[]|n|s|items|fields]; cbn [Json.truthy Json.iter];
      try (split; [done|]; intros (v & [= <-] & [?|(m & _ & ?)]); done).
    + split; [eauto|done].
    + destruct (Z.eqb_spec n 0) as [->|Hn]; cbn [negb Json.iter].
      * split; [done|]. intros (v & [= <-] & [?|(m & Hm & [= <-])]); done.
      * split; [|done]. intros _. exists (JInt n). eauto.
    + destruct (String.eqb s EmptyString); cbn;
        (split; [done|]; intros (v & [= <-] & [?|(m & _ & ?)]); done).
    + destruct items; cbn; (split; [done|]; intros (v & [= <-] & [?|(m & _ & ?)]); done).
    + destruct fields; cbn; (split; [done|]; intros (v & [= <-] & [?|(m & _ & ?)]); done).
  - intros (v & ? & _). done.
Qed.

Lemma count_field_None (ev : gmap string jvalue) (k : string) (counter : list (string * Z)) :
  count_field ev k counter = None <-> Json.iter (Json.get_or ev k (JArr [])) = None.
Proof. unfold count_field. by destruct (Json.iter _). Qed.

Lemma extract_step_None (t : tally) (ev : gmap string jvalue) :
  extract_step t ev = None
  <-> exists k, k ∈ [ "paths"; "symbols"; "commands" ]
                /\ Json.iter (Json.get_or ev k (JArr [])) = None.
Proof.
  unfold extract_step.
  destruct (count_field ev "paths" (path_counter t)) eqn:Hp.
  - destruct (count_field ev "symbols" (symbol_counter t)) eqn:Hs.
    + destruct (count_field ev "commands" (command_counter t)) eqn:Hc.
      * split; [done|]. intros (k & Hk & Hnone).
        apply elem_of_cons in Hk as [->|Hk];
          [apply (count_field_None _ _ (path_counter t)) in Hnone; congruence|].
        apply elem_of_cons in Hk as [->|Hk];
          [apply (count_field_None _ _ (symbol_counter t)) in Hnone; congruence|].
        apply elem_of_cons in Hk as [->|Hk];
          [apply (count_field_None _ _ (command_counter t)) in Hnone; congruence|].
        by apply elem_of_nil in Hk.
      * split; [|done]. intros _. exists "commands".
        split; [set_solver|]. by eapply count_field_None.
    + split; [|done]. intros _. exists "symbols".
      split; [set_solver|]. by eapply count_field_None.
  - split; [|done]. intros _. exists "paths".
    split; [set_solver|]. by eapply count_field_None.
Qed.

Lemma extract_loop_None (t : tally) (events : list (gmap string jvalue)) :
  extract_loop t events = None
  <-> exists ev k, ev ∈ events /\ k ∈ [ "paths"; "symbols"; "commands" ]
                   /\ Json.iter (Json.get_or ev k (JArr [])) = None.
Proof.
  revert t. induction events as [|ev rest IH]; intros t; cbn [extract_loop].
  - split; [done|]. intros (ev & k & Hin & _). by apply elem_of_nil in Hin.
  - destruct (extract_step t ev) as [t'|] eqn:Hstep.
    + rewrite IH. split.
      * intros (ev' & k & Hin & Hk). exists ev', k. split; [set_solver|done].
      * intros (ev' & k & [->|Hin]%elem_of_cons & Hk); [|by exists ev', k].
        assert (extract_step t ev = None) as Hnone by (apply extract_step_None; eauto).
        congruence.
    + split; [|done]. intros _. apply extract_step_None in Hstep as (k & Hk).
      exists ev, k. split; [set_solver|done].
Qed.

(** X29.  Over events whose numbers are integers, [_extract] raises exactly
    when some event holds, under [paths], [symbols] or [commands], a number
    other than 0 or [true]; with anything else there (nothing, [null],
    [false], 0, a text, a list, an object) it returns a summary. *)
Theorem extract_raises (events : list (gmap string jvalue)) (max_items : Z)
  (generated_at : string) :
  extract events max_items generated_at = None
  <-> exists ev k v, ev ∈ events /\ k ∈ [ "paths"; "symbols"; "commands" ]
                     /\ ev !! k = Some v /\ not_iterable v.
Proof.
  unfold extract.
  assert (extract_loop empty_tally events = None
          <-> exists ev k v, ev ∈ events /\ k ∈ [ "paths"; "symbols"; "commands" ]
                             /\ ev !! k = Some v /\ not_iterable v) as <-.
  { rewrite extract_loop_None. split.
    - intros (ev & k & Hin & Hk & (v & Hv & Hbad)%iter_get_or_None). by exists ev, k, v.
    - intros (ev & k & v & Hin & Hk & Hv & Hbad). exists ev, k.
      split; [done|]. split; [done|]. apply iter_get_or_None. eauto. }
  by destruct (extract_loop empty_tally events).
Qed.

Lemma extract_step_lengths (t t' : tally) (ev : gmap string jvalue) :
  extract_step t ev = Some t' ->
  (length (decisions t') <= S (length (decisions t)))%nat
  /\ (length (risks t') <= S (length (risks t)))%nat
  /\ (length (successes t') <= S (length (successes t)))%nat.
Proof.
  unfold extract_step.
  destruct (count_field ev "paths" _); [|done].
  destruct (count_field ev "symbols" _); [|done].
  destruct (count_field ev "commands" _); [|done].
  intros [= <-]. cbn [decisions risks successes].
  repeat split;
    match goal with |- context [if ?c then _ else _] => destruct c end;
    rewrite ?length_app; cbn [length]; lia.
Qed.

Lemma extract_loop_lengths (t t' : tally) (events : list (gmap string jvalue)) :
  extract_loop t events = Some t' ->
  (length (decisions t') <= length (decisions t) + length events)%nat
  /\ (length (risks t') <= length (risks t) + length events)%nat
  /\ (length (successes t') <= length (successes t) + length events)%nat.
Proof.
  revert t. induction events as [|ev rest IH]; intros t; cbn [extract_loop].
  - intros [= <-]. lia.
  - destruct (extract_step t ev) as [t1|] eqn:Hstep; [|done]. intros Hloop.
    destruct (extract_step_lengths t t1 ev Hstep) as (H1 & H2 & H3).
    destruct (IH t1 Hloop) as (H4 & H5 & H6). cbn [length]. lia.
Qed.

(** X30.  In the summary [_extract] returns, [event_count] is the number of
    events, the three other counts are lengths of lists of at most that
    many snapshots, and the lists shown are the last [max_items] of these
    (or all, where there are fewer): the counts are not capped, the lists
    are. *)
Theorem extract_counts (events : list (gmap string jvalue)) (max_items : Z)
  (generated_at : string) (payload : gmap string jvalue) :
  1 <= max_items ->
  extract events max_items generated_at = Some payload ->
  payload !! "event_count" = Some (JInt (Z.of_nat (length events)))
  /\ exists d r s : list jvalue,
       (length d <= length events)%nat
       /\ (length r <= length events)%nat
       /\ (length s <= length events)%nat
       /\ payload !! "decision_count" = Some (JInt (Z.of_nat (length d)))
       /\ payload !! "risk_count" = Some (JInt (Z.of_nat (length r)))
       /\ payload !! "success_count" = Some (JInt (Z.of_nat (length s)))
       /\ payload !! "recent_decisions"
          = Some (JArr (drop (length d - Z.to_nat max_items) d))
       /\ payload !! "open_risks" = Some (JArr (drop (length r - Z.to_nat max_items) r))
       /\ payload !! "recent_successes"
          = Some (JArr (drop (length s - Z.to_nat max_items) s)).
Proof.
  intros Hmax. unfold extract.
  destruct (extract_loop empty_tally events) as [t|] eqn:Hloop; [|done].
  intros [= <-]. destruct (extract_loop_lengths _ _ _ Hloop) as (Hd & Hr & Hs).
  cbn [empty_tally decisions risks successes length] in Hd, Hr, Hs.
  unfold list_to_map. cbn [foldr uncurry].
  split; [by ContextOpsFacts.lookup_fields|].
  exists (decisions t), (risks t), (successes t).
  assert (forall l : list jvalue,
            Py.slice_from (- max_items) l = drop (length l - Z.to_nat max_items) l) as Hslice.
  { intros l. unfold Py.slice_from. destruct (Z.leb_spec 0 (- max_items)); [lia|].
    by rewrite Z.opp_involutive. }
  rewrite !Hslice. unfold count_of.
  repeat split; try done; by ContextOpsFacts.lookup_fields.
Qed.

Lemma extract_counts_witness :
  default ∅ (extract Sample.two_events 1 "2026-03-01T12:00:00Z") !! "event_count"
  = Some (JInt (Z.of_nat (length Sample.two_events)))
  /\ exists d r s : list jvalue,
       (length d <= length Sample.two_events)%nat
       /\ (length r <= length Sample.two_events)%nat
       /\ (length s <= length Sample.two_events)%nat
       /\ default ∅ (extract Sample.two_events 1 "2026-03-01T12:00:00Z") !! "decision_count"
          = Some (JInt (Z.of_nat (length d)))
       /\ default ∅ (extract Sample.two_events 1 "2026-03-01T12:00:00Z") !! "risk_count"
          = Some (JInt (Z.of_nat (length r)))
       /\ default ∅ (extract Sample.two_events 1 "2026-03-01T12:00:00Z") !! "success_count"
          = Some (JInt (Z.of_nat (length s)))
       /\ default ∅ (extract Sample.two_events 1 "2026-03-01T12:00:00Z") !! "recent_decisions"
          = Some (JArr (drop (length d - Z.to_nat 1) d))
       /\ default ∅ (extract Sample.two_events 1 "2026-03-01T12:00:00Z") !! "open_risks"
          = Some (JArr (drop (length r - Z.to_nat 1) r))
       /\ default ∅ (extract Sample.two_events 1 "2026-03-01T12:00:00Z") !! "recent_successes"
          = Some (JArr (drop (length s - Z.to_nat 1) s)).
Proof.
  apply (extract_counts Sample.two_events 1 "2026-03-01T12:00:00Z"
           (default ∅ (extract Sample.two_events 1 "2026-03-01T12:00:00Z"))).
  - lia.
  - vm_compute. reflexivity.
Defined.

End TypedMemoryMore.
